(** * Self-healing code agent: patch lifecycle, repair loop and approval gate

    A shallow embedding of
      - [services/patch_applier.py]   (class [PatchApplier]),
      - [agents/critic_agent.py]      (class [CriticAgent]),
      - [agents/manager_agent.py]     (class [ManagerAgent]),
      - [integrations/git_auto_healer.py] (class [GitAutoHealer]),
    with the two methods of [agents/fixer_agent.py] that measure and trim a
    patch and the list kept by [services/notification_service.py],
    followed by the properties of the specification that concern them and
    by further properties of the same code.

    Conventions.  Python [str] is [string] (code points below 256), Python
    [int] is [Z], Python [float] is the primitive binary64 [float].  A call
    that can raise returns [pyresult]; the message carried by [Raise] is what
    [str(e)] gives in the source.  Methods that read or change the disk, the
    applier's [current_backup] or the clock are functions of a [world].
    The world also keeps a trace of what was done: backups, writes,
    restores, test runs, commits, pushes, notifications, and the lines
    written with [logger.error]; [logger.info], [logger.debug] and
    [logger.warning] lines are not kept.  Paths are POSIX paths. *)

From Stdlib Require Import ZArith Ascii String Floats.
From stdpp Require Import base tactics option list strings gmap pretty.

Local Open Scope string_scope.
Local Open Scope list_scope.
Local Open Scope Z_scope.

(** ** Python results and exceptions *)

Record exn := Exn { exn_type : string; exn_msg : string }.

Inductive pyresult (A : Type) : Type :=
| Ret (a : A)
| Raise (e : exn).
Arguments Ret {A} a.
Arguments Raise {A} e.

#[global] Instance pyresult_ret : MRet pyresult := fun A a => Ret a.

#[global] Instance pyresult_bind : MBind pyresult := fun A B k m =>
  match m with
  | Ret a => k a
  | Raise e => Raise e
  end.

(** ** Strings as Python uses them in the patch code *)

Module PyStr.

Definition nl : ascii := Ascii.ascii_of_nat 10.

(** [s.split('\n')]: never empty, [''.split('\n') == ['']]. *)
Fixpoint split_nl (s : string) : list string :=
  match s with
  | EmptyString => [EmptyString]
  | String c s' =>
      if Ascii.eqb c nl then EmptyString :: split_nl s'
      else match split_nl s' with
           | [] => [String c EmptyString]
           | h :: t => String c h :: t
           end
  end.

(** ['\n'.join(ls)]. *)
Fixpoint join_nl (ls : list string) : string :=
  match ls with
  | [] => EmptyString
  | [l] => l
  | l :: rest => l +:+ String nl (join_nl rest)
  end.

(** [s.startswith(p)]. *)
Definition startswith (p s : string) : bool := String.prefix p s.

(** [s[1:]]. *)
Definition tail1 (s : string) : string :=
  match s with
  | EmptyString => EmptyString
  | String _ s' => s'
  end.

(** [\d] on code points below 256: the ten ASCII digits. *)
Definition is_digit (c : ascii) : bool :=
  let n := Ascii.nat_of_ascii c in (48 <=? n)%nat && (n <=? 57)%nat.

(** Longest run of digits at the head of [s], and what follows it. *)
Fixpoint span_digits (s : string) : string * string :=
  match s with
  | EmptyString => (EmptyString, EmptyString)
  | String c s' =>
      if is_digit c then
        let '(d, r) := span_digits s' in (String c d, r)
      else (EmptyString, s)
  end.

(** [s] without the prefix [p], when it starts with it. *)
Fixpoint strip_prefix (p s : string) : option string :=
  match p, s with
  | EmptyString, _ => Some s
  | String a p', String b s' =>
      if Ascii.eqb a b then strip_prefix p' s' else None
  | String _ _, EmptyString => None
  end.

(** [int(ds)] for a run of digits. *)
Fixpoint int_of_digits_acc (acc : Z) (s : string) : Z :=
  match s with
  | EmptyString => acc
  | String c s' =>
      int_of_digits_acc (10 * acc + (Z.of_nat (Ascii.nat_of_ascii c) - 48)) s'
  end.

Definition int_of_digits (s : string) : Z := int_of_digits_acc 0 s.

(** An optional [','] ([,?]). *)
Definition skip_comma (s : string) : string :=
  match s with
  | String c s' => if Ascii.eqb c (Ascii.ascii_of_nat 44) then s' else s
  | EmptyString => s
  end.

(** A line followed by a newline and the rest of a text. *)
Definition ln (s rest : string) : string := s +:+ String nl rest.

(** The lines [ls], each closed by a newline, in front of [rest]. *)
Definition unlines (ls : list string) (rest : string) : string :=
  foldr ln rest ls.

Fixpoint has_nl (s : string) : bool :=
  match s with
  | EmptyString => false
  | String c s' => Ascii.eqb c nl || has_nl s'
  end.

End PyStr.

(** ** Python lists indexed by [int] *)

Module PyList.

Section Ops.
Context {A : Type}.

(** Normalised position of [del l[i]]: a negative [i] counts from the end;
    out of range raises [IndexError]. *)
Definition del_index (l : list A) (i : Z) : option nat :=
  let n := Z.of_nat (length l) in
  let j := if i <? 0 then i + n else i in
  if (0 <=? j) && (j <? n) then Some (Z.to_nat j) else None.

Definition index_error : exn :=
  Exn "IndexError" "list assignment index out of range".

Definition del (l : list A) (i : Z) : pyresult (list A) :=
  match del_index l i with
  | Some j => Ret (delete j l)
  | None => Raise index_error
  end.

(** Position used by [l.insert(i, x)]: negative counts from the end and
    both ends clamp; it never raises. *)
Definition insert_index (l : list A) (i : Z) : nat :=
  let n := Z.of_nat (length l) in
  let j := if i <? 0 then Z.max (i + n) 0 else Z.min i n in
  Z.to_nat j.

Definition insert (l : list A) (i : Z) (x : A) : list A :=
  let j := insert_index l i in take j l ++ x :: drop j l.

End Ops.

End PyList.

(** ** [PatchApplier]: parsing and applying unified diffs *)

Module Diff.
Import PyStr.

Inductive change_type := add | remove | context.

Record change := Change { type : change_type; line : string }.

Record hunk := Hunk { start_line : Z; changes : list change }.

#[global] Instance change_type_eq_dec : EqDecision change_type.
Proof. solve_decision. Defined.
#[global] Instance change_eq_dec : EqDecision change.
Proof. solve_decision. Defined.
#[global] Instance hunk_eq_dec : EqDecision hunk.
Proof. solve_decision. Defined.

(** [re.match(r'@@ -(\d+),?\d* \+(\d+),?\d* @@', line)], giving
    [int(group(2))].  The pattern is anchored at the start of the line only.
    After a literal, [\d+] takes the longest run of digits, [,?] an optional
    comma and [\d*] the digits that follow; every other way of splitting the
    digits between [\d+] and [\d*] reaches the same position, so the greedy
    choice decides the match and fixes the groups. *)
Definition hunk_match (line : string) : option Z :=
  r0 ← strip_prefix "@@ -" line;
  let '(old_start, r1) := span_digits r0 in
  if String.eqb old_start "" then None else
  let '(_, r2) := span_digits (skip_comma r1) in
  r3 ← strip_prefix " +" r2;
  let '(new_start, r4) := span_digits r3 in
  if String.eqb new_start "" then None else
  let '(_, r5) := span_digits (skip_comma r4) in
  _ ← strip_prefix " @@" r5;
  Some (int_of_digits new_start).

(** The [if / elif / elif] of the loop body of [_parse_patch_hunks]: the
    change a body line stands for, [None] when the line is skipped. *)
Definition classify (l : string) : option change :=
  if startswith "+" l && negb (startswith "+++" l) then Some (Change add (tail1 l))
  else if startswith "-" l && negb (startswith "---" l) then Some (Change remove (tail1 l))
  else if startswith " " l then Some (Change context (tail1 l))
  else None.

Definition flush (hunks : list hunk) (current_hunk : option hunk) : list hunk :=
  match current_hunk with
  | Some h => hunks ++ [h]
  | None => hunks
  end.

Definition append_change (h : hunk) (l : string) : hunk :=
  match classify l with
  | Some c => Hunk (start_line h) (changes h ++ [c])
  | None => h
  end.

(** The [for line in patch.split('\n')] loop, with its two variables. *)
Fixpoint parse_lines (lines : list string)
    (hunks : list hunk) (current_hunk : option hunk) : list hunk :=
  match lines with
  | [] => flush hunks current_hunk
  | l :: rest =>
      match hunk_match l with
      | Some n => parse_lines rest (flush hunks current_hunk) (Some (Hunk n []))
      | None =>
          match current_hunk with
          | Some h => parse_lines rest hunks (Some (append_change h l))
          | None => parse_lines rest hunks None
          end
      end
  end.

Definition _parse_patch_hunks (patch : string) : list hunk :=
  parse_lines (split_nl patch) [] None.

(** The inner loop of [_apply_patch_to_string] over the changes of one hunk;
    the state is [(result_lines, start_line, offset)]. *)
Fixpoint apply_changes (cs : list change)
    (result_lines : list string) (start_line offset : Z)
    : pyresult (list string * Z) :=
  match cs with
  | [] => Ret (result_lines, offset)
  | c :: cs' =>
      match type c with
      | remove =>
          result_lines' ← PyList.del result_lines start_line;
          apply_changes cs' result_lines' start_line (offset - 1)
      | add =>
          apply_changes cs' (PyList.insert result_lines start_line (line c))
            (start_line + 1) (offset + 1)
      | context =>
          apply_changes cs' result_lines (start_line + 1) offset
      end
  end.

(** The outer loop over the hunks. *)
Fixpoint apply_hunks (hunks : list hunk)
    (result_lines : list string) (offset : Z) : pyresult (list string) :=
  match hunks with
  | [] => Ret result_lines
  | h :: hs =>
      '(result_lines', offset') ←
        apply_changes (changes h) result_lines (start_line h - 1 + offset) offset;
      apply_hunks hs result_lines' offset'
  end.

Definition _apply_patch_to_string (original patch : string) : pyresult string :=
  let original_lines := split_nl original in
  let hunks := _parse_patch_hunks patch in
  result_lines ← apply_hunks hunks original_lines 0;
  Ret (join_nl result_lines).

End Diff.

(** ** Paths, time stamps and the disk *)

Module OsPath.

Definition slash : ascii := Ascii.ascii_of_nat 47.

Fixpoint has_slash (s : string) : bool :=
  match s with
  | EmptyString => false
  | String c s' => Ascii.eqb c slash || has_slash s'
  end.

(** [os.path.basename(p)]: what follows the last ['/']. *)
Fixpoint basename (p : string) : string :=
  match p with
  | EmptyString => EmptyString
  | String c p' =>
      if has_slash p' then basename p'
      else if Ascii.eqb c slash then p' else p
  end.

Fixpoint ends_with_slash (s : string) : bool :=
  match s with
  | EmptyString => false
  | String c EmptyString => Ascii.eqb c slash
  | String _ s' => ends_with_slash s'
  end.

(** [os.path.join(a, b)] (posixpath). *)
Definition join (a b : string) : string :=
  if PyStr.startswith "/" b then b
  else if String.eqb a "" || ends_with_slash a then a +:+ b
  else a +:+ String slash b.

End OsPath.

Module Clock.

Record datetime := DateTime
  { year : nat; month : nat; day : nat; hour : nat; minute : nat; second : nat }.

Definition digit (n : nat) : ascii := Ascii.ascii_of_nat (48 + n mod 10).

Definition pad2 (n : nat) : string :=
  String (digit (n / 10)) (String (digit n) EmptyString).

Definition pad4 (n : nat) : string :=
  String (digit (n / 1000)) (String (digit (n / 100)) (pad2 n)).

(** [strftime('%Y%m%d_%H%M%S')]. *)
Definition strftime (d : datetime) : string :=
  pad4 (year d) +:+ pad2 (month d) +:+ pad2 (day d) +:+ "_" +:+
  pad2 (hour d) +:+ pad2 (minute d) +:+ pad2 (second d).

End Clock.

(** The metadata [_create_backup] dumps next to a backup. *)
Record backup_meta := BackupMeta
  { original_file : string; timestamp : string; meta_backup_path : string }.

(** A file holds text, or the JSON document of a [backup_meta].  The disk is
    a flat map from path strings to files: directories, permissions and path
    normalisation are not modelled. *)
Inductive file :=
| Text (s : string)
| Meta (m : backup_meta).

(** Outcome of [ast.parse]. *)
Inductive ast_outcome :=
| AstOk
| AstSyntaxError (msg : string) (lineno : option Z)
| AstOther (e : exn).

(** Result of [PatchApplier.commit]. *)
Record commit_result := CommitResult
  { commit_success : bool;
    commit_hash : option string;
    commit_error : option string }.

(** What the interpreter and the operating system supply.  Readings that
    change with time take the number of readings made so far. *)
Record env := Env
  { now : nat -> Clock.datetime;
    json_dumps : backup_meta -> string;
    json_loads : string -> pyresult backup_meta;
    ast_parse : string -> ast_outcome;
    git_commit : nat -> string -> commit_result }.

(** Observable operations, in the order they happen. *)
Inductive event :=
| EvBackup (target backup : string)
| EvWrite (target : string)
| EvRestore (backup target : string)
| EvTests
| EvGitCommit (message : string)
| EvGitPush
| EvLogError (msg : string)
| EvLogStep (step : string) (attempt : Z)
| EvLearn (what : string)
| EvNotify (kind : string)
| EvCompleteRun (status : string).

#[global] Instance event_eq_dec : EqDecision event.
Proof. solve_decision. Defined.

Record world := World
  { disk : gmap string file;
    current_backup : option string;
    tick : nat;
    trace : list event }.

Definition set_disk (d : gmap string file) (w : world) : world :=
  World d (current_backup w) (tick w) (trace w).
Definition set_current_backup (b : option string) (w : world) : world :=
  World (disk w) b (tick w) (trace w).
Definition emit (e : event) (w : world) : world :=
  World (disk w) (current_backup w) (tick w) (trace w ++ [e]).
Definition next_tick (w : world) : world :=
  World (disk w) (current_backup w) (S (tick w)) (trace w).

(** ** Stateful computations that may raise *)

Definition M (A : Type) : Type := world -> pyresult A * world.

#[global] Instance M_ret : MRet M := fun A a w => (Ret a, w).

#[global] Instance M_bind : MBind M := fun A B k m w =>
  match m w with
  | (Ret a, w') => k a w'
  | (Raise e, w') => (Raise e, w')
  end.

Definition raise {A : Type} (e : exn) : M A := fun w => (Raise e, w).
Definition modify (f : world -> world) : M unit := fun w => (Ret tt, f w).
Definition lift {A : Type} (r : pyresult A) : M A := fun w => (r, w).

(** [try: body except Exception as e: handler(e)]. *)
Definition try_except {A : Type} (body : M A) (handler : exn -> M A) : M A :=
  fun w =>
    match body w with
    | (Ret a, w') => (Ret a, w')
    | (Raise e, w') => handler e w'
    end.

Definition log_error (msg : string) : M unit := modify (emit (EvLogError msg)).

(** Events that only write to a log. *)
Definition is_log (e : event) : bool :=
  match e with
  | EvLogError _ | EvLogStep _ _ => true
  | _ => false
  end.

(** ** Configuration *)

(** A number of the configuration or of a model's JSON answer. *)
Inductive num :=
| NInt (z : Z)
| NFloat (f : float).

(** The options the modelled code reads; [None] is a missing key. *)
Record config := Config
  { data_dir : option string;
    max_attempts : option Z;
    max_patch_lines : option Z;
    auto_merge_threshold : option num }.

(** ** [PatchApplier] *)

Module PatchApplier.

(** The dictionaries [dry_apply], [apply] and [rollback] return. *)
Record outcome := Outcome
  { success : bool;
    message : option string;
    error : option string;
    new_content : option string;
    backup_path : option string }.

Section WithEnv.
Context (E : env) (C : config).

(** [self.backup_dir], set by [__init__]. *)
Definition backup_dir : string :=
  OsPath.join (default "data" (data_dir C)) "patches".

Definition quoted (path : string) : string := "'" +:+ path +:+ "'".

Definition file_not_found (path : string) : exn :=
  Exn "FileNotFoundError"
      ("[Errno 2] No such file or directory: " +:+ quoted path).

Definition same_file (src dst : string) : exn :=
  Exn "SameFileError" (quoted src +:+ " and " +:+ quoted dst +:+ " are the same file").

(** What reading a file as text gives. *)
Definition file_text (f : file) : string :=
  match f with
  | Text s => s
  | Meta m => json_dumps E m
  end.

(** [open(path, 'r').read()]. *)
Definition read_text (path : string) : M string := fun w =>
  match disk w !! path with
  | Some f => (Ret (file_text f), w)
  | None => (Raise (file_not_found path), w)
  end.

(** [open(path, 'w').write(content)]. *)
Definition write_file (path : string) (f : file) : M unit :=
  modify (fun w => set_disk (<[path := f]> (disk w)) w).

(** [shutil.copy2(src, dst)]. *)
Definition copy2 (src dst : string) : M unit := fun w =>
  match disk w !! src with
  | None => (Raise (file_not_found src), w)
  | Some f =>
      if decide (src = dst) then (Raise (same_file src dst), w)
      else (Ret tt, set_disk (<[dst := f]> (disk w)) w)
  end.

(** [datetime.now()]. *)
Definition datetime_now : M Clock.datetime := fun w =>
  (Ret (now E (tick w)), next_tick w).

Definition backup_name (file_path ts : string) : string :=
  OsPath.basename file_path +:+ "_" +:+ ts +:+ ".backup".

Definition backup_path_of (file_path ts : string) : string :=
  OsPath.join backup_dir (backup_name file_path ts).

Definition meta_path (backup : string) : string := backup +:+ ".meta".

Definition _create_backup (file_path : string) : M string :=
  d ← datetime_now;
  let ts := Clock.strftime d in
  let backup := backup_path_of file_path ts in
  _ ← copy2 file_path backup;
  _ ← write_file (meta_path backup) (Meta (BackupMeta file_path ts backup));
  _ ← modify (emit (EvBackup file_path backup));
  mret backup.

Definition _restore_backup (backup target_file : string) : M unit :=
  _ ← copy2 backup target_file;
  modify (emit (EvRestore backup target_file)).

(** [json.load] of the metadata file. *)
Definition _get_backup_info (backup : string) : M backup_meta := fun w =>
  match disk w !! meta_path backup with
  | Some (Meta m) => (Ret m, w)
  | Some (Text s) => (json_loads E s, w)
  | None => (Raise (file_not_found (meta_path backup)), w)
  end.

Definition lineno_str (l : option Z) : string :=
  match l with
  | Some z => pretty z
  | None => "None"
  end.

Definition dry_apply (patch target_file : string) : M outcome :=
  try_except
    (original_content ← read_text target_file;
     new_content ← lift (Diff._apply_patch_to_string original_content patch);
     match ast_parse E new_content with
     | AstOk =>
         mret (Outcome true (Some "Patch is valid") None (Some new_content) None)
     | AstSyntaxError msg lineno =>
         mret (Outcome false None
                 (Some ("Syntax error: " +:+ msg +:+ " at line " +:+ lineno_str lineno))
                 (Some new_content) None)
     | AstOther e => raise e
     end)
    (fun e =>
       _ ← log_error ("Dry-run failed: " +:+ exn_msg e);
       mret (Outcome false None (Some (exn_msg e)) None None)).

Definition apply (patch target_file : string) : M outcome :=
  backup ← _create_backup target_file;
  try_except
    (original_content ← read_text target_file;
     new_content ← lift (Diff._apply_patch_to_string original_content patch);
     _ ← write_file target_file (Text new_content);
     _ ← modify (emit (EvWrite target_file));
     _ ← modify (set_current_backup (Some backup));
     mret (Outcome true (Some "Patch applied") None None (Some backup)))
    (fun e =>
       _ ← log_error ("Failed to apply patch: " +:+ exn_msg e);
       _ ← _restore_backup backup target_file;
       raise (Exn "RuntimeError" ("Failed to apply patch: " +:+ exn_msg e))).

(** [not self.current_backup]: [None] and the empty string are false. *)
Definition live_backup (w : world) : option string :=
  match current_backup w with
  | Some b => if String.eqb b "" then None else Some b
  | None => None
  end.

Definition rollback : M outcome := fun w =>
  match live_backup w with
  | None => (Ret (Outcome false (Some "No backup available") None None None), w)
  | Some backup =>
      try_except
        (backup_info ← _get_backup_info backup;
         let target_file := original_file backup_info in
         _ ← _restore_backup backup target_file;
         _ ← modify (set_current_backup None);
         mret (Outcome true (Some "Rollback successful") None None None))
        (fun e =>
           _ ← log_error ("Rollback failed: " +:+ exn_msg e);
           mret (Outcome false None (Some (exn_msg e)) None None))
        w
  end.

(** [commit]: the three [git] subprocesses are the environment's
    [git_commit]; every exception is caught inside, so a dictionary always
    comes back.  The line it logs when git fails is the environment's. *)
Definition commit (message run_id : string) : M commit_result := fun w =>
  let full_message :=
    message +:+ String PyStr.nl (String PyStr.nl ("Self-healing run: " +:+ run_id)) in
  let r := git_commit E (tick w) full_message in
  let w1 := emit (EvGitCommit full_message) (next_tick w) in
  (Ret r, if commit_success r then set_current_backup None w1 else w1).

End WithEnv.

End PatchApplier.

(** ** JSON values and the comparisons Python makes on them *)

#[local] Set Warnings "-register-all,-inexact-float".

Inductive json :=
| JNull
| JBool (b : bool)
| JNum (n : num)
| JStr (s : string)
| JArr (l : list json)
| JObj (m : list (string * json)).

Module Py.

(** [d.get(key, default)] on a dictionary given by its items. *)
Fixpoint assoc (key : string) (m : list (string * json)) : option json :=
  match m with
  | [] => None
  | (k, v) :: m' => if String.eqb k key then Some v else assoc key m'
  end.

(** The value of a number as an extended real: [m * 2^e], an infinity, or
    not a number.  Python compares [int] with [float] by value, and two
    floats as IEEE 754 does, which is by value too. *)
Inductive xreal :=
| XNan
| XNegInf
| XPosInf
| XFin (m e : Z).

Definition float_val (f : float) : xreal :=
  match Prim2SF f with
  | S754_zero _ => XFin 0 0
  | S754_infinity s => if s then XNegInf else XPosInf
  | S754_nan => XNan
  | S754_finite s m e => XFin (if s then Z.neg m else Z.pos m) e
  end.

Definition num_val (n : num) : xreal :=
  match n with
  | NInt z => XFin z 0
  | NFloat f => float_val f
  end.

Definition cmp_fin (m1 e1 m2 e2 : Z) : comparison :=
  let e := Z.min e1 e2 in
  Z.compare (m1 * 2 ^ (e1 - e)) (m2 * 2 ^ (e2 - e)).

(** [a <= b]. *)
Definition xle (a b : xreal) : bool :=
  match a, b with
  | XNan, _ | _, XNan => false
  | XNegInf, _ => true
  | _, XPosInf => true
  | XPosInf, _ => false
  | _, XNegInf => false
  | XFin m1 e1, XFin m2 e2 =>
      match cmp_fin m1 e1 m2 e2 with Gt => false | _ => true end
  end.

(** [a < b]. *)
Definition xlt (a b : xreal) : bool :=
  match a, b with
  | XNan, _ | _, XNan => false
  | XPosInf, _ => false
  | _, XNegInf => false
  | XNegInf, _ => true
  | _, XPosInf => true
  | XFin m1 e1, XFin m2 e2 =>
      match cmp_fin m1 e1 m2 e2 with Lt => true | _ => false end
  end.

Definition num_le (a b : num) : bool := xle (num_val a) (num_val b).
Definition num_lt (a b : num) : bool := xlt (num_val a) (num_val b).

Definition type_name (v : json) : string :=
  match v with
  | JNull => "NoneType"
  | JBool _ => "bool"
  | JNum (NInt _) => "int"
  | JNum (NFloat _) => "float"
  | JStr _ => "str"
  | JArr _ => "list"
  | JObj _ => "dict"
  end.

(** A value that orders against a number: numbers, and [bool] as 0 or 1. *)
Definition as_num (v : json) : option num :=
  match v with
  | JNum n => Some n
  | JBool b => Some (NInt (if b then 1 else 0))
  | _ => None
  end.

Definition not_supported (op : string) (v : json) (n : num) : exn :=
  Exn "TypeError"
      ("'" +:+ op +:+ "' not supported between instances of '" +:+
       type_name v +:+ "' and '" +:+ type_name (JNum n) +:+ "'").

(** [v >= n]. *)
Definition ge_num (v : json) (n : num) : pyresult bool :=
  match as_num v with
  | Some x => Ret (num_le n x)
  | None => Raise (not_supported ">=" v n)
  end.

(** [v > n]. *)
Definition gt_num (v : json) (n : num) : pyresult bool :=
  match as_num v with
  | Some x => Ret (num_lt n x)
  | None => Raise (not_supported ">" v n)
  end.

(** [len(v)]. *)
Definition len (v : json) : pyresult Z :=
  match v with
  | JStr s => Ret (Z.of_nat (String.length s))
  | JArr l => Ret (Z.of_nat (length l))
  | JObj m => Ret (Z.of_nat (length m))
  | _ => Raise (Exn "TypeError"
                  ("object of type '" +:+ type_name v +:+ "' has no len()"))
  end.

(** [v == s] for a string [s]. *)
Definition eq_str (v : json) (s : string) : bool :=
  match v with
  | JStr t => String.eqb t s
  | _ => false
  end.

(** [bool(v)]. *)
Definition truthy (v : json) : bool :=
  match v with
  | JNull => false
  | JBool b => b
  | JNum n => negb (num_le n (NInt 0) && num_le (NInt 0) n)
  | JStr s => negb (String.eqb s "")
  | JArr l => match l with [] => false | _ => true end
  | JObj m => match m with [] => false | _ => true end
  end.

Definition key_error (key : string) : exn := Exn "KeyError" ("'" +:+ key +:+ "'").

(** [d[key]] where the key may be missing. *)
Definition item {A : Type} (key : string) (v : option A) : pyresult A :=
  match v with
  | Some a => Ret a
  | None => Raise (key_error key)
  end.

End Py.

(** ** What the agents pass around *)

(** [FixerAgent._extract_patch_metadata]. *)
Record patch_metadata := PatchMetadata
  { lines_added : option Z;
    lines_removed : option Z;
    lines_changed : option Z }.

(** The dictionary [FixerAgent.generate_patch] returns: the diff text under
    ['patch'] and its metadata. *)
Record patch_info := PatchInfo
  { patch : string;
    metadata : option patch_metadata }.

(** [TestRunner.run]'s counters. *)
Record test_results := TestResults
  { total : option Z;
    passed : option Z;
    failed : option Z }.

(** The plan fields the manager reads. *)
Record plan := Plan
  { target_file : option string;
    strategy : option string;
    issue_description : option string }.

(** The critic's evaluation dictionary. *)
Record evaluation := Evaluation
  { verdict : json;
    confidence : json;
    rationale : json;
    issues_found : json;
    suggestions : json;
    security_concerns : json;
    test_coverage : json;
    should_auto_merge : bool }.

(** ** [CriticAgent] *)

Module CriticAgent.

(** The model client and the two interpreter services the critic relies on:
    [int / int] (true division, correctly rounded by CPython) and the
    rendering of the prompt. *)
Record deps := Deps
  { generate_json : nat -> string -> pyresult json;
    build_evaluation_prompt : patch_info -> test_results -> json -> plan -> pyresult string;
    int_truediv : Z -> Z -> pyresult float }.

Section WithDeps.
Context (D : deps).

Definition lines_changed_or (dflt : Z) (p : patch_info) : Z :=
  match metadata p with
  | Some md => default dflt (lines_changed md)
  | None => dflt
  end.

(** [test_results.get('passed', 0) / max(test_results.get('total', 1), 1)]. *)
Definition pass_ratio (tr : test_results) : pyresult float :=
  int_truediv D (default 0 (passed tr)) (Z.max (default 1 (total tr)) 1).

Definition _quick_checks (p : patch_info) (tr : test_results) (C : config)
    : pyresult (option evaluation) :=
  if 0 <? default 0 (failed tr) then
    f ← Py.item "failed" (failed tr);
    t ← Py.item "total" (total tr);
    cov ← pass_ratio tr;
    Ret (Some (Evaluation (JStr "RETRY") (JNum (NFloat 0.9))
      (JStr ("Tests failed: " +:+ pretty f +:+ " out of " +:+ pretty t))
      (JArr [JStr "Test failures"])
      (JArr [JStr "Review test failures and adjust patch"])
      (JArr []) (JNum (NFloat cov)) false))
  else
    let max_lines := default 25 (max_patch_lines C) in
    if max_lines <? lines_changed_or 0 p then
      n ← Py.item "lines_changed" (md ← metadata p; lines_changed md);
      Ret (Some (Evaluation (JStr "ESCALATE") (JNum (NFloat 0.8))
        (JStr ("Patch too large: " +:+ pretty n +:+
               " lines (max: " +:+ pretty max_lines +:+ ")"))
        (JArr [JStr "Patch exceeds size limit"])
        (JArr [JStr "Break into smaller patches or review manually"])
        (JArr []) (JNum (NFloat 0.0)) false))
    else if default 0 (total tr) =? 0 then
      Ret (Some (Evaluation (JStr "PASS") (JNum (NFloat 0.7))
        (JStr "Patch applied successfully (no tests available)")
        (JArr [])
        (JArr [JStr "Add tests for better validation"])
        (JArr []) (JNum (NFloat 0.0)) false))
    else Ret None.

Definition _create_fallback_evaluation (p : patch_info) (tr : test_results)
    : pyresult evaluation :=
  let pass := default 0 (failed tr) =? 0 in
  cov ← pass_ratio tr;
  Ret (Evaluation (JStr (if pass then "PASS" else "RETRY")) (JNum (NFloat 0.6))
    (JStr "Evaluation generated from fallback logic")
    (if pass then JArr [] else JArr [JStr "LLM evaluation unavailable"])
    (if pass then JArr [] else JArr [JStr "Review patch manually"])
    (JArr []) (JNum (NFloat cov)) false).

(** [a and b] where [b] is only evaluated when [a] is true. *)
Definition and_then (a : bool) (b : pyresult bool) : pyresult bool :=
  if a then b else Ret false.

Definition valid_verdict (v : json) : bool :=
  Py.eq_str v "PASS" || Py.eq_str v "RETRY" || Py.eq_str v "ESCALATE".

Definition _validate_evaluation (ev : json) (p : patch_info)
    (tr : test_results) (C : config) : pyresult evaluation :=
  match ev with
  | JObj m =>
      let get key dflt := default dflt (Py.assoc key m) in
      let verdict0 := get "verdict" (JStr "PASS") in
      let verdict1 := if valid_verdict verdict0 then verdict0 else JStr "PASS" in
      let confidence0 := get "confidence" (JNum (NFloat 0.5)) in
      let security0 := get "security_concerns" (JArr []) in
      coverage ←
        (if 0 <? default 0 (total tr) then
           ps ← Py.item "passed" (passed tr);
           t ← Py.item "total" (total tr);
           c ← int_truediv D ps t;
           Ret (JNum (NFloat c))
         else Ret (get "test_coverage" (JNum (NFloat 0.0))));
      let threshold := default (NFloat 0.9) (auto_merge_threshold C) in
      merge ←
        and_then (Py.eq_str verdict1 "PASS")
          (c1 ← Py.ge_num confidence0 threshold;
           and_then c1
             (c2 ← Py.gt_num coverage (NFloat 0.8);
              and_then c2
                (n ← Py.len security0;
                 and_then (n =? 0)
                   (Ret (lines_changed_or 999 p <=? 10)))));
      Ret (Evaluation verdict1 confidence0
             (get "rationale" (JStr "No rationale provided"))
             (get "issues_found" (JArr []))
             (get "suggestions" (JArr []))
             security0 coverage merge)
  | _ => _create_fallback_evaluation p tr
  end.

(** [evaluate_patch]: the read of the model's answer is the only thing
    that changes with time. *)
Definition evaluate_patch (p : patch_info) (tr : test_results)
    (bug_report : json) (pl : plan) (C : config) : M evaluation :=
  quick_verdict ← lift (_quick_checks p tr C);
  match quick_verdict with
  | Some ev => mret ev
  | None =>
      prompt ← lift (build_evaluation_prompt D p tr bug_report pl);
      try_except
        (answer ← (fun w => (generate_json D (tick w) prompt, next_tick w));
         lift (_validate_evaluation answer p tr C))
        (fun e =>
           _ ← log_error ("Evaluation failed: " +:+ exn_msg e);
           lift (_create_fallback_evaluation p tr))
  end.

End WithDeps.

End CriticAgent.

(** ** [ManagerAgent] *)

Module ManagerAgent.

Inductive status := SUCCESS | RETRY | ESCALATE | ERROR.

#[global] Instance status_eq_dec : EqDecision status.
Proof. solve_decision. Defined.

(** The two shapes of the ['feedback'] entry. *)
Inductive feedback :=
| FeedbackIssue (issue : string) (details : option string) (suggestion : string)
| FeedbackEvaluation (issues suggestions : json).

(** The dictionary one repair iteration returns and [heal] stores in
    [previous_attempts]; [None] is an absent key.  The wall-clock
    ['duration'] entry is left out. *)
Record attempt_result := AttemptResult
  { result_status : status;
    attempt : Z;
    phase : option string;
    result_error : option string;
    result_feedback : option feedback;
    result_patch : option patch_info;
    result_evaluation : option evaluation;
    result_commit : option commit_result;
    auto_merged : option bool;
    requires_approval : option bool;
    reason : option json;
    result_strategy : option string;
    failure_reason : option string }.

(** A [RETRY] result that stopped in [phase] with an error message. *)
Definition retry_in (n : Z) (ph err : string) (fb : feedback) : attempt_result :=
  AttemptResult RETRY n (Some ph) (Some err) (Some fb)
    None None None None None None None None.

(** The agents and services the manager is built with, other than the patch
    applier and the critic.  The planner and the fixer query a model; the
    tester writes and runs test files, so it sees and may change the disk;
    the dependency analyzer reads the repository, [build_repo_context] is
    what [_build_repo_context] gathers from it;
    [services/learning_system.py] is not part of the sources, its three
    methods are taken as they are called. *)
Record collaborators := Collaborators
  { start_run : nat -> string;
    parse_trace_files : nat -> string -> string -> pyresult json;
    analyze_trace : nat -> string -> json -> pyresult json;
    analyze_file : nat -> string -> pyresult json;
    build_repo_context : nat -> string -> json -> pyresult json;
    find_similar_bugs : nat -> json -> pyresult json;
    make_plan : nat -> json -> json -> list attempt_result -> pyresult plan;
    generate_patch : nat -> string -> string -> plan -> json -> pyresult patch_info;
    run_tests : nat -> patch_info -> string -> plan -> gmap string file
                -> pyresult test_results * gmap string file;
    record_success : nat -> json -> attempt_result -> pyresult unit;
    record_failure : nat -> json -> attempt_result -> pyresult unit }.

Section WithCollaborators.
Context (E : env) (C : config) (D : CriticAgent.deps) (K : collaborators).

(** A call to a collaborator that reads the number of readings so far. *)
Definition ask {A : Type} (f : nat -> pyresult A) : M A := fun w =>
  (f (tick w), next_tick w).

Definition log_step (step : string) (n : Z) : M unit :=
  modify (emit (EvLogStep step n)).

Definition tester_run (p : patch_info) (repo_path : string) (pl : plan)
    : M test_results := fun w =>
  let '(r, d) := run_tests K (tick w) p repo_path pl (disk w) in
  (r, emit EvTests (set_disk d (next_tick w))).

(** [not s] for an optional string: missing, [None] and [''] are false. *)
Definition nonempty (s : option string) : option string :=
  match s with
  | Some t => if String.eqb t "" then None else Some t
  | None => None
  end.

(** [os.path.exists]. *)
Definition path_exists (path : string) : M bool := fun w =>
  (Ret (bool_decide (is_Some (disk w !! path))), w).

(** [_analyze_repo]: the analysis of a whole repository is not
    implemented and reports no bug. *)
Definition _analyze_repo : json :=
  JObj [("bugs", JArr []);
        ("summary", JStr "No target specified");
        ("confidence", JNum (NFloat 0.0))].

(** [_analyze_phase]. *)
Definition _analyze_phase (target stack_trace : option string)
    (repo_path : string) : M json :=
  match nonempty stack_trace with
  | Some st =>
      files ← ask (fun t => parse_trace_files K t st repo_path);
      ask (fun t => analyze_trace K t st files)
  | None =>
      match nonempty target with
      | Some tf => ask (fun t => analyze_file K t tf)
      | None => mret _analyze_repo
      end
  end.

(** Phase 7 and the decision, from the results of the tests on. *)
Definition evaluate_and_decide (bug_report : json) (run_id : string)
    (n : Z) (pl : plan) (p : patch_info) (test_results : test_results)
    : M attempt_result :=
  _ ← log_step "test" n;
  ev ← CriticAgent.evaluate_patch D p test_results bug_report pl C;
  _ ← log_step "evaluation" n;
  if Py.eq_str (verdict ev) "PASS" then
    if should_auto_merge ev then
      descr ← lift (Py.item "issue_description" (issue_description pl));
      commit_result ← PatchApplier.commit E ("Auto-fix: " +:+ descr) run_id;
      mret (AttemptResult SUCCESS n None None None (Some p) (Some ev)
              (Some commit_result) (Some true) None None None None)
    else
      mret (AttemptResult SUCCESS n None None None (Some p) (Some ev)
              None (Some false) (Some true) None None None)
  else if Py.eq_str (verdict ev) "RETRY" then
    _ ← PatchApplier.rollback E;
    mret (AttemptResult RETRY n None None
            (Some (FeedbackEvaluation (issues_found ev) (suggestions ev)))
            None (Some ev) None None None None None None)
  else
    _ ← PatchApplier.rollback E;
    mret (AttemptResult ESCALATE n None None None
            None (Some ev) None None None (Some (rationale ev)) None None).

(** Phases 2 and 3: the plan, the target file and the patch.  [inr] is an
    early [return] of a [RETRY] result. *)
Definition plan_and_generate (bug_report repo_context : json)
    (previous_attempts : list attempt_result) (n : Z)
    : M (plan * string * patch_info + attempt_result) :=
  pl ← ask (fun t => make_plan K t bug_report repo_context previous_attempts);
  match nonempty (target_file pl) with
  | None =>
      mret (inr (retry_in n "planning" "Could not create valid repair plan"
              (FeedbackIssue "Planning failed" None "Try different analysis approach")))
  | Some tf =>
      if bool_decide (strategy pl = Some "none") then
        mret (inr (retry_in n "planning" "Could not create valid repair plan"
                (FeedbackIssue "Planning failed" None "Try different analysis approach")))
      else
        _ ← log_step "plan" n;
        _ ← lift (Py.item "strategy" (strategy pl));
        ex ← path_exists tf;
        if negb ex then
          _ ← log_error ("Target file not found: " +:+ tf);
          mret (inr (retry_in n "file_validation" ("File not found: " +:+ tf)
                  (FeedbackIssue "Target file invalid" None
                     "Verify file path in bug report")))
        else
          read ← try_except
            (file_content ← PatchApplier.read_text E tf; mret (inl file_content))
            (fun e =>
               _ ← log_error ("Could not read file " +:+ tf +:+ ": " +:+ exn_msg e);
               mret (inr (retry_in n "file_reading" (exn_msg e)
                            (FeedbackIssue "Could not read target file" None
                               "Check file permissions and encoding"))));
          match read with
          | inr r => mret (inr r)
          | inl file_content =>
              generated ← try_except
                (p ← ask (fun t => generate_patch K t tf file_content pl bug_report);
                 mret (inl p))
                (fun e =>
                   _ ← log_error ("Patch generation failed: " +:+ exn_msg e);
                   mret (inr (retry_in n "patch_generation" (exn_msg e)
                                (FeedbackIssue "Patch generation failed"
                                   (Some (exn_msg e)) "Try simpler fix strategy"))));
              match generated with
              | inr r => mret (inr r)
              | inl p =>
                  _ ← log_step "patch" n;
                  mret (inl (pl, tf, p))
              end
          end
  end.

(** Phases 6 and 7 and the decision, the body of the [try] block. *)
Definition test_and_decide (bug_report : json) (repo_path run_id : string)
    (n : Z) (pl : plan) (p : patch_info) : M attempt_result :=
  test_results ← tester_run p repo_path pl;
  evaluate_and_decide bug_report run_id n pl p test_results.

(** The handler of the [try] block: log, roll back as well as can be,
    and report a [RETRY]. *)
Definition on_iteration_error (n : Z) (e : exn) : M attempt_result :=
  _ ← log_error ("Error during repair iteration: " +:+ exn_msg e);
  _ ← try_except (PatchApplier.rollback E)
        (fun _ => mret (PatchApplier.Outcome false None None None None));
  mret (retry_in n "unknown" (exn_msg e)
          (FeedbackIssue ("Iteration failed: " +:+ exn_type e)
             (Some (exn_msg e)) "Try different strategy")).

(** The [try] block with its handler: whatever is raised after the patch
    went to disk ends in a rollback and a [RETRY]. *)
Definition test_phase (bug_report : json) (repo_path run_id : string)
    (n : Z) (pl : plan) (p : patch_info) : M attempt_result :=
  try_except
    (test_and_decide bug_report repo_path run_id n pl p)
    (on_iteration_error n).

(** Phases 4 to 7, from the dry run on. *)
Definition validate_and_apply (bug_report : json) (repo_path run_id : string)
    (n : Z) (pl : plan) (tf : string) (p : patch_info) : M attempt_result :=
  apply_result ← PatchApplier.dry_apply E (patch p) tf;
  if negb (PatchApplier.success apply_result) then
    err ← lift (Py.item "error" (PatchApplier.error apply_result));
    mret (retry_in n "validation" err
            (FeedbackIssue "Patch failed validation" (Some err)
               "Generate syntactically correct patch"))
  else
    _ ← PatchApplier.apply E C (patch p) tf;
    test_phase bug_report repo_path run_id n pl p.

Definition _repair_iteration (bug_report repo_context : json)
    (repo_path : string) (previous_attempts : list attempt_result)
    (similar_fixes : json) (run_id : string) (n : Z) : M attempt_result :=
  prepared ← plan_and_generate bug_report repo_context previous_attempts n;
  match prepared with
  | inr r => mret r
  | inl (pl, tf, p) => validate_and_apply bug_report repo_path run_id n pl tf p
  end.

(** What [_complete_run] wraps as ['details']. *)
Inductive run_details :=
| DetailsNoBugs (bug_report : json)
| DetailsResult (r : attempt_result)
| DetailsExhausted (message : string) (attempts : list attempt_result)
| DetailsFailed (error : string).

Record run_result := RunResult
  { run_id : string;
    run_status : string;
    details : run_details }.

(** [_complete_run]: the run is handed to the experiment logger and a
    notification is sent for the statuses that have one.  The run log is
    written under a fresh identifier and the notifications are kept in
    memory: neither touches the files the patch applier works on. *)
Definition _complete_run (rid st : string) (d : run_details) : M run_result :=
  _ ← modify (emit (EvCompleteRun st));
  _ ← (if String.eqb st "SUCCESS" then modify (emit (EvNotify "success"))
       else if String.eqb st "ESCALATED" then modify (emit (EvNotify "escalation"))
       else if String.eqb st "FAILED" || String.eqb st "MAX_ATTEMPTS_REACHED"
            then modify (emit (EvNotify "failure"))
       else mret tt);
  mret (RunResult rid st d).

(** [self.max_attempts]. *)
Definition the_max_attempts : Z := default 5 (max_attempts C).

(** How one pass through the body of the [while] loop ends. *)
Inductive pass_end :=
| Return (r : run_result)
| Continue (previous_attempts : list attempt_result).

Definition error_record (n : Z) (e : exn) : attempt_result :=
  AttemptResult ERROR n None (Some (exn_msg e)) None
    None None None None None None None None.

(** The two entries [heal] adds to a [RETRY] result.  No [plan] is bound in
    [heal], so the strategy is ['unknown']. *)
Definition annotate (r : attempt_result) : attempt_result :=
  AttemptResult (result_status r) (attempt r) (phase r) (result_error r)
    (result_feedback r) (result_patch r) (result_evaluation r)
    (result_commit r) (auto_merged r) (requires_approval r) (reason r)
    (Some "unknown")
    (Some (match result_error r with
           | Some err => err
           | None =>
               match result_feedback r with
               | Some (FeedbackIssue issue _ _) => issue
               | _ => "Unknown"
               end
           end)).

Definition attempt_failed (n : Z) (previous_attempts : list attempt_result)
    (e : exn) : M pass_end :=
  _ ← log_error ("Attempt " +:+ pretty n +:+ " failed with exception: " +:+ exn_msg e);
  mret (Continue (previous_attempts ++ [error_record n e])).

(** The body of the [while] loop for attempt number [n]. *)
Definition loop_body (bug_report repo_context : json) (repo_path : string)
    (similar_fixes : json) (rid : string) (n : Z)
    (previous_attempts : list attempt_result) : M pass_end :=
  try_except
    (result ← _repair_iteration bug_report repo_context repo_path
                previous_attempts similar_fixes rid n;
     match result_status result with
     | SUCCESS =>
         _ ← ask (fun t => record_success K t bug_report result);
         _ ← modify (emit (EvLearn "success"));
         _ ← modify (emit (EvNotify "success"));
         r ← _complete_run rid "SUCCESS" (DetailsResult result);
         mret (inl (Return r))
     | ESCALATE =>
         _ ← modify (emit (EvNotify "escalation"));
         r ← _complete_run rid "ESCALATED" (DetailsResult result);
         mret (inl (Return r))
     | _ =>
         mret (inr (annotate result))
     end)
    (fun e => r ← attempt_failed n previous_attempts e; mret (inl r))
  ≫= fun step =>
  match step with
  | inl r => mret r
  | inr result =>
      let previous_attempts' := (previous_attempts ++ [result])%list in
      try_except
        (_ ← ask (fun t => record_failure K t bug_report result);
         _ ← modify (emit (EvLearn "failure"));
         mret (Continue previous_attempts'))
        (attempt_failed n previous_attempts')
  end.

(** [while attempt < self.max_attempts]: [n] is [attempt] on entry.  Each
    pass adds one to it, so [Z.to_nat (max_attempts - n)] passes are enough;
    [fuel] bounds them. *)
Fixpoint attempts_loop (fuel : nat) (bug_report repo_context : json)
    (repo_path : string) (similar_fixes : json) (rid : string) (n : Z)
    (previous_attempts : list attempt_result) : M (option pass_end) :=
  if n <? the_max_attempts then
    match fuel with
    | O => mret None
    | S fuel' =>
        r ← loop_body bug_report repo_context repo_path similar_fixes rid
              (n + 1) previous_attempts;
        match r with
        | Return res => mret (Some (Return res))
        | Continue previous_attempts' =>
            attempts_loop fuel' bug_report repo_context repo_path similar_fixes
              rid (n + 1) previous_attempts'
        end
    end
  else mret (Some (Continue previous_attempts)).

(** [heal].  [None] is only returned when the loop's fuel runs out, which
    [Z.to_nat the_max_attempts] excludes. *)
Definition heal (target : option string) (stack_trace : option string)
    (repo_path : string) : M (option run_result) :=
  rid ← (fun w => (Ret (start_run K (tick w)), next_tick w));
  try_except
    (bug_report ← _analyze_phase target stack_trace repo_path;
     bugs ← lift (match bug_report with
                  | JObj m => Ret (default JNull (Py.assoc "bugs" m))
                  | _ => Raise (Exn "AttributeError"
                           ("'" +:+ Py.type_name bug_report +:+
                            "' object has no attribute 'get'"))
                  end);
     if negb (Py.truthy bugs) then
       r ← _complete_run rid "NO_BUGS_FOUND" (DetailsNoBugs bug_report);
       mret (Some r)
     else
       repo_context ← ask (fun t => build_repo_context K t repo_path bug_report);
       similar_fixes ← ask (fun t => find_similar_bugs K t bug_report);
       out ← attempts_loop (Z.to_nat the_max_attempts) bug_report repo_context
               repo_path similar_fixes rid 0 [];
       match out with
       | Some (Return r) => mret (Some r)
       | Some (Continue previous_attempts) =>
           r ← _complete_run rid "MAX_ATTEMPTS_REACHED"
                 (DetailsExhausted
                    ("Failed after " +:+ pretty the_max_attempts +:+ " attempts")
                    previous_attempts);
           mret (Some r)
       | None => mret None
       end)
    (fun e =>
       _ ← log_error ("Self-healing loop failed: " +:+ exn_msg e);
       r ← _complete_run rid "FAILED" (DetailsFailed (exn_msg e));
       mret (Some r)).

End WithCollaborators.

End ManagerAgent.

(** ** [GitAutoHealer]: the approval gate *)

Module GitAutoHealer.

(** An entry of [pending_approvals]; the healing result and the time stamp
    it also carries are not read by the code below. *)
Record approval := Approval { file_path : string; risk : string }.

(** The healer: its two dictionaries and the patch applier it reaches
    through [pipeline.manager].  A timer is present in [approval_timers]
    from [_handle_low_risk_push] until a call cancels and deletes it. *)
Record healer := Healer
  { pending_approvals : gmap string approval;
    approval_timers : gset string;
    applier : world }.

(** The repository handle: whether [self.repo] is set, and what pushing to
    the remote gives ([None]: done, [Some msg]: it raised). *)
Record remote := Remote
  { has_repo : bool;
    origin_push : nat -> option string }.

(** What [approve_and_push] returns. *)
Inductive approve_result :=
| RunNotFound                                      (* success False, 'Run not found' *)
| ActionRejected                                   (* success True, action 'rejected' *)
| CommittedAndPushed (hash : option string) (auto : bool)
| PushFailed (error : string)                      (* success False, 'Push failed: ...' *)
| CommitFailed (error : option string)             (* success False, the commit's error *)
| Failed (error : string)                          (* the [except] branch *)
| ReturnsNone.                                     (* falls off the end *)

(** The two results after which the ticket is settled. *)
Definition resolved (r : approve_result) : Prop :=
  r = ActionRejected \/ exists hash a, r = CommittedAndPushed hash a.

(** The arguments of a call: [approve_and_push(run_id, approved, auto)]. *)
Record call := Call { call_run_id : string; approved : bool; auto : bool }.

(** Where a call stands.  [Fired] is the entry of the timer's callback
    [_auto_push_after_timeout]; [Start] the entry of [approve_and_push];
    [Looked] is after the membership test and the read of the entry;
    [Cancelled] after the timer was cancelled; [Finished] after return. *)
Inductive pc :=
| Fired
| Start
| Looked (a : approval)
| Cancelled (a : approval)
| Finished (r : pyresult approve_result).

Section WithRemote.
Context (E : env) (R : remote).

Definition on_applier (f : world -> world) (h : healer) : healer :=
  Healer (pending_approvals h) (approval_timers h) (f (applier h)).

Definition drop_pending (rid : string) (h : healer) : healer :=
  Healer (delete rid (pending_approvals h)) (approval_timers h) (applier h).

(** The UTF-8 bytes of the robot sign that opens the commit message. *)
Definition robot : string :=
  String (Ascii.ascii_of_nat 240) (String (Ascii.ascii_of_nat 159)
  (String (Ascii.ascii_of_nat 164) (String (Ascii.ascii_of_nat 150) ""))).

Definition commit_msg (c : call) (a : approval) : string :=
  robot +:+ " Auto-fix: " +:+ file_path a +:+
  String PyStr.nl (String PyStr.nl ("Run: " +:+ call_run_id c +:+
  String PyStr.nl ("Risk: " +:+ risk a +:+
  String PyStr.nl ("Approval: " +:+ (if auto c then "Auto" else "Manual"))))).

(** [_push_to_remote]: [None] on success, the error otherwise. *)
Definition _push_to_remote (w : world) : option string * world :=
  if has_repo R then
    match origin_push R (tick w) with
    | None => (None, emit EvGitPush (next_tick w))
    | Some msg => (Some msg, emit (EvLogError ("Push failed: " +:+ msg)) (next_tick w))
    end
  else (Some "No git repo", w).

Definition opt_str (o : option string) : string := default "None" o.

(** The rejection branch: roll back, then [del self.pending_approvals[run_id]]. *)
Definition reject (c : call) (h : healer) : pyresult approve_result * healer :=
  let '(_, w1) := PatchApplier.rollback E (applier h) in
  let h1 := on_applier (fun _ => w1) h in
  match pending_approvals h1 !! call_run_id c with
  | Some _ => (Ret ActionRejected, drop_pending (call_run_id c) h1)
  | None => (Raise (Py.key_error (call_run_id c)), h1)
  end.

(** The approval branch, the body of the [try]. *)
Definition commit_and_push (c : call) (a : approval) (h : healer)
    : pyresult approve_result * healer :=
  match PatchApplier.commit E (commit_msg c a) (call_run_id c) (applier h) with
  | (Raise e, w1) => (Raise e, on_applier (fun _ => w1) h)
  | (Ret cr, w1) =>
      if commit_success cr then
        if has_repo R then
          match _push_to_remote w1 with
          | (None, w2) =>
              let h2 := on_applier (fun _ => emit (EvNotify "success") w2) h in
              match pending_approvals h2 !! call_run_id c with
              | Some _ =>
                  (Ret (CommittedAndPushed (commit_hash cr) (auto c)),
                   drop_pending (call_run_id c) h2)
              | None => (Raise (Py.key_error (call_run_id c)), h2)
              end
          | (Some err, w2) =>
              (Ret (PushFailed err),
               on_applier (fun _ => emit (EvLogError ("Push failed: " +:+ err)) w2) h)
          end
        else (Ret ReturnsNone, on_applier (fun _ => w1) h)
      else
        (Ret (CommitFailed (commit_error cr)),
         on_applier (fun _ =>
           emit (EvLogError ("Commit failed: " +:+ opt_str (commit_error cr))) w1) h)
  end.

Definition act (c : call) (a : approval) (h : healer)
    : pyresult approve_result * healer :=
  if negb (approved c) then reject c h
  else
    match commit_and_push c a h with
    | (Ret r, h1) => (Ret r, h1)
    | (Raise e, h1) =>
        (Ret (Failed (exn_msg e)),
         on_applier (emit (EvLogError ("Failed to commit/push: " +:+ exn_msg e))) h1)
    end.

(** One step of a call.  Between two steps of one call another call may
    run: nothing in the class holds a lock. *)
Definition step (c : call) (p : pc) (h : healer) : pc * healer :=
  match p with
  | Fired =>
      match pending_approvals h !! call_run_id c with
      | None => (Finished (Ret ReturnsNone), h)
      | Some _ => (Start, h)
      end
  | Start =>
      match pending_approvals h !! call_run_id c with
      | None =>
          (Finished (Ret RunNotFound),
           on_applier (emit (EvLogError ("Run " +:+ call_run_id c +:+ " not found"))) h)
      | Some a => (Looked a, h)
      end
  | Looked a =>
      (Cancelled a,
       Healer (pending_approvals h) (approval_timers h ∖ {[call_run_id c]}) (applier h))
  | Cancelled a =>
      let '(r, h1) := act c a h in (Finished r, h1)
  | Finished r => (Finished r, h)
  end.

(** A call run from [p] without interruption: at most four steps. *)
Definition run_from (c : call) (p : pc) (h : healer) : pc * healer :=
  let '(p1, h1) := step c p h in
  let '(p2, h2) := step c p1 h1 in
  let '(p3, h3) := step c p2 h2 in
  step c p3 h3.

(** [approve_and_push(run_id, approved, auto)]. *)
Definition approve_and_push (c : call) (h : healer) : pc * healer :=
  run_from c Start h.

(** [_auto_push_after_timeout(run_id)]. *)
Definition _auto_push_after_timeout (rid : string) (h : healer) : pc * healer :=
  run_from (Call rid true true) Fired h.

(** Several calls in flight.  A schedule names, step by step, the call
    that moves. *)
Record system := System { calls : list (call * pc); state : healer }.

Definition sys_step (i : nat) (s : system) : system :=
  match calls s !! i with
  | Some (c, p) =>
      let '(p', h') := step c p (state s) in
      System (<[i := (c, p')]> (calls s)) h'
  | None => s
  end.

Definition run_schedule (sched : list nat) (s : system) : system :=
  fold_left (fun s i => sys_step i s) sched s.

End WithRemote.

End GitAutoHealer.

(** ** [FixerAgent]: measuring and trimming a patch *)

Module FixerAgent.
Import PyStr.

(** [line.startswith('+') and not line.startswith('+++')], and the same
    for ['-']. *)
Definition is_addition (l : string) : bool :=
  startswith "+" l && negb (startswith "+++" l).

Definition is_deletion (l : string) : bool :=
  startswith "-" l && negb (startswith "---" l).

(** [sum(1 for line in lines if cond(line))]. *)
Fixpoint count_lines (cond : string -> bool) (lines : list string) : Z :=
  match lines with
  | [] => 0
  | l :: rest => (if cond l then 1 else 0) + count_lines cond rest
  end.

(** [_extract_patch_metadata]: the three counters.  The ['hunks'] and
    ['affected_lines'] entries, which no other code reads, are left out. *)
Definition _extract_patch_metadata (patch_text : string) : patch_metadata :=
  let lines := split_nl patch_text in
  let additions := count_lines is_addition lines in
  let deletions := count_lines is_deletion lines in
  PatchMetadata (Some additions) (Some deletions) (Some (additions + deletions)).

Definition max_context : nat := 3.

(** [buffer[-max_context:]] and [buffer[:max_context]]. *)
Definition last_context (buffer : list string) : list string :=
  drop (length buffer - max_context) buffer.

Definition first_context (buffer : list string) : list string :=
  take max_context buffer.

(** The loop of [_minimize_patch], with its three variables. *)
Fixpoint minimize_lines (lines minimized : list string) (in_hunk : bool)
    (context_buffer : list string) : list string :=
  match lines with
  | [] => minimized
  | l :: rest =>
      if startswith "---" l || startswith "+++" l then
        minimize_lines rest (minimized ++ [l]) in_hunk context_buffer
      else if startswith "@@" l then
        minimize_lines rest (minimized ++ [l]) true []
      else if in_hunk then
        if startswith "-" l || startswith "+" l then
          minimize_lines rest (minimized ++ last_context context_buffer ++ [l]) true []
        else if startswith " " l then
          minimize_lines rest minimized true (context_buffer ++ [l])
        else
          minimize_lines rest (minimized ++ first_context context_buffer) false []
      else minimize_lines rest minimized in_hunk context_buffer
  end.

Definition _minimize_patch (patch_text : string) : string :=
  join_nl (minimize_lines (split_nl patch_text) [] false []).

End FixerAgent.

(** ** [GitAutoHealer]: from a healing result to a pending approval *)

Module Intake.
Import GitAutoHealer.

(** [v < n]. *)
Definition lt_num (v : json) (n : num) : pyresult bool :=
  match Py.as_num v with
  | Some x => Ret (Py.num_lt x n)
  | None => Raise (Py.not_supported "<" v n)
  end.

(** [a or b]: [b] is evaluated only when [a] is false; either may raise. *)
Definition or_else (a b : pyresult bool) : pyresult bool :=
  a ≫= fun x : bool => if x then Ret true else b.

(** What [_determine_risk_level] reads of ['details']: the dictionary
    under ['evaluation'] and the dictionary under ['metadata'] of
    ['patch'], each by its items, and empty when the entry is missing.
    The values in them are arbitrary. *)
Record details := Details
  { details_evaluation : list (string * json);
    details_metadata : list (string * json) }.

(** The healing result as [handle_healing_result] reads it: [run_id],
    which is a string in every caller, [status] ([JNull] when missing) and
    ['details']. *)
Record healing_result := HealingResult
  { healing_run_id : string;
    healing_status : json;
    healing_details : details }.

(** [_determine_risk_level]. *)
Definition _determine_risk_level (d : details) : pyresult json :=
  let evaluation := details_evaluation d in
  match Py.assoc "risk_level" evaluation with
  | Some risk_level => Ret risk_level
  | None =>
      let lines_changed :=
        default (JNum (NInt 0)) (Py.assoc "lines_changed" (details_metadata d)) in
      let confidence := default (JNum (NFloat 0.5)) (Py.assoc "confidence" evaluation) in
      or_else (Py.gt_num lines_changed (NInt 20)) (lt_num confidence (NFloat 0.7))
      ≫= fun high : bool =>
      if high then Ret (JStr "HIGH")
      else
        or_else (Py.gt_num lines_changed (NInt 10)) (lt_num confidence (NFloat 0.85))
        ≫= fun medium : bool =>
        if medium then Ret (JStr "MEDIUM") else Ret (JStr "LOW")
  end.

(** The notification, the reading of the clock for the time stamp of the
    entry, and the entry itself. *)
Definition store_pending (rid file_path risk : string) (h : healer) : healer :=
  Healer (<[rid := Approval file_path risk]> (pending_approvals h))
         (approval_timers h)
         (next_tick (emit (EvNotify "approval") (applier h))).

(** [_handle_low_risk_push]: the entry is stored and a timer is started. *)
Definition _handle_low_risk_push (result : healing_result)
    (file_path : string) (h : healer) : healer :=
  let rid := healing_run_id result in
  let h1 := store_pending rid file_path "LOW" h in
  Healer (pending_approvals h1) ({[rid]} ∪ approval_timers h1) (applier h1).

(** [_handle_high_risk_push]: the entry is stored, without a timer. *)
Definition _handle_high_risk_push (result : healing_result)
    (file_path risk_level : string) (h : healer) : healer :=
  store_pending (healing_run_id result) file_path risk_level h.

(** [handle_healing_result]. *)
Definition handle_healing_result (result : healing_result)
    (file_path : string) (h : healer) : pyresult unit * healer :=
  if negb (Py.eq_str (healing_status result) "SUCCESS") then (Ret tt, h)
  else
    match _determine_risk_level (healing_details result) with
    | Raise e => (Raise e, h)
    | Ret risk_level =>
        if Py.eq_str risk_level "LOW" then
          (Ret tt, _handle_low_risk_push result file_path h)
        else
          match risk_level with
          | JStr s =>
              if String.eqb s "MEDIUM" || String.eqb s "HIGH" then
                (Ret tt, _handle_high_risk_push result file_path s h)
              else (Ret tt, h)
          | _ => (Ret tt, h)
          end
    end.

(** The result of [ManagerAgent.heal] as a dictionary.  The evaluation is
    the critic's, with its eight entries; the metadata is the fixer's, with
    its three counts (its entries [hunks] and [affected_lines], which
    [_determine_risk_level] does not read, are left out). *)
Definition evaluation_items (ev : evaluation) : list (string * json) :=
  [("verdict", verdict ev);
   ("confidence", confidence ev);
   ("rationale", rationale ev);
   ("issues_found", issues_found ev);
   ("suggestions", suggestions ev);
   ("security_concerns", security_concerns ev);
   ("test_coverage", test_coverage ev);
   ("should_auto_merge", JBool (should_auto_merge ev))].

Definition int_item (key : string) (v : option Z) : list (string * json) :=
  match v with
  | Some z => [(key, JNum (NInt z))]
  | None => []
  end.

Definition metadata_items (md : patch_metadata) : list (string * json) :=
  int_item "lines_added" (lines_added md) ++
  int_item "lines_removed" (lines_removed md) ++
  int_item "lines_changed" (lines_changed md).

Definition details_of (d : ManagerAgent.run_details) : details :=
  match d with
  | ManagerAgent.DetailsResult r =>
      Details
        (match ManagerAgent.result_evaluation r with
         | Some ev => evaluation_items ev
         | None => []
         end)
        (match ManagerAgent.result_patch r with
         | Some p =>
             match metadata p with
             | Some md => metadata_items md
             | None => []
             end
         | None => []
         end)
  | _ => Details [] []
  end.

Definition of_run_result (r : ManagerAgent.run_result) : healing_result :=
  HealingResult (ManagerAgent.run_id r) (JStr (ManagerAgent.run_status r))
    (details_of (ManagerAgent.details r)).

End Intake.

(** ** [NotificationService]: the list of notifications *)

Module NotificationService.

Definition max_notifications : nat := 100.

(** [_add_notification]: newest first, cut to [max_notifications]. *)
Definition _add_notification {A : Type} (notification : A)
    (notifications : list A) : list A :=
  let l := notification :: notifications in
  if (max_notifications <? length l)%nat then take max_notifications l else l.

(** The list after a series of notifications, the oldest sent first. *)
Definition after_sending {A : Type} (sent : list A) : list A :=
  fold_left (fun acc n => _add_notification n acc) sent [].

End NotificationService.

(** ** Measures and sample inputs used in the statements *)

Module DiffData.
Import PyStr Diff.

Definition scenario_patch : string :=
  ln "@@ -2,1 +2,3 @@" (ln " def f():" (ln "+    x = 1" (ln "+    y = 2" ""))).

Definition scenario_content : string :=
  ln "a" (ln "def f():" (ln "b" "")).

Definition scenario_patched : string :=
  ln "a" (ln "def f():" (ln "    x = 1" (ln "    y = 2" (ln "b" "")))).

Definition scenario_patched_twice : string :=
  ln "a" (ln "def f():" (ln "    x = 1" (ln "    y = 2"
    (ln "    x = 1" (ln "    y = 2" (ln "b" "")))))).

(** Number of changes of a kind in a patch. *)
Definition count_type (t : change_type) (cs : list change) : Z :=
  Z.of_nat (length (filter (fun c => type c = t) cs)).

Definition count_in_hunks (t : change_type) (hs : list hunk) : Z :=
  foldr (fun h acc => count_type t (changes h) + acc) 0 hs.


(** A patch with a body line that carries no marker, and one whose header
    does not parse. *)
Definition unmarked_patch : string :=
  ln "@@ -1 +1 @@" (ln "garbage" "+x").

Definition bad_header_patch : string :=
  ln "@@ -one +1 @@" "+x".

End DiffData.

(** ** Reading a trace *)

Module Trace.

(** A step that changes neither the disk nor the backup pointer and adds
    only log entries to the trace. *)
Definition quiet (w w' : world) : Prop :=
  disk w' = disk w /\ current_backup w' = current_backup w /\
  exists evs, trace w' = (trace w ++ evs)%list /\ forallb is_log evs = true.

(** Every failure recorded by the learning system comes after a restore of
    its own.  [restored] tells whether a restore happened since the last
    recorded failure; the result is that flag at the end of the trace, or
    [None] when a failure was recorded without a restore before it. *)
Fixpoint scan (restored : bool) (evs : list event) : option bool :=
  match evs with
  | [] => Some restored
  | EvRestore _ _ :: rest => scan true rest
  | EvLearn what :: rest =>
      if String.eqb what "failure" then
        if restored then scan false rest else None
      else scan restored rest
  | _ :: rest => scan restored rest
  end.

Definition is_restore_to (tf : string) (e : event) : bool :=
  match e with
  | EvRestore _ t => String.eqb t tf
  | _ => false
  end.

(** A computation that only logs, whatever it returns or raises. *)
Definition log_only {A : Type} (m : M A) : Prop := forall w, quiet w (m w).2.

(** Events that are neither a restore nor an entry of the learning
    system. *)
Definition is_neutral (e : event) : bool :=
  match e with
  | EvRestore _ _ | EvLearn _ => false
  | _ => true
  end.

(** A step that changes neither the disk nor the backup pointer and adds
    only neutral events. *)
Definition calm (w w' : world) : Prop :=
  disk w' = disk w /\ current_backup w' = current_backup w /\
  exists evs, trace w' = (trace w ++ evs)%list /\ forallb is_neutral evs = true.

(** Number of restores of the file [tf]. *)
Fixpoint count_restores (tf : string) (evs : list event) : nat :=
  match evs with
  | [] => O
  | e :: rest => ((if is_restore_to tf e then 1 else 0) + count_restores tf rest)%nat
  end.

(** [k] rounds, each made of neutral events, a restore of [tf] from some
    backup and the record of a failure. *)
Inductive rounds (tf : string) : nat -> list event -> Prop :=
| rounds_done : rounds tf O []
| rounds_more k evs bp rest :
    forallb is_neutral evs = true ->
    rounds tf k rest ->
    rounds tf (S k) (evs ++ EvRestore bp tf :: EvLearn "failure" :: rest).

(** A world in which the backup [bp] of the file [f0] at [tf] is live and
    intact. *)
Definition backed (tf : string) (f0 : file) (bp : string) (w : world) : Prop :=
  PatchApplier.live_backup w = Some bp /\
  (exists ts, disk w !! PatchApplier.meta_path bp = Some (Meta (BackupMeta tf ts bp))) /\
  disk w !! bp = Some f0 /\ bp <> tf.

(** A computation whose result and clock readings depend on the clock
    only, not on the disk, the backup pointer or the trace. *)
Definition clock_only {A : Type} (m : M A) : Prop :=
  forall w1 w2, tick w1 = tick w2 ->
    (m w1).1 = (m w2).1 /\ tick (m w1).2 = tick (m w2).2.

(** What was added to the trace between two worlds. *)
Definition added (w w' : world) : list event :=
  drop (length (trace w)) (trace w').

End Trace.

(** ** The worlds the patch applier leaves behind *)

Section Worlds.
Context (E : env) (C : config).

(** The backup path and the world after [_create_backup] of a file [f]
    found at [tf]. *)
Definition backed_up (tf : string) (f : file) (w : world) : string * world :=
  let ts := Clock.strftime (now E (tick w)) in
  let bp := PatchApplier.backup_path_of C tf ts in
  (bp, World (<[PatchApplier.meta_path bp := Meta (BackupMeta tf ts bp)]>
                (<[bp := f]> (disk w)))
             (current_backup w) (S (tick w)) (trace w ++ [EvBackup tf bp])).

(** The world after [apply] wrote [new] over the file [f] at [tf]. *)
Definition applied (tf : string) (f : file) (new : string) (w : world) : world :=
  let '(bp, w1) := backed_up tf f w in
  World (<[tf := Text new]> (disk w1)) (Some bp) (tick w1)
        (trace w1 ++ [EvWrite tf]).

End Worlds.

(** ** A sample installation *)

Module Sample.

(** True division of two small non-negative integers. *)
Definition small_truediv (a b : Z) : pyresult float :=
  Ret (PrimFloat.div (PrimFloat.of_uint63 (Uint63.of_Z a))
                     (PrimFloat.of_uint63 (Uint63.of_Z b))).

(** A model that answers every prompt with a confident PASS. *)
Definition confident_pass : json :=
  JObj [("verdict", JStr "PASS"); ("confidence", JNum (NFloat 0.95))].

Definition deps0 : CriticAgent.deps :=
  CriticAgent.Deps (fun _ _ => Ret confident_pass)
                   (fun _ _ _ _ => Ret "prompt")
                   small_truediv.

Definition config0 : config := Config None (Some 3) None None.

Definition plan0 : plan :=
  Plan (Some "app.py") (Some "minimal_fix") (Some "missing statements").

Definition env0 : env :=
  Env (fun _ => Clock.DateTime 2024 1 2 3 4 5)
      (fun m => original_file m)
      (fun _ => Raise (Exn "JSONDecodeError" "Expecting value"))
      (fun _ => AstOk)
      (fun _ _ => CommitResult true (Some "0123abcd") None).

(** The same environment with a clock that moves on by a second at each
    reading. *)
Definition ticking_env : env :=
  Env (fun t => Clock.DateTime 2024 1 2 3 4 t)
      (json_dumps env0) (json_loads env0) (ast_parse env0) (git_commit env0).

Definition world0 : world :=
  World {[ "app.py" := Text DiffData.scenario_content ]} None 0 [].

(** The scenario patch as the fixer returns it, with a given line count. *)
Definition patch_of_size (n : Z) : patch_info :=
  PatchInfo DiffData.scenario_patch (Some (PatchMetadata (Some n) (Some 0) (Some n))).

Definition all_passed : test_results := TestResults (Some 5) (Some 5) (Some 0).
Definition one_failed : test_results := TestResults (Some 5) (Some 4) (Some 1).
Definition none_run : test_results := TestResults (Some 0) (Some 0) (Some 0).

(** An environment whose syntax check rejects everything. *)
Definition strict_env : env :=
  Env (now env0) (json_dumps env0) (json_loads env0)
      (fun _ => AstSyntaxError "invalid syntax" (Some 3))
      (git_commit env0).

(** Collaborators that plan a fix of [app.py], propose a patch [p] and
    report [tr] from a tester that leaves the disk to [after_tests]. *)
Definition collaborators_with (p : patch_info) (tr : test_results)
    (after_tests : gmap string file -> gmap string file)
    : ManagerAgent.collaborators :=
  ManagerAgent.Collaborators
    (fun _ => "run-1")
    (fun _ _ _ => Ret (JArr []))
    (fun _ _ _ => Ret (JObj [("bugs", JArr [JStr "bug"])]))
    (fun _ _ => Ret (JObj [("bugs", JArr [JStr "bug"])]))
    (fun _ _ _ => Ret (JObj []))
    (fun _ _ => Ret (JArr []))
    (fun _ _ _ _ => Ret plan0)
    (fun _ _ _ _ _ => Ret p)
    (fun _ _ _ _ d => (Ret tr, after_tests d))
    (fun _ _ _ => Ret tt)
    (fun _ _ _ => Ret tt).

(** The backup [apply] takes of [app.py] in [world0] under [env0], and a
    test run that deletes it. *)
Definition backup0 : string := "data/patches/app.py_20240102_030405.backup".

Definition lose_backup (d : gmap string file) : gmap string file :=
  delete backup0 d.

(** A healer that holds the patched [app.py] as a low-risk fix awaiting
    approval, its timer armed; a remote that takes every push. *)
Definition patched_world : world :=
  applied env0 config0 "app.py" (Text DiffData.scenario_content)
    DiffData.scenario_patched world0.

Definition healer0 : GitAutoHealer.healer :=
  GitAutoHealer.Healer
    {[ "run-1" := GitAutoHealer.Approval "app.py" "LOW" ]}
    {[ "run-1" ]}
    patched_world.

Definition remote0 : GitAutoHealer.remote :=
  GitAutoHealer.Remote true (fun _ => None).

(** The timer's callback and a manual rejection of the same ticket. *)
Definition timer_call : GitAutoHealer.call := GitAutoHealer.Call "run-1" true true.
Definition reject_call : GitAutoHealer.call := GitAutoHealer.Call "run-1" false false.

Definition race0 : GitAutoHealer.system :=
  GitAutoHealer.System
    [(timer_call, GitAutoHealer.Fired); (reject_call, GitAutoHealer.Start)]
    healer0.

(** Both calls find the ticket pending before either of them acts; the
    rejection then acts first. *)
Definition race_schedule : list nat := [0; 0; 1; 0; 1; 1; 0]%nat.

End Sample.

(** ** More sample inputs *)

Module MoreSamples.

(** A patch that removes line 9 of a three-line file. *)
Definition remove_line_9 : string := PyStr.ln "@@ -9,1 +9,0 @@" "-x".

(** A critic whose model cannot be reached. *)
Definition offline_deps : CriticAgent.deps :=
  CriticAgent.Deps (fun _ _ => Raise (Exn "ConnectionError" "model offline"))
                   (fun _ _ _ _ => Ret "prompt")
                   Sample.small_truediv.

(** An environment in which [git commit] finds nothing to commit. *)
Definition failing_git_env : env :=
  Env (now Sample.env0) (json_dumps Sample.env0) (json_loads Sample.env0)
      (ast_parse Sample.env0)
      (fun _ _ => CommitResult false None (Some "nothing to commit")).

(** A configuration that allows no attempt. *)
Definition config_no_attempts : config := Config None (Some 0) None None.

(** What the critic makes of a confident PASS of the model when five
    tests out of five pass, and the successful run that carries it. *)
Definition confident_evaluation : evaluation :=
  Evaluation (JStr "PASS") (JNum (NFloat 0.95)) (JStr "No rationale provided")
    (JArr []) (JArr []) (JArr []) (JNum (NFloat 1.0)) true.

Definition success_with (ev : evaluation) : ManagerAgent.run_result :=
  ManagerAgent.RunResult "run-1" "SUCCESS"
    (ManagerAgent.DetailsResult
       (ManagerAgent.AttemptResult ManagerAgent.SUCCESS 1 None None None
          (Some (Sample.patch_of_size 3)) (Some ev) None (Some false) (Some true)
          None None None)).

(** The evaluation of a patch that no test was run on. *)
Definition untested_evaluation : evaluation :=
  Evaluation (JStr "PASS") (JNum (NFloat 0.7))
    (JStr "Patch applied successfully (no tests available)")
    (JArr []) (JArr [JStr "Add tests for better validation"])
    (JArr []) (JNum (NFloat 0.0)) false.

(** A healer with nothing pending, over the patched [app.py]. *)
Definition idle_healer : GitAutoHealer.healer :=
  GitAutoHealer.Healer ∅ ∅ Sample.patched_world.

(** A remote that refuses every push. *)
Definition closed_remote : GitAutoHealer.remote :=
  GitAutoHealer.Remote true (fun _ => Some "remote rejected").

(** A result that declares its own risk: little confidence, [risk_level]
    ['LOW']. *)
Definition declared_low : Intake.healing_result :=
  Intake.HealingResult "run-2" (JStr "SUCCESS")
    (Intake.Details [("confidence", JNum (NFloat 0.1)); ("risk_level", JStr "LOW")] []).

(** The two results of [tests/test_auto_healing.py]: the same run, first
    declared ['LOW'], then ['HIGH'] with 25 changed lines. *)
Definition mock_result (risk : string) (lines : Z) : Intake.healing_result :=
  Intake.HealingResult "test-run-123" (JStr "SUCCESS")
    (Intake.Details [("confidence", JNum (NFloat 0.9)); ("risk_level", JStr risk)]
                    [("lines_changed", JNum (NInt lines))]).

(** A model that answers every prompt with a confident REJECT. *)
Definition rejecting_deps : CriticAgent.deps :=
  CriticAgent.Deps
    (fun _ _ => Ret (JObj [("verdict", JStr "REJECT"); ("confidence", JNum (NFloat 0.95))]))
    (fun _ _ _ _ => Ret "prompt")
    Sample.small_truediv.

End MoreSamples.

(** * Properties *)

(** ** The diff engine *)

Module DiffFacts.
Import PyStr Diff DiffData.

Lemma count_type_cons t c cs :
  count_type t (c :: cs) = (if decide (type c = t) then 1 else 0) + count_type t cs.
Proof.
  unfold count_type. rewrite filter_cons.
  destruct (decide (type c = t)); simpl length; lia.
Qed.






(** A line that is neither a header nor a marked body line leaves the parse
    as it is. *)
Lemma parse_lines_skip pre : forall l post hunks cur,
  hunk_match l = None -> classify l = None ->
  parse_lines (pre ++ l :: post) hunks cur = parse_lines (pre ++ post) hunks cur.
Proof.
  induction pre as [|x pre IH]; intros l post hunks cur Hm Hc; simpl.
  - rewrite Hm. destruct cur as [h|]; [|done].
    unfold append_change. rewrite Hc. by destruct h.
  - destruct (hunk_match x); [by apply IH|].
    destruct cur; by apply IH.
Qed.

Lemma split_nl_nonempty s : split_nl s <> [].
Proof.
  destruct s as [|c s]; simpl; [done|].
  destruct (Ascii.eqb c nl); [done|]. by destruct (split_nl s).
Qed.

Lemma split_nl_ln l rest :
  has_nl l = false -> split_nl (ln l rest) = l :: split_nl rest.
Proof.
  unfold ln. induction l as [|c l IH]; simpl; intros H.
  - reflexivity.
  - apply orb_false_elim in H as [Hc Hl].
    rewrite Hc, (IH Hl). done.
Qed.

Lemma split_nl_unlines pre rest :
  Forall (fun l => has_nl l = false) pre ->
  split_nl (unlines pre rest) = (pre ++ split_nl rest)%list.
Proof.
  induction 1 as [|l pre Hl _ IH]; simpl; [done|].
  by rewrite split_nl_ln, IH.
Qed.

(** C6: the scenario of the specification.  The patch
    [@@ -2,1 +2,3 @@ / def f(): / +    x = 1 / +    y = 2] applied to
    [a / def f(): / b] gives [a / def f(): /     x = 1 /     y = 2 / b]. *)
Theorem scenario_patch_applies :
  _apply_patch_to_string scenario_content scenario_patch = Ret scenario_patched.
Proof. vm_compute. reflexivity. Qed.


(** C8, as stated, fails: a body line without a marker and a header that
    does not parse are skipped, the parser returns hunks all the same and
    the patch applies. *)
Lemma unmarked_line_is_accepted :
  _parse_patch_hunks unmarked_patch = [Hunk 1 [Change add "x"]] /\
  _apply_patch_to_string "a" unmarked_patch = Ret (ln "x" "a") /\
  _parse_patch_hunks bad_header_patch = [] /\
  _apply_patch_to_string "a" bad_header_patch = Ret "a".
Proof. vm_compute. repeat split; reflexivity. Qed.

(** C8, amended: parsing has no error result.  A line that is not a hunk
    header and does not start with a marker (or starts with [+++] or [---])
    is skipped: the patch text with the line parses to the same hunks as
    the text without it. *)
Theorem unmarked_line_is_skipped (pre : list string) (l post : string) :
  Forall (fun x => has_nl x = false) pre ->
  has_nl l = false ->
  hunk_match l = None ->
  classify l = None ->
  _parse_patch_hunks (unlines pre (ln l post)) =
  _parse_patch_hunks (unlines pre post).
Proof.
  intros Hpre Hl Hm Hc. unfold _parse_patch_hunks.
  rewrite !split_nl_unlines, split_nl_ln by done.
  by apply parse_lines_skip.
Qed.

(** The line [garbage] between a header and an added line. *)
Lemma unmarked_line_is_skipped_witness :
  _parse_patch_hunks (unlines ["@@ -1 +1 @@"] (ln "garbage" "+x")) =
  _parse_patch_hunks (unlines ["@@ -1 +1 @@"] "+x").
Proof.
  apply (unmarked_line_is_skipped ["@@ -1 +1 @@"] "garbage" "+x").
  - repeat constructor.
  - reflexivity.
  - reflexivity.
  - reflexivity.
Defined.

End DiffFacts.

(** ** The critic *)

Module CriticFacts.
Import CriticAgent.

Section Facts.
Context (D : deps).

Lemma bind_ret_inv {A B : Type} (m : pyresult A) (k : A -> pyresult B) (b : B) :
  (x ← m; k x) = Ret b -> exists a, m = Ret a /\ k a = Ret b.
Proof. destruct m as [a|e]; simpl; [eauto|discriminate]. Qed.

Lemma quick_checks_no_merge p tr C ev :
  _quick_checks D p tr C = Ret (Some ev) -> should_auto_merge ev = false.
Proof.
  unfold _quick_checks.
  destruct (0 <? default 0 (failed tr)).
  - intros H.
    apply bind_ret_inv in H as (f & _ & H).
    apply bind_ret_inv in H as (t & _ & H).
    apply bind_ret_inv in H as (cov & _ & H).
    by injection H as <-.
  - destruct (_ <? lines_changed_or 0 p).
    + intros H. apply bind_ret_inv in H as (n & _ & H). by injection H as <-.
    + destruct (default 0 (total tr) =? 0); [|discriminate].
      intros H. by injection H as <-.
Qed.

Lemma quick_checks_pass_on p tr C :
  _quick_checks D p tr C = Ret None -> default 0 (total tr) <> 0.
Proof.
  unfold _quick_checks.
  destruct (0 <? default 0 (failed tr)).
  - intros H.
    apply bind_ret_inv in H as (f & _ & H).
    apply bind_ret_inv in H as (t & _ & H).
    apply bind_ret_inv in H as (cov & _ & H). discriminate.
  - destruct (_ <? lines_changed_or 0 p).
    + intros H. apply bind_ret_inv in H as (n & _ & H). discriminate.
    + destruct (default 0 (total tr) =? 0) eqn:Ht; [discriminate|].
      intros _. by apply Z.eqb_neq.
Qed.

Lemma fallback_no_merge p tr ev :
  _create_fallback_evaluation D p tr = Ret ev -> should_auto_merge ev = false.
Proof.
  unfold _create_fallback_evaluation. intros H.
  apply bind_ret_inv in H as (cov & _ & H). by injection H as <-.
Qed.

Lemma and_then_true a b : and_then a b = Ret true -> a = true /\ b = Ret true.
Proof. destruct a; simpl; [done|discriminate]. Qed.

Lemma eq_str_true v s : Py.eq_str v s = true -> v = JStr s.
Proof.
  destruct v; simpl; try discriminate.
  intros H. apply String.eqb_eq in H. by subst.
Qed.

(** What [should_auto_merge] stands for when [_validate_evaluation] sets it. *)
Lemma validate_merge_conditions ans p tr C ev :
  _validate_evaluation D ans p tr C = Ret ev ->
  should_auto_merge ev = true ->
  verdict ev = JStr "PASS" /\
  Py.ge_num (confidence ev) (default (NFloat 0.9) (auto_merge_threshold C)) = Ret true /\
  Py.gt_num (test_coverage ev) (NFloat 0.8) = Ret true /\
  Py.len (security_concerns ev) = Ret 0 /\
  lines_changed_or 999 p <= 10.
Proof.
  unfold _validate_evaluation.
  destruct ans as [| | | | |m];
    try (intros H Hm; apply fallback_no_merge in H; congruence).
  intros H Hm.
  apply bind_ret_inv in H as (coverage & _ & H).
  apply bind_ret_inv in H as (merge & Hmerge & H).
  injection H as <-. simpl in *. subst merge.
  apply and_then_true in Hmerge as [Hv Hmerge].
  apply bind_ret_inv in Hmerge as (c1 & Hc1 & Hmerge).
  apply and_then_true in Hmerge as [-> Hmerge].
  apply bind_ret_inv in Hmerge as (c2 & Hc2 & Hmerge).
  apply and_then_true in Hmerge as [-> Hmerge].
  apply bind_ret_inv in Hmerge as (n & Hn & Hmerge).
  apply and_then_true in Hmerge as [Hn0 Hmerge].
  apply Z.eqb_eq in Hn0. subst n.
  injection Hmerge as Hlines. apply Z.leb_le in Hlines.
  apply eq_str_true in Hv.
  repeat split; assumption.
Qed.

(** C10: an evaluation made from test results with no executed test
    ([total] zero or missing) never has [should_auto_merge]; and whenever
    [should_auto_merge] is set, the verdict is PASS, the confidence is at or
    above the configured threshold (0.9 by default), the test coverage is
    above 0.8, there is no security concern and at most 10 lines change. *)
Theorem auto_merge_gate p tr bug_report pl C w ev w' :
  evaluate_patch D p tr bug_report pl C w = (Ret ev, w') ->
  (default 0 (total tr) = 0 -> should_auto_merge ev = false) /\
  (should_auto_merge ev = true ->
     verdict ev = JStr "PASS" /\
     Py.ge_num (confidence ev) (default (NFloat 0.9) (auto_merge_threshold C)) = Ret true /\
     Py.gt_num (test_coverage ev) (NFloat 0.8) = Ret true /\
     Py.len (security_concerns ev) = Ret 0 /\
     lines_changed_or 999 p <= 10).
Proof.
  unfold evaluate_patch, mbind, M_bind, lift, try_except, mret, M_ret, log_error, modify.
  destruct (_quick_checks D p tr C) as [[qev|]|e] eqn:Hq; [| |discriminate].
  - intros [= -> _]. apply quick_checks_no_merge in Hq.
    split; [done|]. congruence.
  - apply quick_checks_pass_on in Hq.
    destruct (build_evaluation_prompt D p tr bug_report pl) as [prompt|e];
      [|discriminate].
    destruct (generate_json D (tick w) prompt) as [ans|e].
    + destruct (_validate_evaluation D ans p tr C) as [vev|e] eqn:Hv.
      * intros [= -> _]. split; [done|].
        by apply (validate_merge_conditions ans p tr C).
      * destruct (_create_fallback_evaluation D p tr) as [fev|e'] eqn:Hf;
          [|discriminate].
        intros [= -> _]. apply fallback_no_merge in Hf.
        split; [done|]. congruence.
    + destruct (_create_fallback_evaluation D p tr) as [fev|e'] eqn:Hf;
        [|discriminate].
      intros [= -> _]. apply fallback_no_merge in Hf.
      split; [done|]. congruence.
Qed.

End Facts.

(** No test was run: the quick checks accept the patch, without
    auto-merge, and the model is not asked. *)
Example no_tests_no_merge :
  exists ev,
    evaluate_patch Sample.deps0 (Sample.patch_of_size 3) Sample.none_run
      JNull Sample.plan0 Sample.config0 Sample.world0 = (Ret ev, Sample.world0) /\
    verdict ev = JStr "PASS" /\ should_auto_merge ev = false.
Proof. eexists. split; [vm_compute; reflexivity|]. by split. Qed.

(** The gate at work: five tests out of five pass, three lines change, the
    model is 0.95 confident, and the patch is marked for auto-merge. *)
Lemma auto_merge_gate_witness :
  exists ev w',
    evaluate_patch Sample.deps0 (Sample.patch_of_size 3) Sample.all_passed
      JNull Sample.plan0 Sample.config0 Sample.world0 = (Ret ev, w') /\
    should_auto_merge ev = true /\
    (default 0 (total Sample.all_passed) = 0 -> should_auto_merge ev = false) /\
    (should_auto_merge ev = true ->
       verdict ev = JStr "PASS" /\
       Py.ge_num (confidence ev) (NFloat 0.9) = Ret true /\
       Py.gt_num (test_coverage ev) (NFloat 0.8) = Ret true /\
       Py.len (security_concerns ev) = Ret 0 /\
       lines_changed_or 999 (Sample.patch_of_size 3) <= 10).
Proof.
  eexists. eexists.
  split; [vm_compute; reflexivity|].
  split; [reflexivity|].
  eapply (auto_merge_gate Sample.deps0 (Sample.patch_of_size 3) Sample.all_passed
            JNull Sample.plan0 Sample.config0 Sample.world0).
  vm_compute. reflexivity.
Defined.

End CriticFacts.

(** ** Paths of backups *)

Module PathFacts.
Import OsPath.

Lemma append_cons c (a b : string) : String c a +:+ b = String c (a +:+ b).
Proof. reflexivity. Qed.

Lemma append_nil (b : string) : "" +:+ b = b.
Proof. reflexivity. Qed.

Lemma length_append (a b : string) :
  String.length (a +:+ b) = (String.length a + String.length b)%nat.
Proof.
  induction a as [|c a IH]; [done|].
  rewrite append_cons. simpl. by rewrite IH.
Qed.

Lemma append_assoc (a b c : string) : (a +:+ b) +:+ c = a +:+ (b +:+ c).
Proof.
  induction a as [|x a IH]; [done|].
  rewrite !append_cons. by rewrite IH.
Qed.

Lemma has_slash_app a b : has_slash (a +:+ b) = has_slash a || has_slash b.
Proof.
  induction a as [|c a IH]; [done|].
  rewrite append_cons. simpl. rewrite IH. by rewrite orb_assoc.
Qed.

Lemma basename_noslash p : has_slash p = false -> basename p = p.
Proof.
  destruct p as [|c p]; simpl; [done|].
  intros H. apply orb_false_elim in H as [Hc Hp]. by rewrite Hp, Hc.
Qed.

Lemma basename_app p q :
  has_slash q = false -> basename (p +:+ q) = basename p +:+ q.
Proof.
  intros Hq. induction p as [|c p IH].
  - by apply basename_noslash.
  - rewrite append_cons. simpl.
    rewrite has_slash_app, Hq, orb_false_r.
    destruct (has_slash p); [done|].
    by destruct (Ascii.eqb c slash).
Qed.

Lemma has_slash_basename p : has_slash (basename p) = false.
Proof.
  induction p as [|c p IH]; simpl; [done|].
  destruct (has_slash p) eqn:Hp; [done|].
  destruct (Ascii.eqb c slash) eqn:Hc; [done|].
  simpl. by rewrite Hc, Hp.
Qed.

Lemma join_suffix a b : exists x, join a b = x +:+ b.
Proof.
  unfold join. destruct (PyStr.startswith "/" b).
  - by exists "".
  - destruct (_ || _).
    + by exists a.
    + exists (a +:+ "/"). by rewrite append_assoc.
Qed.

Lemma digit_noslash n : Ascii.eqb (Clock.digit n) slash = false.
Proof.
  unfold Clock.digit.
  assert (n mod 10 < 10)%nat as Hlt by (apply Nat.mod_upper_bound; lia).
  generalize dependent (n mod 10)%nat. intros m Hlt.
  do 10 (destruct m as [|m]; [reflexivity|]). lia.
Qed.

Lemma pad2_noslash n : has_slash (Clock.pad2 n) = false.
Proof. unfold Clock.pad2. cbn [has_slash]. by rewrite !digit_noslash. Qed.

Lemma pad4_noslash n : has_slash (Clock.pad4 n) = false.
Proof.
  unfold Clock.pad4. cbn [has_slash].
  by rewrite !digit_noslash, pad2_noslash.
Qed.

Lemma strftime_noslash d : has_slash (Clock.strftime d) = false.
Proof.
  unfold Clock.strftime.
  by rewrite !has_slash_app, pad4_noslash, !pad2_noslash.
Qed.

Lemma append_inj_l (a s1 s2 : string) : a +:+ s1 = a +:+ s2 -> s1 = s2.
Proof.
  induction a as [|c a IH]; [done|].
  rewrite !append_cons. intros [= H]. by apply IH.
Qed.

Lemma append_last_inj (s1 s2 : string) (a b : ascii) :
  s1 +:+ String a "" = s2 +:+ String b "" -> s1 = s2 /\ a = b.
Proof.
  revert s2. induction s1 as [|c s1 IH]; intros s2.
  - destruct s2 as [|d s2]; [by intros [= ->]|].
    rewrite append_nil, append_cons. intros [= -> H].
    destruct s2; discriminate.
  - destruct s2 as [|d s2].
    + rewrite append_nil, append_cons. intros [= -> H].
      destruct s1; discriminate.
    + rewrite !append_cons. intros [= -> H].
      destruct (IH s2 H) as [-> ->]. done.
Qed.

Lemma append_inj_r (t s1 s2 : string) : s1 +:+ t = s2 +:+ t -> s1 = s2.
Proof.
  revert s1 s2. induction t as [|c t IH]; intros s1 s2.
  - assert (forall s : string, s +:+ "" = s) as Hnil.
    { intros s. induction s as [|x s IHs]; [done|]. by rewrite append_cons, IHs. }
    by rewrite !Hnil.
  - change (String c t) with (String c "" +:+ t).
    rewrite <- !append_assoc. intros H. apply IH in H.
    by apply append_last_inj in H as [-> _].
Qed.

(** [os.path.join] puts the same prefix in front of every name that does
    not start with a slash. *)
Lemma join_relative a : exists x, forall n,
  PyStr.startswith "/" n = false -> join a n = x +:+ n.
Proof.
  unfold join. destruct (String.eqb a "" || ends_with_slash a).
  - exists a. intros n ->. done.
  - exists (a +:+ "/"). intros n ->. by rewrite append_assoc.
Qed.

End PathFacts.

(** ** The patch applier *)

Module ApplierFacts.
Import PatchApplier PathFacts.

Section Facts.
Context (E : env) (C : config).

Lemma backup_name_noslash tf ts :
  OsPath.has_slash ts = false -> OsPath.has_slash (backup_name tf ts) = false.
Proof.
  intros Hts. unfold backup_name.
  by rewrite !has_slash_app, has_slash_basename, Hts.
Qed.

Lemma backup_name_longer tf ts :
  (String.length (OsPath.basename tf) < String.length (backup_name tf ts))%nat.
Proof. unfold backup_name. rewrite !length_append. simpl. lia. Qed.

(** A backup and its metadata never land on the file they are made of. *)
Lemma backup_path_fresh tf d :
  let bp := backup_path_of C tf (Clock.strftime d) in
  bp <> tf /\ meta_path bp <> tf /\ bp <> "" /\ meta_path bp <> bp.
Proof.
  intros bp. subst bp. unfold backup_path_of, meta_path.
  destruct (join_suffix (backup_dir C) (backup_name tf (Clock.strftime d))) as [x Hx].
  rewrite Hx.
  pose proof (backup_name_noslash tf _ (strftime_noslash d)) as Hn.
  pose proof (backup_name_longer tf (Clock.strftime d)) as Hlen.
  set (n := backup_name tf (Clock.strftime d)) in *.
  repeat split.
  - intros Heq. apply (f_equal OsPath.basename) in Heq.
    rewrite basename_app in Heq by done.
    apply (f_equal String.length) in Heq. rewrite length_append in Heq. lia.
  - intros Heq. rewrite append_assoc in Heq.
    apply (f_equal OsPath.basename) in Heq.
    rewrite basename_app in Heq by (by rewrite has_slash_app, Hn).
    apply (f_equal String.length) in Heq. rewrite !length_append in Heq. lia.
  - intros Heq. apply (f_equal String.length) in Heq.
    rewrite length_append in Heq. simpl in Heq. lia.
  - intros Heq. apply (f_equal String.length) in Heq.
    rewrite !length_append in Heq. simpl in Heq. lia.
Qed.

Lemma create_backup_spec tf f w :
  disk w !! tf = Some f ->
  _create_backup E C tf w = (Ret (backed_up E C tf f w).1, (backed_up E C tf f w).2).
Proof.
  intros Hf. unfold _create_backup, backed_up.
  destruct (backup_path_fresh tf (now E (tick w))) as (Hne & _).
  unfold mbind, M_bind, datetime_now, copy2, write_file, modify, mret, M_ret.
  cbn [disk next_tick tick]. rewrite Hf.
  destruct (decide _) as [Heq|_]; [by symmetry in Heq|].
  reflexivity.
Qed.

Lemma create_backup_missing tf w :
  disk w !! tf = None ->
  _create_backup E C tf w = (Raise (file_not_found tf), next_tick w).
Proof.
  intros Hf. unfold _create_backup.
  unfold mbind, M_bind, datetime_now, copy2.
  cbn [disk next_tick tick]. by rewrite Hf.
Qed.

Lemma apply_spec patch tf f new w :
  disk w !! tf = Some f ->
  Diff._apply_patch_to_string (file_text E f) patch = Ret new ->
  apply E C patch tf w =
    (Ret (Outcome true (Some "Patch applied") None None (Some (backed_up E C tf f w).1)),
     applied E C tf f new w).
Proof.
  intros Hf Hp. unfold apply.
  unfold mbind at 1. unfold M_bind at 1.
  rewrite (create_backup_spec tf f w Hf).
  destruct (backup_path_fresh tf (now E (tick w))) as (Hne & Hme & _).
  unfold applied, backed_up in *. cbn [fst snd].
  unfold try_except, mbind, M_bind, read_text, lift, write_file, modify, mret, M_ret.
  cbn [disk].
  rewrite lookup_insert_ne by done. rewrite lookup_insert_ne by done.
  rewrite Hf, Hp. reflexivity.
Qed.

(** [dry_apply] always returns a dictionary; it leaves the disk and the
    backup pointer alone and writes at most to the error log. *)
Lemma dry_apply_frame patch tf w :
  exists o evs,
    dry_apply E patch tf w =
      (Ret o, World (disk w) (current_backup w) (tick w) (trace w ++ evs)) /\
    forallb is_log evs = true /\
    (success o = false -> is_Some (error o)).
Proof.
  unfold dry_apply, try_except, mbind, M_bind, read_text, lift, raise,
    log_error, modify, mret, M_ret.
  destruct w as [d b t tr]. cbn [disk current_backup tick trace emit].
  destruct (d !! tf) as [f|].
  - destruct (Diff._apply_patch_to_string (file_text E f) patch) as [new|e].
    + destruct (ast_parse E new) as [|msg lineno|e].
      * eexists _, []. rewrite app_nil_r. by repeat split.
      * eexists _, []. rewrite app_nil_r. repeat split; eauto.
      * eexists _, [_]. repeat split; eauto.
    + eexists _, [_]. repeat split; eauto.
  - eexists _, [_]. repeat split; eauto.
Qed.

(** When [dry_apply] reports success the patch applies to the file as it
    is on disk and the result parses; nothing at all has changed. *)
Lemma dry_apply_success patch tf w o w' :
  dry_apply E patch tf w = (Ret o, w') ->
  success o = true ->
  exists f new,
    disk w !! tf = Some f /\
    Diff._apply_patch_to_string (file_text E f) patch = Ret new /\
    ast_parse E new = AstOk /\
    w' = w.
Proof.
  unfold dry_apply, try_except, mbind, M_bind, read_text, lift, raise,
    log_error, modify, mret, M_ret.
  destruct (disk w !! tf) as [f|] eqn:Hf; [|intros [= <- _]; discriminate].
  destruct (Diff._apply_patch_to_string (file_text E f) patch) as [new|e] eqn:Hp;
    [|intros [= <- _]; discriminate].
  destruct (ast_parse E new) as [|msg lineno|e] eqn:Ha;
    try (intros [= <- _]; discriminate).
  intros [= <- <-] _. by exists f, new.
Qed.

Lemma dry_apply_ok patch tf f new w :
  disk w !! tf = Some f ->
  Diff._apply_patch_to_string (file_text E f) patch = Ret new ->
  ast_parse E new = AstOk ->
  dry_apply E patch tf w =
    (Ret (Outcome true (Some "Patch is valid") None (Some new) None), w).
Proof.
  intros Hf Hp Ha.
  unfold dry_apply, try_except, mbind, M_bind, read_text, lift, mret, M_ret.
  by rewrite Hf, Hp, Ha.
Qed.

(** [rollback] never raises and does not read the clock.  When it fails
    with a backup at hand, the failure is written to the error log and
    returned under ['error']; the disk and the backup pointer stay. *)
Lemma rollback_total w :
  exists o w',
    rollback E w = (Ret o, w') /\ tick w' = tick w /\
    (success o = false -> is_Some (live_backup w) ->
     exists msg,
       error o = Some msg /\
       w' = emit (EvLogError ("Rollback failed: " +:+ msg)) w).
Proof.
  unfold rollback.
  destruct (live_backup w) as [bp|] eqn:Hl.
  - unfold _get_backup_info, _restore_backup, copy2.
    unfold try_except, mbind, M_bind, modify, log_error, mret, M_ret.
    destruct (disk w !! meta_path bp) as [[s|m]|];
      [destruct (json_loads E s) as [m|e]| |];
      try (destruct (disk w !! bp) as [f|]; [destruct (decide _)|]);
      eexists _, _; (split; [reflexivity|]); (split; [reflexivity|]);
      cbn [success error];
      first [ discriminate
            | intros _ _; eexists; split; reflexivity ].
  - eexists _, _. split; [reflexivity|]. split; [reflexivity|].
    intros _ [? ?]. discriminate.
Qed.

(** A rollback that finds the backup and its metadata puts the backed-up
    file back and forgets the backup. *)
Lemma rollback_restores w bp m f :
  live_backup w = Some bp ->
  disk w !! meta_path bp = Some (Meta m) ->
  disk w !! bp = Some f ->
  bp <> original_file m ->
  rollback E w =
    (Ret (Outcome true (Some "Rollback successful") None None None),
     World (<[original_file m := f]> (disk w)) None (tick w)
           (trace w ++ [EvRestore bp (original_file m)])).
Proof.
  intros Hl Hm Hf Hne. unfold rollback. rewrite Hl.
  unfold _get_backup_info, _restore_backup, copy2.
  unfold try_except, mbind, M_bind, modify, log_error, mret, M_ret.
  rewrite Hm, Hf. destruct (decide _) as [|_]; [done|]. reflexivity.
Qed.

End Facts.

(** C3, as stated, fails: two backups of [app.py] in a row, a second
    apart, both succeed, and both stay on disk with their metadata. *)
Lemma two_live_backups :
  exists bp1 w1 bp2 w2,
    _create_backup Sample.ticking_env Sample.config0 "app.py" Sample.world0
      = (Ret bp1, w1) /\
    _create_backup Sample.ticking_env Sample.config0 "app.py" w1 = (Ret bp2, w2) /\
    bp1 <> bp2 /\
    is_Some (disk w2 !! bp1) /\ is_Some (disk w2 !! bp2) /\
    disk w2 !! meta_path bp1 =
      Some (Meta (BackupMeta "app.py" "20240102_030400" bp1)) /\
    disk w2 !! meta_path bp2 =
      Some (Meta (BackupMeta "app.py" "20240102_030401" bp2)).
Proof.
  eexists _, _, _, _.
  split; [vm_compute; reflexivity|].
  split; [vm_compute; reflexivity|].
  split; [discriminate|].
  repeat split; vm_compute; eauto.
Qed.

Lemma backup_name_relative tf ts : PyStr.startswith "/" (backup_name tf ts) = false.
Proof.
  unfold backup_name. pose proof (has_slash_basename tf) as Hb.
  destruct (OsPath.basename tf) as [|c b]; [reflexivity|].
  rewrite append_cons. simpl in Hb. apply orb_false_elim in Hb as [Hc _].
  unfold PyStr.startswith. cbn [String.prefix].
  destruct (ascii_dec "/" c) as [<-|]; [discriminate|reflexivity].
Qed.

(** Two backups of a file have the same path exactly when their time
    stamps are the same; a backup is never the metadata file of another. *)
Lemma backup_path_inj (C : config) tf ts1 ts2 :
  backup_path_of C tf ts1 = backup_path_of C tf ts2 -> ts1 = ts2.
Proof.
  unfold backup_path_of.
  destruct (join_relative (backup_dir C)) as [x Hx].
  rewrite !Hx by apply backup_name_relative.
  intros H. apply append_inj_l in H. unfold backup_name in H.
  apply append_inj_l in H. apply append_inj_l in H.
  by apply append_inj_r in H.
Qed.

Lemma backup_is_no_meta (C : config) tf ts1 ts2 :
  backup_path_of C tf ts1 <> meta_path (backup_path_of C tf ts2).
Proof.
  unfold backup_path_of, meta_path.
  destruct (join_relative (backup_dir C)) as [x Hx].
  rewrite !Hx by apply backup_name_relative.
  unfold backup_name. intros H.
  change ".backup" with (".backu" +:+ "p") in H at 1.
  change ".meta" with (".met" +:+ "a") in H.
  rewrite <- !append_assoc in H.
  apply append_last_inj in H as [_ H]. discriminate.
Qed.

Section SecondBackup.
Context (E : env) (C : config).

(** C3, amended: taking a backup never fails for a file that exists, also
    while an earlier backup [b] of the same file is live.  The new backup
    holds the file as it is now, under a name made of the file name and the
    time stamp, next to its metadata, and the applier's current backup is
    still [b].  When the two time stamps differ, [b] and its metadata stay
    on disk as they were; when both backups fall in the same second, the
    name is the same and the new backup overwrites [b].  [apply] then makes
    the new backup the current one, the only one the applier remembers,
    and does not touch [b] again. *)
Theorem second_backup_succeeds patch tf f f0 m0 new w d0 :
  let b := backup_path_of C tf (Clock.strftime d0) in
  let ts := Clock.strftime (now E (tick w)) in
  let bp := backup_path_of C tf ts in
  live_backup w = Some b ->
  disk w !! b = Some f0 ->
  disk w !! meta_path b = Some m0 ->
  disk w !! tf = Some f ->
  Diff._apply_patch_to_string (file_text E f) patch = Ret new ->
  exists w1,
    _create_backup E C tf w = (Ret bp, w1) /\
    disk w1 !! bp = Some f /\
    disk w1 !! meta_path bp = Some (Meta (BackupMeta tf ts bp)) /\
    live_backup w1 = Some b /\
    (Clock.strftime d0 <> ts ->
       bp <> b /\ disk w1 !! b = Some f0 /\ disk w1 !! meta_path b = Some m0) /\
    (Clock.strftime d0 = ts -> bp = b /\ disk w1 !! b = Some f) /\
    exists o w',
      apply E C patch tf w = (Ret o, w') /\
      success o = true /\ live_backup w' = Some bp /\
      disk w' !! b = disk w1 !! b.
Proof.
  intros b ts bp Hl Hb Hm Hf Hp.
  destruct (backup_path_fresh C tf (now E (tick w))) as (Hne & Hme & Hnil & Hmb).
  destruct (backup_path_fresh C tf d0) as (Hbt & _).
  fold ts in Hne, Hme, Hnil, Hmb. fold bp in Hne, Hme, Hnil, Hmb. fold b in Hbt.
  pose proof (backup_is_no_meta C tf (Clock.strftime d0) ts) as Hbm.
  pose proof (backup_is_no_meta C tf ts (Clock.strftime d0)) as Hmb'.
  fold b bp in Hbm, Hmb'.
  eexists. split; [by apply create_backup_spec|].
  unfold backed_up. fold ts bp. cbn [fst snd disk current_backup].
  split; [by rewrite lookup_insert_ne, lookup_insert_eq|].
  split; [by rewrite lookup_insert_eq|].
  split; [exact Hl|].
  split; [|split].
  - intros Hts.
    assert (bp <> b) as Hbb by (intros Heq; by apply backup_path_inj in Heq).
    assert (meta_path bp <> meta_path b) as Hmm
      by (unfold meta_path; intros Heq; by apply append_inj_r in Heq).
    split; [done|]. split.
    + rewrite lookup_insert_ne by done. by rewrite lookup_insert_ne.
    + rewrite lookup_insert_ne by done. by rewrite lookup_insert_ne.
  - intros Hts. assert (bp = b) as Heq by (subst bp b; by rewrite Hts).
    split; [done|]. rewrite <- Heq.
    rewrite lookup_insert_ne by done. apply lookup_insert_eq.
  - eexists _, _. split; [by apply apply_spec|].
    unfold applied, backed_up. fold ts bp. cbn [success disk current_backup].
    split; [done|]. split.
    + unfold live_backup. cbn [current_backup].
      destruct (String.eqb_spec bp ""); [done|done].
    + by rewrite (lookup_insert_ne _ tf b).
Qed.

End SecondBackup.

(** A second backup of [app.py], a second after the first, while the
    backup of the first [apply] is live. *)
Lemma second_backup_succeeds_witness :
  let E := Sample.ticking_env in
  let C := Sample.config0 in
  let w := applied E C "app.py" (Text DiffData.scenario_content)
             DiffData.scenario_patched Sample.world0 in
  let b := backup_path_of C "app.py" "20240102_030400" in
  let ts := "20240102_030401" in
  let bp := backup_path_of C "app.py" ts in
  exists w1,
    _create_backup E C "app.py" w = (Ret bp, w1) /\
    disk w1 !! bp = Some (Text DiffData.scenario_patched) /\
    disk w1 !! meta_path bp = Some (Meta (BackupMeta "app.py" ts bp)) /\
    live_backup w1 = Some b /\
    ("20240102_030400" <> ts ->
       bp <> b /\ disk w1 !! b = Some (Text DiffData.scenario_content) /\
       disk w1 !! meta_path b =
         Some (Meta (BackupMeta "app.py" "20240102_030400" b))) /\
    ("20240102_030400" = ts ->
       bp = b /\ disk w1 !! b = Some (Text DiffData.scenario_patched)) /\
    exists o w',
      apply E C DiffData.scenario_patch "app.py" w = (Ret o, w') /\
      success o = true /\ live_backup w' = Some bp /\
      disk w' !! b = disk w1 !! b.
Proof.
  intros E C w b ts bp.
  apply (second_backup_succeeds E C DiffData.scenario_patch "app.py"
           (Text DiffData.scenario_patched) (Text DiffData.scenario_content)
           (Meta (BackupMeta "app.py" "20240102_030400" b))
           DiffData.scenario_patched_twice w (Clock.DateTime 2024 1 2 3 4 0)).
  - vm_compute. reflexivity.
  - vm_compute. reflexivity.
  - vm_compute. reflexivity.
  - vm_compute. reflexivity.
  - vm_compute. reflexivity.
Defined.

End ApplierFacts.

(** ** The manager *)

Module ManagerFacts.
Import ManagerAgent Trace.

Lemma quiet_refl w : quiet w w.
Proof.
  split; [done|]. split; [done|]. exists []. by rewrite app_nil_r.
Qed.

Lemma quiet_trans w1 w2 w3 : quiet w1 w2 -> quiet w2 w3 -> quiet w1 w3.
Proof.
  intros (Hd1 & Hb1 & evs1 & Ht1 & Hl1) (Hd2 & Hb2 & evs2 & Ht2 & Hl2).
  split; [congruence|]. split; [congruence|].
  exists (evs1 ++ evs2). split.
  - by rewrite Ht2, Ht1, app_assoc.
  - by rewrite forallb_app, Hl1, Hl2.
Qed.

Lemma quiet_emit e w : is_log e = true -> quiet w (emit e w).
Proof.
  intros He. split; [done|]. split; [done|].
  exists [e]. split; [done|]. simpl. by rewrite He.
Qed.

Lemma quiet_next_tick w : quiet w (next_tick w).
Proof.
  split; [done|]. split; [done|]. exists []. by rewrite app_nil_r.
Qed.

Section LogOnly.
Context {A B : Type}.

Lemma log_only_ret (a : A) : log_only (mret a).
Proof. intros w. apply quiet_refl. Qed.

Lemma log_only_raise (e : exn) : log_only (raise (A := A) e).
Proof. intros w. apply quiet_refl. Qed.

Lemma log_only_lift (r : pyresult A) : log_only (lift r).
Proof. intros w. apply quiet_refl. Qed.

Lemma log_only_bind (m : M A) (k : A -> M B) :
  log_only m -> (forall a, log_only (k a)) -> log_only (m ≫= k).
Proof.
  intros Hm Hk w. unfold mbind, M_bind.
  specialize (Hm w). destruct (m w) as [[a|e] w1]; simpl in *; [|done].
  eapply quiet_trans; [exact Hm|]. apply Hk.
Qed.

Lemma log_only_try (m : M A) (h : exn -> M A) :
  log_only m -> (forall e, log_only (h e)) -> log_only (try_except m h).
Proof.
  intros Hm Hh w. unfold try_except.
  specialize (Hm w). destruct (m w) as [[a|e] w1]; simpl in *; [done|].
  eapply quiet_trans; [exact Hm|]. apply Hh.
Qed.

End LogOnly.

Lemma log_only_log_error msg : log_only (log_error msg).
Proof. intros w. by apply quiet_emit. Qed.

Section WithCollaborators.
Context (E : env) (C : config) (D : CriticAgent.deps) (K : collaborators).

Lemma log_only_ask {A : Type} (f : nat -> pyresult A) : log_only (ask f).
Proof. intros w. apply quiet_next_tick. Qed.

Lemma log_only_log_step step n : log_only (log_step step n).
Proof. intros w. by apply quiet_emit. Qed.

Lemma log_only_path_exists path : log_only (path_exists path).
Proof. intros w. apply quiet_refl. Qed.

Lemma log_only_read_text path : log_only (PatchApplier.read_text E path).
Proof.
  intros w. unfold PatchApplier.read_text.
  destruct (disk w !! path); apply quiet_refl.
Qed.

Lemma log_only_dry_apply patch tf : log_only (PatchApplier.dry_apply E patch tf).
Proof.
  intros w.
  destruct (ApplierFacts.dry_apply_frame E patch tf w) as (o & evs & -> & Hl & _).
  split; [done|]. split; [done|]. by exists evs.
Qed.

Ltac log_only_step :=
  first
    [ apply log_only_ret | apply log_only_raise | apply log_only_lift
    | apply log_only_ask | apply log_only_log_error | apply log_only_log_step
    | apply log_only_path_exists | apply log_only_read_text
    | apply log_only_dry_apply
    | apply log_only_bind; [|intros ?]
    | apply log_only_try; [|intros ?]
    | match goal with
      | |- log_only (match ?x with _ => _ end) => destruct x
      end ].

Lemma log_only_evaluate_patch p tr br pl :
  log_only (CriticAgent.evaluate_patch D p tr br pl C).
Proof.
  unfold CriticAgent.evaluate_patch. repeat log_only_step.
  intros w. apply quiet_next_tick.
Qed.

Lemma log_only_plan_and_generate br rc prev n :
  log_only (plan_and_generate E K br rc prev n).
Proof. unfold plan_and_generate. repeat log_only_step. Qed.

(** C2: when the dry run of the generated patch does not succeed, the
    attempt ends as a RETRY in phase [validation]; the disk is what it was
    before the attempt, so is the backup pointer, and the trace has gained
    log entries only: no backup, no write, no restore, no test run. *)
Theorem failed_validation_changes_nothing br rc rp prev sf rid n w pl tf p w1 o w2 :
  plan_and_generate E K br rc prev n w = (Ret (inl (pl, tf, p)), w1) ->
  PatchApplier.dry_apply E (patch p) tf w1 = (Ret o, w2) ->
  PatchApplier.success o = false ->
  exists r w',
    _repair_iteration E C D K br rc rp prev sf rid n w = (Ret r, w') /\
    result_status r = RETRY /\ phase r = Some "validation" /\
    quiet w w'.
Proof.
  intros Hprep Hdry Hfail.
  pose proof (log_only_plan_and_generate br rc prev n w) as Hq1.
  pose proof (log_only_dry_apply (patch p) tf w1) as Hq2.
  rewrite Hprep in Hq1. rewrite Hdry in Hq2. simpl in Hq1, Hq2.
  destruct (ApplierFacts.dry_apply_frame E (patch p) tf w1)
    as (o' & evs & Hdry' & _ & Herr).
  rewrite Hdry in Hdry'. injection Hdry' as <- _.
  destruct (Herr Hfail) as [err Herr'].
  unfold _repair_iteration, mbind at 1, M_bind at 1. rewrite Hprep.
  unfold validate_and_apply, mbind at 1, M_bind at 1. rewrite Hdry, Hfail.
  cbn [negb]. rewrite Herr'.
  eexists _, _. split; [reflexivity|].
  split; [done|]. split; [done|].
  by eapply quiet_trans.
Qed.

End WithCollaborators.

(** On the sample installation with a syntax check that rejects the
    patched file. *)
Lemma failed_validation_changes_nothing_witness :
  exists r w',
    _repair_iteration Sample.strict_env Sample.config0 Sample.deps0
      (Sample.collaborators_with (Sample.patch_of_size 3) Sample.all_passed id)
      JNull JNull "." [] JNull "run-1" 1 Sample.world0 = (Ret r, w') /\
    result_status r = RETRY /\ phase r = Some "validation" /\
    quiet Sample.world0 w'.
Proof.
  eapply (failed_validation_changes_nothing Sample.strict_env Sample.config0
            Sample.deps0
            (Sample.collaborators_with (Sample.patch_of_size 3) Sample.all_passed id)).
  - vm_compute. reflexivity.
  - vm_compute. reflexivity.
  - reflexivity.
Defined.

End ManagerFacts.

(** ** Stepping through a repair iteration *)

Module RepairFacts.
Import ManagerAgent Trace ManagerFacts.

Lemma bind_ret {A B : Type} (m : M A) (k : A -> M B) w a w1 :
  m w = (Ret a, w1) -> (m ≫= k) w = k a w1.
Proof. intros H. unfold mbind, M_bind. by rewrite H. Qed.

Lemma bind_raise {A B : Type} (m : M A) (k : A -> M B) w e w1 :
  m w = (Raise e, w1) -> (m ≫= k) w = (Raise e, w1).
Proof. intros H. unfold mbind, M_bind. by rewrite H. Qed.

Lemma try_ret {A : Type} (m : M A) h w a w1 :
  m w = (Ret a, w1) -> try_except m h w = (Ret a, w1).
Proof. intros H. unfold try_except. by rewrite H. Qed.

Lemma try_raise {A : Type} (m : M A) h w e w1 :
  m w = (Raise e, w1) -> try_except m h w = h e w1.
Proof. intros H. unfold try_except. by rewrite H. Qed.

Section WithCollaborators.
Context (E : env) (C : config) (D : CriticAgent.deps) (K : collaborators).



Lemma evaluate_quick p tr br pl ev w :
  CriticAgent._quick_checks D p tr C = Ret (Some ev) ->
  CriticAgent.evaluate_patch D p tr br pl C w = (Ret ev, w).
Proof.
  intros H. unfold CriticAgent.evaluate_patch, mbind, M_bind, lift.
  by rewrite H.
Qed.


End WithCollaborators.



End RepairFacts.

(** ** What becomes of a failed rollback *)

Module RollbackFacts.
Import ManagerAgent Trace ManagerFacts RepairFacts.

Section ClockOnly.
Context {A B : Type}.

Lemma clock_only_ret (a : A) : clock_only (mret a).
Proof. intros w1 w2 Ht. by split. Qed.

Lemma clock_only_raise (e : exn) : clock_only (raise (A := A) e).
Proof. intros w1 w2 Ht. by split. Qed.

Lemma clock_only_lift (r : pyresult A) : clock_only (lift r).
Proof. intros w1 w2 Ht. by split. Qed.

Lemma clock_only_bind (m : M A) (k : A -> M B) :
  clock_only m -> (forall a, clock_only (k a)) -> clock_only (m ≫= k).
Proof.
  intros Hm Hk w1 w2 Ht. unfold mbind, M_bind.
  destruct (Hm w1 w2 Ht) as [Hr Ht'].
  destruct (m w1) as [r1 v1], (m w2) as [r2 v2]. simpl in *. subst r2.
  destruct r1 as [a|e]; [by apply Hk|by split].
Qed.

Lemma clock_only_try (m : M A) (h : exn -> M A) :
  clock_only m -> (forall e, clock_only (h e)) -> clock_only (try_except m h).
Proof.
  intros Hm Hh w1 w2 Ht. unfold try_except.
  destruct (Hm w1 w2 Ht) as [Hr Ht'].
  destruct (m w1) as [r1 v1], (m w2) as [r2 v2]. simpl in *. subst r2.
  destruct r1 as [a|e]; [by split|by apply Hh].
Qed.

Lemma clock_only_emit (e : event) : clock_only (modify (emit e)).
Proof. intros w1 w2 Ht. by split. Qed.

End ClockOnly.

Section WithCollaborators.
Context (E : env) (C : config) (D : CriticAgent.deps) (K : collaborators).

Lemma clock_only_ask {A : Type} (f : nat -> pyresult A) : clock_only (ask f).
Proof. intros w1 w2 Ht. unfold ask. simpl. rewrite Ht. by split. Qed.

Lemma clock_only_commit msg rid : clock_only (PatchApplier.commit E msg rid).
Proof.
  intros w1 w2 Ht. unfold PatchApplier.commit. simpl. rewrite Ht.
  split; [done|]. destruct (commit_success _); simpl; congruence.
Qed.

(** Whatever [rollback] does to the disk, what follows it sees the same
    clock. *)
Lemma clock_only_after_rollback {B : Type} (k : M B) :
  clock_only k -> clock_only (PatchApplier.rollback E ≫= fun _ => k).
Proof.
  intros Hk w1 w2 Ht. unfold mbind, M_bind.
  destruct (ApplierFacts.rollback_total E w1) as (o1 & v1 & -> & Ht1 & _).
  destruct (ApplierFacts.rollback_total E w2) as (o2 & v2 & -> & Ht2 & _).
  apply Hk. congruence.
Qed.

Lemma clock_only_after_guarded_rollback {B : Type} h (k : M B) :
  clock_only k ->
  clock_only (try_except (PatchApplier.rollback E) h ≫= fun _ => k).
Proof.
  intros Hk w1 w2 Ht. unfold mbind, M_bind, try_except.
  destruct (ApplierFacts.rollback_total E w1) as (o1 & v1 & -> & Ht1 & _).
  destruct (ApplierFacts.rollback_total E w2) as (o2 & v2 & -> & Ht2 & _).
  apply Hk. congruence.
Qed.

Ltac clock_only_step :=
  first
    [ apply clock_only_ret | apply clock_only_raise | apply clock_only_lift
    | apply clock_only_ask | apply clock_only_emit | apply clock_only_commit
    | apply clock_only_after_rollback
    | apply clock_only_after_guarded_rollback
    | apply clock_only_bind; [|intros ?]
    | apply clock_only_try; [|intros ?]
    | match goal with
      | |- clock_only (match ?x with _ => _ end) => destruct x
      end ].

Lemma clock_only_evaluate_patch p tr br pl :
  clock_only (CriticAgent.evaluate_patch D p tr br pl C).
Proof.
  unfold CriticAgent.evaluate_patch, log_error. repeat clock_only_step.
  intros w1 w2 Ht. simpl. rewrite Ht. by split.
Qed.

Lemma clock_only_evaluate_and_decide br rid n pl p tr :
  clock_only (evaluate_and_decide E C D br rid n pl p tr).
Proof.
  unfold evaluate_and_decide, log_step.
  apply clock_only_bind; [apply clock_only_emit|intros _].
  apply clock_only_bind; [apply clock_only_evaluate_patch|intros ev].
  repeat clock_only_step.
Qed.

Lemma clock_only_on_iteration_error n e :
  clock_only (on_iteration_error E n e).
Proof. unfold on_iteration_error, log_error. repeat clock_only_step. Qed.

(** The record of the phases after [apply] is the same in two worlds
    with the same clock in which the tester reports the same, whatever is
    on their disks and whatever their backup pointers are. *)
Lemma test_phase_record br rp rid n pl p w1 w2 :
  tick w1 = tick w2 ->
  (run_tests K (tick w1) p rp pl (disk w1)).1 =
  (run_tests K (tick w2) p rp pl (disk w2)).1 ->
  (test_phase E C D K br rp rid n pl p w1).1 =
  (test_phase E C D K br rp rid n pl p w2).1.
Proof.
  intros Ht Hrun.
  unfold test_phase, try_except, test_and_decide, mbind, M_bind, tester_run.
  destruct (run_tests K (tick w1) p rp pl (disk w1)) as [r1 d1].
  destruct (run_tests K (tick w2) p rp pl (disk w2)) as [r2 d2].
  simpl in Hrun. subst r2.
  set (v1 := emit EvTests (set_disk d1 (next_tick w1))).
  set (v2 := emit EvTests (set_disk d2 (next_tick w2))).
  assert (tick v1 = tick v2) as Hv by (simpl; congruence).
  destruct r1 as [tr|e].
  - destruct (clock_only_evaluate_and_decide br rid n pl p tr v1 v2 Hv) as [Hr Ht'].
    destruct (evaluate_and_decide E C D br rid n pl p tr v1) as [x1 u1].
    destruct (evaluate_and_decide E C D br rid n pl p tr v2) as [x2 u2].
    simpl in Hr, Ht'. subst x2.
    destruct x1 as [r|e]; [done|].
    by apply clock_only_on_iteration_error.
  - by apply clock_only_on_iteration_error.
Qed.

(** A [RETRY] result is annotated, stored, and the loop goes on. *)
Lemma retry_continues br rc rp sf rid n prev w r w1 :
  _repair_iteration E C D K br rc rp prev sf rid n w = (Ret r, w1) ->
  result_status r = RETRY ->
  exists prev' w',
    loop_body E C D K br rc rp sf rid n prev w = (Ret (Continue prev'), w') /\
    annotate r ∈ prev'.
Proof.
  intros Hit Hst. unfold loop_body.
  erewrite bind_ret;
    [|apply try_ret; erewrite bind_ret by exact Hit; rewrite Hst; reflexivity].
  unfold try_except, mbind, M_bind, ask, attempt_failed, log_error, modify,
    mret, M_ret.
  destruct (record_failure K (tick w1) br (annotate r)) as [[]|e];
    eexists _, _; (split; [reflexivity|]); set_solver.
Qed.

(** C4, amended: a failure while restoring a backup is caught inside
    [rollback], which writes it to the error log and returns it under
    ['error'].  The manager drops what [rollback] returns: the record of
    the attempt is the same whether the restore worked or not, being
    decided by the clock and the tester's report alone.  The attempt is
    stored as a RETRY and the loop goes on. *)
Theorem restore_failure_is_logged_not_recorded br rc rp sf rid n pl p w1 w2 :
  tick w1 = tick w2 ->
  (run_tests K (tick w1) p rp pl (disk w1)).1 =
  (run_tests K (tick w2) p rp pl (disk w2)).1 ->
  (test_phase E C D K br rp rid n pl p w1).1 =
  (test_phase E C D K br rp rid n pl p w2).1 /\
  (forall w, exists o w',
     PatchApplier.rollback E w = (Ret o, w') /\
     (PatchApplier.success o = false ->
      is_Some (PatchApplier.live_backup w) ->
      exists msg,
        PatchApplier.error o = Some msg /\
        w' = emit (EvLogError ("Rollback failed: " +:+ msg)) w)) /\
  (forall prev w r w',
     _repair_iteration E C D K br rc rp prev sf rid n w = (Ret r, w') ->
     result_status r = RETRY ->
     exists prev' w'',
       loop_body E C D K br rc rp sf rid n prev w = (Ret (Continue prev'), w'') /\
       annotate r ∈ prev').
Proof.
  intros Ht Hrun. split; [by apply test_phase_record|]. split.
  - intros w.
    destruct (ApplierFacts.rollback_total E w) as (o & w' & Hr & _ & Hlog).
    by exists o, w'.
  - intros prev w r w'. apply retry_continues.
Qed.

End WithCollaborators.

(** C4, as stated, fails.  The tests fail and the test run has deleted the
    backup: the rollback cannot restore [app.py], which stays patched, and
    says so in the error log only.  The attempt is recorded exactly as
    the attempt in which the backup was there and the file was restored:
    a RETRY without an ['error'] entry. *)
Lemma failed_restore_leaves_no_mark :
  exists r lost kept,
    _repair_iteration Sample.env0 Sample.config0 Sample.deps0
      (Sample.collaborators_with (Sample.patch_of_size 3) Sample.one_failed
         Sample.lose_backup)
      JNull JNull "." [] JNull "run-1" 1 Sample.world0 = (Ret r, lost) /\
    _repair_iteration Sample.env0 Sample.config0 Sample.deps0
      (Sample.collaborators_with (Sample.patch_of_size 3) Sample.one_failed id)
      JNull JNull "." [] JNull "run-1" 1 Sample.world0 = (Ret r, kept) /\
    result_status r = RETRY /\ result_error r = None /\ phase r = None /\
    disk lost !! "app.py" = Some (Text DiffData.scenario_patched) /\
    disk kept !! "app.py" = Some (Text DiffData.scenario_content) /\
    last (trace lost) =
      Some (EvLogError ("Rollback failed: [Errno 2] No such file or directory: " +:+
                        "'data/patches/app.py_20240102_030405.backup'")) /\
    last (trace kept) = Some (EvRestore Sample.backup0 "app.py").
Proof.
  eexists _, _, _.
  split; [vm_compute; reflexivity|].
  split; [vm_compute; reflexivity|].
  repeat split; vm_compute; reflexivity.
Qed.

(** Two worlds after the same [apply], one of which has lost the backup
    file: the same record comes out of both. *)
Lemma restore_failure_is_logged_not_recorded_witness :
  let E := Sample.env0 in
  let C := Sample.config0 in
  let D := Sample.deps0 in
  let p := Sample.patch_of_size 3 in
  let K := Sample.collaborators_with p Sample.one_failed id in
  let w1 := applied E C "app.py" (Text DiffData.scenario_content)
              DiffData.scenario_patched Sample.world0 in
  let w2 := set_disk (Sample.lose_backup (disk w1)) w1 in
  (test_phase E C D K JNull "." "run-1" 1 Sample.plan0 p w1).1 =
  (test_phase E C D K JNull "." "run-1" 1 Sample.plan0 p w2).1 /\
  (forall w, exists o w',
     PatchApplier.rollback E w = (Ret o, w') /\
     (PatchApplier.success o = false ->
      is_Some (PatchApplier.live_backup w) ->
      exists msg,
        PatchApplier.error o = Some msg /\
        w' = emit (EvLogError ("Rollback failed: " +:+ msg)) w)) /\
  (forall prev w r w',
     _repair_iteration E C D K JNull JNull "." prev JNull "run-1" 1 w = (Ret r, w') ->
     result_status r = RETRY ->
     exists prev' w'',
       loop_body E C D K JNull JNull "." JNull "run-1" 1 prev w
         = (Ret (Continue prev'), w'') /\
       annotate r ∈ prev').
Proof.
  intros E C D p K w1 w2.
  apply (restore_failure_is_logged_not_recorded E C D K JNull JNull "." JNull
           "run-1" 1 Sample.plan0 p w1 w2).
  - reflexivity.
  - reflexivity.
Defined.

End RollbackFacts.

(** ** A run in which every attempt is a RETRY *)

Module HealFacts.
Import ManagerAgent Trace ManagerFacts RepairFacts.

Lemma is_log_neutral e : is_log e = true -> is_neutral e = true.
Proof. by destruct e. Qed.

Lemma forallb_log_neutral evs :
  forallb is_log evs = true -> forallb is_neutral evs = true.
Proof.
  induction evs as [|e evs IH]; simpl; [done|].
  intros H. apply andb_prop in H as [He Hevs].
  by rewrite (is_log_neutral e He), IH.
Qed.

Lemma calm_refl w : calm w w.
Proof.
  split; [done|]. split; [done|]. exists []. by rewrite app_nil_r.
Qed.

Lemma calm_trans w1 w2 w3 : calm w1 w2 -> calm w2 w3 -> calm w1 w3.
Proof.
  intros (Hd1 & Hb1 & evs1 & Ht1 & Hl1) (Hd2 & Hb2 & evs2 & Ht2 & Hl2).
  split; [congruence|]. split; [congruence|].
  exists (evs1 ++ evs2). split.
  - by rewrite Ht2, Ht1, app_assoc.
  - by rewrite forallb_app, Hl1, Hl2.
Qed.

Lemma quiet_calm w w' : quiet w w' -> calm w w'.
Proof.
  intros (Hd & Hb & evs & Ht & Hl).
  split; [done|]. split; [done|]. exists evs. split; [done|].
  by apply forallb_log_neutral.
Qed.

Lemma calm_emit e w : is_neutral e = true -> calm w (emit e w).
Proof.
  intros He. split; [done|]. split; [done|].
  exists [e]. split; [done|]. simpl. by rewrite He.
Qed.

Lemma scan_neutral evs : forall b rest,
  forallb is_neutral evs = true -> scan b (evs ++ rest) = scan b rest.
Proof.
  induction evs as [|e evs IH]; intros b rest H; simpl in *; [done|].
  apply andb_prop in H as [He Hevs].
  destruct e; try discriminate; by apply IH.
Qed.

Lemma count_neutral tf evs : forall rest,
  forallb is_neutral evs = true ->
  count_restores tf (evs ++ rest) = count_restores tf rest.
Proof.
  induction evs as [|e evs IH]; intros rest H; simpl in *; [done|].
  apply andb_prop in H as [He Hevs].
  rewrite IH by done. by destruct e.
Qed.

(** In a trace made of rounds every recorded failure has a restore of its
    own before it, and there are as many restores as rounds. *)
Lemma rounds_scan tf k evs tail :
  rounds tf k evs -> forallb is_neutral tail = true ->
  scan false (evs ++ tail) = Some false /\
  count_restores tf (evs ++ tail) = k.
Proof.
  intros Hr Htail. induction Hr as [|k evs bp rest Hn Hr IH].
  - simpl. rewrite <- (app_nil_r tail).
    rewrite scan_neutral, count_neutral by done. done.
  - destruct IH as [IHs IHc].
    rewrite <- app_assoc. rewrite scan_neutral, count_neutral by done.
    simpl. rewrite String.eqb_refl. simpl. by rewrite IHs, IHc.
Qed.

Section AlwaysRetry.
Context (E : env) (C : config) (D : CriticAgent.deps) (K : collaborators).
Context (tf : string) (f0 : file).

(** The planner always names [tf] and a strategy, the fixer always returns
    a patch that applies to the file and parses, the tester leaves the disk
    as it finds it, the critic says RETRY to every test report the tester
    makes, and the learning system takes every failure. *)
Hypothesis tf_named : tf <> "".
Hypothesis plans : forall t br rc prev, exists pl s,
  make_plan K t br rc prev = Ret pl /\
  target_file pl = Some tf /\ strategy pl = Some s /\ s <> "none".
Hypothesis patches : forall t pl br, exists p new,
  generate_patch K t tf (PatchApplier.file_text E f0) pl br = Ret p /\
  Diff._apply_patch_to_string (PatchApplier.file_text E f0) (patch p) = Ret new /\
  ast_parse E new = AstOk.
Hypothesis tests_keep_disk : forall t p rp pl d, (run_tests K t p rp pl d).2 = d.
Hypothesis always_retry : forall t p rp pl d tr br w ev w',
  (run_tests K t p rp pl d).1 = Ret tr ->
  CriticAgent.evaluate_patch D p tr br pl C w = (Ret ev, w') ->
  verdict ev = JStr "RETRY".
Hypothesis failures_recorded : forall t br r, record_failure K t br r = Ret tt.

Lemma live_backup_calm w v :
  calm w v -> PatchApplier.live_backup v = PatchApplier.live_backup w.
Proof. intros (_ & Hb & _). unfold PatchApplier.live_backup. by rewrite Hb. Qed.

(** Rolling back in a world that is calm since the backup was live. *)
Lemma rollback_after_calm bp w v :
  backed tf f0 bp w -> calm w v ->
  exists o v' evs,
    PatchApplier.rollback E v = (Ret o, v') /\
    disk v' = <[tf := f0]> (disk w) /\
    trace v' = trace w ++ evs ++ [EvRestore bp tf] /\
    forallb is_neutral evs = true.
Proof.
  intros (Hl & (ts & Hm) & Hf & Hne) Hcalm.
  pose proof (live_backup_calm w v Hcalm) as Hl'.
  destruct Hcalm as (Hd & Hb & evs & Ht & Hn).
  eexists _, _, evs. split.
  - apply (ApplierFacts.rollback_restores E v bp (BackupMeta tf ts bp) f0).
    + congruence.
    + by rewrite Hd.
    + by rewrite Hd.
    + done.
  - simpl. rewrite Hd, Ht, <- app_assoc. done.
Qed.

Lemma on_iteration_error_restores bp n e w v :
  backed tf f0 bp w -> calm w v ->
  exists r v' evs,
    on_iteration_error E n e v = (Ret r, v') /\
    result_status r = RETRY /\
    disk v' = <[tf := f0]> (disk w) /\
    trace v' = trace w ++ evs ++ [EvRestore bp tf] /\
    forallb is_neutral evs = true.
Proof.
  intros Hb Hcalm.
  assert (calm w (emit (EvLogError ("Error during repair iteration: " +:+ exn_msg e)) v))
    as Hcalm' by (eapply calm_trans; [exact Hcalm|by apply calm_emit]).
  destruct (rollback_after_calm bp w _ Hb Hcalm') as (o & v' & evs & Hr & Hd & Ht & Hn).
  eexists _, v', evs. split.
  - unfold on_iteration_error.
    erewrite bind_ret by reflexivity.
    erewrite bind_ret by (apply try_ret; exact Hr). reflexivity.
  - by repeat split.
Qed.

Lemma evaluate_and_decide_restores bp br rid n pl p tr w v :
  (forall u ev u',
      CriticAgent.evaluate_patch D p tr br pl C u = (Ret ev, u') ->
      verdict ev = JStr "RETRY") ->
  backed tf f0 bp w -> calm w v ->
  exists v1,
    calm w v1 /\
    ((exists e, evaluate_and_decide E C D br rid n pl p tr v = (Raise e, v1)) \/
     (exists r v' evs,
        evaluate_and_decide E C D br rid n pl p tr v = (Ret r, v') /\
        result_status r = RETRY /\
        disk v' = <[tf := f0]> (disk w) /\
        trace v' = trace w ++ evs ++ [EvRestore bp tf] /\
        forallb is_neutral evs = true)).
Proof.
  intros Hretry Hb Hcalm. unfold evaluate_and_decide.
  set (v0 := emit (EvLogStep "test" n) v).
  assert (calm w v0) as Hc0 by (eapply calm_trans; [exact Hcalm|by apply calm_emit]).
  pose proof (log_only_evaluate_patch C D p tr br pl v0) as Hq.
  destruct (CriticAgent.evaluate_patch D p tr br pl C v0) as [[ev|e] v1] eqn:Hev;
    simpl in Hq.
  - assert (calm w v1) as Hc1 by (eapply calm_trans; [exact Hc0|by apply quiet_calm]).
    exists v1. split; [done|]. right.
    set (v2 := emit (EvLogStep "evaluation" n) v1).
    assert (calm w v2) as Hc2 by (eapply calm_trans; [exact Hc1|by apply calm_emit]).
    destruct (rollback_after_calm bp w v2 Hb Hc2) as (o & v' & evs & Hr & Hd & Ht & Hn).
    eexists _, v', evs. split.
    + erewrite bind_ret by reflexivity.
      erewrite bind_ret by exact Hev.
      erewrite bind_ret by reflexivity.
      rewrite (Hretry _ _ _ Hev).
      cbn [Py.eq_str String.eqb Ascii.eqb Bool.eqb].
      erewrite bind_ret by exact Hr. reflexivity.
    + by repeat split.
  - assert (calm w v1) as Hc1 by (eapply calm_trans; [exact Hc0|by apply quiet_calm]).
    exists v1. split; [done|]. left. exists e.
    erewrite bind_ret by reflexivity.
    erewrite bind_raise by exact Hev. reflexivity.
Qed.

(** After [apply], whatever the tester and the critic do, the attempt ends
    as a RETRY with the file restored. *)
Lemma test_phase_restores bp br rp rid n pl p w :
  backed tf f0 bp w ->
  exists r w' evs,
    test_phase E C D K br rp rid n pl p w = (Ret r, w') /\
    result_status r = RETRY /\
    disk w' = <[tf := f0]> (disk w) /\
    trace w' = trace w ++ evs ++ [EvRestore bp tf] /\
    forallb is_neutral evs = true.
Proof.
  intros Hb. unfold test_phase, test_and_decide.
  destruct (run_tests K (tick w) p rp pl (disk w)) as [res d] eqn:Hrun.
  pose proof (tests_keep_disk (tick w) p rp pl (disk w)) as Hd.
  rewrite Hrun in Hd. simpl in Hd. subst d.
  set (v := emit EvTests (set_disk (disk w) (next_tick w))).
  assert (calm w v) as Hv.
  { split; [done|]. split; [done|]. by exists [EvTests]. }
  assert (tester_run K p rp pl w = (res, v)) as Htest
    by (unfold tester_run; by rewrite Hrun).
  destruct res as [tr|e].
  - assert (forall u ev u',
              CriticAgent.evaluate_patch D p tr br pl C u = (Ret ev, u') ->
              verdict ev = JStr "RETRY") as Hretry.
    { intros u ev u'. apply (always_retry (tick w) p rp pl (disk w)).
      by rewrite Hrun. }
    destruct (evaluate_and_decide_restores bp br rid n pl p tr w v Hretry Hb Hv)
      as (v1 & Hc1 & [[e He]|(r & v' & evs & He & Hrest)]).
    + destruct (on_iteration_error_restores bp n e w v1 Hb Hc1)
        as (r & v' & evs & Hh & Hrest).
      exists r, v', evs. split; [|done].
      erewrite try_raise; [exact Hh|].
      erewrite bind_ret by exact Htest. exact He.
    + exists r, v', evs. split; [|done].
      apply try_ret. erewrite bind_ret by exact Htest. exact He.
  - destruct (on_iteration_error_restores bp n e w v Hb Hv)
      as (r & v' & evs & Hh & Hrest).
    exists r, v', evs. split; [|done].
    erewrite try_raise; [exact Hh|].
    by apply bind_raise.
Qed.

Lemma plan_and_generate_ok br rc prev n w :
  disk w !! tf = Some f0 ->
  exists pl p new w1,
    plan_and_generate E K br rc prev n w = (Ret (inl (pl, tf, p)), w1) /\
    quiet w w1 /\
    Diff._apply_patch_to_string (PatchApplier.file_text E f0) (patch p) = Ret new /\
    ast_parse E new = AstOk.
Proof.
  intros Hf.
  destruct (plans (tick w) br rc prev) as (pl & s & Hpl & Htf & Hs & Hne).
  destruct (patches (S (tick w)) pl br) as (p & new & Hgen & Hp & Ha).
  pose proof (log_only_plan_and_generate E K br rc prev n w) as Hq.
  assert (plan_and_generate E K br rc prev n w =
          (Ret (inl (pl, tf, p)),
           emit (EvLogStep "patch" n)
             (next_tick (emit (EvLogStep "plan" n) (next_tick w))))) as Heq.
  { unfold plan_and_generate.
    erewrite bind_ret by (unfold ask; rewrite Hpl; reflexivity).
    rewrite Htf. unfold nonempty.
    destruct (String.eqb_spec tf "") as [|_]; [done|].
    rewrite Hs. rewrite bool_decide_eq_false_2 by congruence.
    erewrite bind_ret by reflexivity.
    erewrite bind_ret by reflexivity.
    erewrite bind_ret by reflexivity.
    cbn [disk emit next_tick]. rewrite Hf.
    rewrite bool_decide_eq_true_2 by eauto. cbn [negb].
    erewrite bind_ret;
      [|apply try_ret; erewrite bind_ret;
        [reflexivity|unfold PatchApplier.read_text; cbn [disk emit next_tick];
                     rewrite Hf; reflexivity]].
    cbn beta iota.
    erewrite bind_ret;
      [|apply try_ret; erewrite bind_ret;
        [reflexivity|unfold ask; cbn [tick emit next_tick];
                     rewrite Hgen; reflexivity]].
    cbn beta iota.
    erewrite bind_ret by reflexivity. reflexivity. }
  rewrite Heq in Hq. simpl in Hq.
  by eexists pl, p, new, _.
Qed.

(** One attempt: a RETRY, and the file is back as it was. *)
Lemma iteration_retries br rc rp prev sf rid n w :
  disk w !! tf = Some f0 ->
  exists r w' bp evs,
    _repair_iteration E C D K br rc rp prev sf rid n w = (Ret r, w') /\
    result_status r = RETRY /\
    disk w' !! tf = Some f0 /\
    trace w' = trace w ++ evs ++ [EvRestore bp tf] /\
    forallb is_neutral evs = true.
Proof.
  intros Hf.
  destruct (plan_and_generate_ok br rc prev n w Hf)
    as (pl & p & new & w1 & Hprep & Hq & Hp & Ha).
  destruct Hq as (Hd1 & Hb1 & evs1 & Ht1 & Hl1).
  assert (disk w1 !! tf = Some f0) as Hf1 by (by rewrite Hd1).
  set (bp := (backed_up E C tf f0 w1).1).
  set (w2 := applied E C tf f0 new w1).
  destruct (ApplierFacts.backup_path_fresh C tf (now E (tick w1)))
    as (Hne & Hme & Hnil & Hmb).
  assert (backed tf f0 bp w2) as Hbacked.
  { subst bp w2. unfold backed, applied, backed_up, PatchApplier.live_backup.
    cbn [fst disk current_backup].
    split.
    - destruct (String.eqb_spec
        (PatchApplier.backup_path_of C tf (Clock.strftime (now E (tick w1)))) "");
        [done|done].
    - split; [|split; [|done]].
      + eexists. rewrite lookup_insert_ne by done. by rewrite lookup_insert_eq.
      + rewrite lookup_insert_ne by done.
        rewrite lookup_insert_ne by done. by rewrite lookup_insert_eq. }
  destruct (test_phase_restores bp br rp rid n pl p w2 Hbacked)
    as (r & w' & evs & Htest & Hst & Hd & Ht & Hn).
  exists r, w', bp, (evs1 ++ [EvBackup tf bp; EvWrite tf] ++ evs).
  split.
  - unfold _repair_iteration. erewrite bind_ret by exact Hprep.
    unfold validate_and_apply.
    rewrite (bind_ret _ _ _ _ _
               (ApplierFacts.dry_apply_ok E (patch p) tf f0 new w1 Hf1 Hp Ha)).
    cbn [PatchApplier.success negb].
    rewrite (bind_ret _ _ _ _ _
               (ApplierFacts.apply_spec E C (patch p) tf f0 new w1 Hf1 Hp)).
    exact Htest.
  - split; [done|]. split; [by rewrite Hd, lookup_insert_eq|]. split.
    + rewrite Ht. subst w2. unfold applied, backed_up. cbn [trace].
      rewrite Ht1. rewrite <- !app_assoc. reflexivity.
    + rewrite !forallb_app, Hn, (forallb_log_neutral _ Hl1). reflexivity.
Qed.

(** One pass through the loop: the RETRY is stored and the learning
    system is told. *)
Lemma loop_body_retries br rc rp sf rid n prev w :
  disk w !! tf = Some f0 ->
  exists r w' bp evs,
    loop_body E C D K br rc rp sf rid n prev w
      = (Ret (Continue (prev ++ [r])), w') /\
    result_status r = RETRY /\
    disk w' !! tf = Some f0 /\
    trace w' = trace w ++ evs ++ EvRestore bp tf :: EvLearn "failure" :: [] /\
    forallb is_neutral evs = true.
Proof.
  intros Hf.
  destruct (iteration_retries br rc rp prev sf rid n w Hf)
    as (r & w1 & bp & evs & Hit & Hst & Hf1 & Ht & Hn).
  exists (annotate r), (emit (EvLearn "failure") (next_tick w1)), bp, evs.
  split.
  - unfold loop_body.
    erewrite bind_ret;
      [|apply try_ret; erewrite bind_ret by exact Hit; rewrite Hst; reflexivity].
    cbn beta iota. apply try_ret.
    erewrite bind_ret by (unfold ask; rewrite failures_recorded; reflexivity).
    erewrite bind_ret by reflexivity. reflexivity.
  - split; [done|]. split; [done|]. split; [|done].
    cbn [trace emit next_tick]. rewrite Ht, <- !app_assoc. reflexivity.
Qed.

(** The loop runs as long as attempts are left and hands back one RETRY
    per attempt. *)
Lemma attempts_loop_exhausts br rc rp sf rid fuel : forall n prev w,
  the_max_attempts C - n = Z.of_nat fuel ->
  disk w !! tf = Some f0 ->
  exists rs w' evs,
    attempts_loop E C D K fuel br rc rp sf rid n prev w
      = (Ret (Some (Continue (prev ++ rs))), w') /\
    length rs = fuel /\
    Forall (fun r => result_status r = RETRY) rs /\
    disk w' !! tf = Some f0 /\
    trace w' = trace w ++ evs /\
    rounds tf fuel evs.
Proof.
  induction fuel as [|fuel IH]; intros n prev w Hleft Hf.
  - exists [], w, []. simpl.
    destruct (n <? the_max_attempts C) eqn:Hlt; [apply Z.ltb_lt in Hlt; lia|].
    rewrite !app_nil_r.
    split; [reflexivity|]. split; [reflexivity|]. split; [constructor|].
    split; [exact Hf|]. split; [reflexivity|constructor].
  - destruct (loop_body_retries br rc rp sf rid (n + 1) prev w Hf)
      as (r & w1 & bp & evs1 & Hbody & Hst & Hf1 & Ht1 & Hn1).
    destruct (IH (n + 1) (prev ++ [r]) w1 ltac:(lia) Hf1)
      as (rs & w' & evs & Hloop & Hlen & Hall & Hf' & Ht' & Hrounds).
    exists (r :: rs), w', (evs1 ++ EvRestore bp tf :: EvLearn "failure" :: evs).
    split.
    + cbn [attempts_loop].
      destruct (n <? the_max_attempts C) eqn:Hlt; [|apply Z.ltb_ge in Hlt; lia].
      erewrite bind_ret by exact Hbody. cbn beta iota.
      rewrite Hloop. by rewrite <- app_assoc.
    + split; [simpl; by rewrite Hlen|].
      split; [by constructor|]. split; [done|]. split.
      * rewrite Ht', Ht1, <- !app_assoc. reflexivity.
      * by apply rounds_more.
Qed.

Lemma log_only_analyze_phase target st rp :
  log_only (_analyze_phase K target st rp).
Proof.
  unfold _analyze_phase.
  destruct (nonempty st); [|destruct (nonempty target)].
  - apply log_only_bind; [apply log_only_ask|intros ?; apply log_only_ask].
  - apply log_only_ask.
  - apply log_only_ret.
Qed.

Lemma complete_run_exhausted rid d w :
  _complete_run rid "MAX_ATTEMPTS_REACHED" d w =
    (Ret (RunResult rid "MAX_ATTEMPTS_REACHED" d),
     emit (EvNotify "failure") (emit (EvCompleteRun "MAX_ATTEMPTS_REACHED") w)).
Proof. reflexivity. Qed.

(** C5: with [max_attempts = 3] and collaborators that make every attempt
    a RETRY, the run ends with the status [MAX_ATTEMPTS_REACHED] and
    carries exactly three attempt records, all RETRY; the trace of the run
    has three restores of the target file, one before each recorded
    failure; and the target file is at the end what it was at the start. *)
Theorem always_retry_exhausts target st rp w :
  max_attempts C = Some 3 ->
  (forall w0, exists m bugs,
      (_analyze_phase K target st rp w0).1 = Ret (JObj m) /\
      Py.assoc "bugs" m = Some bugs /\ Py.truthy bugs = true) ->
  (forall t br, exists rc, build_repo_context K t rp br = Ret rc) ->
  (forall t br, exists sf, find_similar_bugs K t br = Ret sf) ->
  disk w !! tf = Some f0 ->
  exists r w' attempts,
    heal E C D K target st rp w = (Ret (Some r), w') /\
    run_status r = "MAX_ATTEMPTS_REACHED" /\
    details r = DetailsExhausted "Failed after 3 attempts" attempts /\
    length attempts = 3%nat /\
    Forall (fun a => result_status a = RETRY) attempts /\
    disk w' !! tf = disk w !! tf /\
    scan false (added w w') = Some false /\
    count_restores tf (added w w') = 3%nat.
Proof.
  intros Hmax Hanalyze Hctx Hsim Hf.
  set (w0 := next_tick w).
  destruct (Hanalyze w0) as (m & bugs & Han & Hbugs & Htruthy).
  pose proof (log_only_analyze_phase target st rp w0) as Hq.
  destruct (_analyze_phase K target st rp w0) as [res w1] eqn:Hphase.
  simpl in Han, Hq. subst res.
  destruct Hq as (Hd1 & _ & evs0 & Ht1 & Hl0).
  destruct (Hctx (tick w1) (JObj m)) as (rc & Hrc).
  destruct (Hsim (S (tick w1)) (JObj m)) as (sf & Hsf).
  set (w3 := next_tick (next_tick w1)).
  assert (the_max_attempts C = 3) as Hthe by (unfold the_max_attempts; by rewrite Hmax).
  destruct (attempts_loop_exhausts (JObj m) rc rp sf (start_run K (tick w)) 3 0 [] w3)
    as (rs & w4 & evs & Hloop & Hlen & Hall & Hf4 & Ht4 & Hrounds).
  { rewrite Hthe. reflexivity. }
  { cbn [w3 disk next_tick]. by rewrite Hd1. }
  simpl app in Hloop.
  eexists _, _, rs. split.
  - unfold heal. erewrite bind_ret by reflexivity. apply try_ret.
    erewrite bind_ret by (fold w0; exact Hphase).
    erewrite bind_ret by (unfold lift; rewrite Hbugs; reflexivity).
    cbn [default from_option id]. rewrite Htruthy. cbn [negb].
    erewrite bind_ret by (unfold ask; rewrite Hrc; reflexivity).
    erewrite bind_ret by (unfold ask; cbn [tick next_tick]; rewrite Hsf; reflexivity).
    rewrite Hthe. change (Z.to_nat 3) with 3%nat.
    erewrite bind_ret by exact Hloop. cbn beta iota.
    erewrite bind_ret by apply complete_run_exhausted. reflexivity.
  - split; [reflexivity|]. split; [reflexivity|].
    split; [exact Hlen|]. split; [exact Hall|].
    split; [cbn [disk emit]; by rewrite Hf4, Hf|].
    unfold added. cbn [trace emit]. rewrite Ht4.
    change (trace w3) with (trace w1). rewrite Ht1.
    change (trace w0) with (trace w).
    rewrite <- !app_assoc, drop_app_length.
    pose proof (forallb_log_neutral _ Hl0) as Hn0.
    destruct (rounds_scan tf 3 evs
                [EvCompleteRun "MAX_ATTEMPTS_REACHED"; EvNotify "failure"]
                Hrounds eq_refl) as [Hscan Hcount].
    rewrite scan_neutral, count_neutral by done.
    by split.
Qed.

End AlwaysRetry.

(** The run on the sample installation: the tests always fail, so the
    critic's quick checks always say RETRY. *)
Lemma always_retry_exhausts_witness :
  exists r w' attempts,
    heal Sample.env0 Sample.config0 Sample.deps0
      (Sample.collaborators_with (Sample.patch_of_size 3) Sample.one_failed id)
      (Some "app.py") None "." Sample.world0 = (Ret (Some r), w') /\
    run_status r = "MAX_ATTEMPTS_REACHED" /\
    details r = DetailsExhausted "Failed after 3 attempts" attempts /\
    length attempts = 3%nat /\
    Forall (fun a => result_status a = RETRY) attempts /\
    disk w' !! "app.py" = disk Sample.world0 !! "app.py" /\
    scan false (added Sample.world0 w') = Some false /\
    count_restores "app.py" (added Sample.world0 w') = 3%nat.
Proof.
  apply (always_retry_exhausts Sample.env0 Sample.config0 Sample.deps0
           (Sample.collaborators_with (Sample.patch_of_size 3) Sample.one_failed id)
           "app.py" (Text DiffData.scenario_content)).
  - discriminate.
  - intros t br rc prev. exists Sample.plan0, "minimal_fix".
    repeat split; [reflexivity..|discriminate].
  - intros t pl br. exists (Sample.patch_of_size 3), DiffData.scenario_patched.
    repeat split; vm_compute; reflexivity.
  - reflexivity.
  - intros t p rp pl d tr br w ev w' [= <-] H.
    vm_compute in H. by injection H as <- _.
  - reflexivity.
  - reflexivity.
  - intros w0. eexists _, _. repeat split; reflexivity.
  - intros t br. eexists. reflexivity.
  - intros t br. eexists. reflexivity.
  - reflexivity.
Defined.

End HealFacts.

(** ** The approval gate *)

Module ApprovalFacts.
Import GitAutoHealer.

Section Facts.
Context (E : env) (R : remote).

(** A finished call stays finished. *)
Lemma step_finished c r h : step E R c (Finished r) h = (Finished r, h).
Proof. reflexivity. Qed.

(** With no ticket pending, [approve_and_push] only reports it. *)
Lemma approve_not_found c h :
  pending_approvals h !! call_run_id c = None ->
  approve_and_push E R c h =
    (Finished (Ret RunNotFound),
     on_applier (emit (EvLogError ("Run " +:+ call_run_id c +:+ " not found"))) h).
Proof.
  intros Hp. unfold approve_and_push, run_from.
  cbn [step]. by rewrite Hp.
Qed.

(** With no ticket pending, the timer's callback returns at once. *)
Lemma timer_not_found rid h :
  pending_approvals h !! rid = None ->
  _auto_push_after_timeout E R rid h = (Finished (Ret ReturnsNone), h).
Proof.
  intros Hp. unfold _auto_push_after_timeout, run_from.
  cbn [step call_run_id]. by rewrite Hp.
Qed.

(** The two results that resolve a ticket come with its removal. *)
Lemma act_resolved c a h r h1 :
  act E R c a h = (Ret r, h1) -> resolved r ->
  pending_approvals h1 !! call_run_id c = None.
Proof.
  unfold act, reject, commit_and_push, resolved.
  destruct (approved c); cbn [negb].
  - destruct (PatchApplier.commit E _ _ (applier h)) as [[cr|e] w1].
    + destruct (commit_success cr).
      * destruct (has_repo R).
        -- destruct (_push_to_remote R w1) as [[err|] w2].
           ++ intros [= <- <-] [|(? & ? & ?)]; discriminate.
           ++ cbn [on_applier pending_approvals].
              destruct (pending_approvals h !! call_run_id c).
              ** intros [= <- <-] _. cbn [drop_pending pending_approvals].
                 apply lookup_delete_eq.
              ** intros [= <- <-] [|(? & ? & ?)]; discriminate.
        -- intros [= <- <-] [|(? & ? & ?)]; discriminate.
      * intros [= <- <-] [|(? & ? & ?)]; discriminate.
    + intros [= <- <-] [|(? & ? & ?)]; discriminate.
  - destruct (PatchApplier.rollback E (applier h)) as [o w1].
    cbn [on_applier pending_approvals].
    destruct (pending_approvals h !! call_run_id c).
    + intros [= <- <-] _. cbn [drop_pending pending_approvals].
      apply lookup_delete_eq.
    + discriminate.
Qed.

Lemma approve_resolved c h r h1 :
  approve_and_push E R c h = (Finished (Ret r), h1) -> resolved r ->
  pending_approvals h1 !! call_run_id c = None.
Proof.
  unfold approve_and_push, run_from. cbn [step].
  destruct (pending_approvals h !! call_run_id c) as [a|] eqn:Hp.
  - cbn [step].
    destruct (act E R c a _) as [r' h'] eqn:Hact. cbn [step].
    intros [= -> <-] Hres. by eapply act_resolved.
  - cbn [step]. intros [= <- <-] [|(? & ? & ?)]; discriminate.
Qed.

(** C1, amended: for calls that run one after the other.  Once a call has
    rejected a ticket, or committed and pushed it, the ticket is gone from
    [pending_approvals]: a later [approve_and_push] for it, approving or
    rejecting, returns 'Run not found' and does nothing but log that, and a
    later callback of the timer returns without doing anything. *)
Theorem settled_ticket_is_not_reopened c1 c2 h r1 h1 :
  approve_and_push E R c1 h = (Finished (Ret r1), h1) ->
  resolved r1 ->
  call_run_id c2 = call_run_id c1 ->
  approve_and_push E R c2 h1 =
    (Finished (Ret RunNotFound),
     on_applier (emit (EvLogError ("Run " +:+ call_run_id c1 +:+ " not found"))) h1) /\
  _auto_push_after_timeout E R (call_run_id c1) h1 = (Finished (Ret ReturnsNone), h1).
Proof.
  intros Hcall Hres Hid.
  pose proof (approve_resolved c1 h r1 h1 Hcall Hres) as Hgone.
  split.
  - rewrite <- Hid in *. by apply approve_not_found.
  - by apply timer_not_found.
Qed.

End Facts.

(** C1, as stated, fails.  The timer's callback and a manual rejection
    both find the ticket pending; nothing keeps the test and the removal
    together.  The rejection rolls the patch back and removes the ticket;
    the callback, past its test, commits and pushes all the same, and only
    fails when it comes to remove the ticket.  Neither reports
    'Run not found'. *)
Lemma both_sides_act :
  exists msg,
    calls (run_schedule Sample.env0 Sample.remote0 Sample.race_schedule Sample.race0) =
      [(Sample.timer_call, Finished (Ret (Failed "'run-1'")));
       (Sample.reject_call, Finished (Ret ActionRejected))] /\
    Trace.added Sample.patched_world
      (applier (state (run_schedule Sample.env0 Sample.remote0
                         Sample.race_schedule Sample.race0))) =
      [EvRestore Sample.backup0 "app.py"; EvGitCommit msg; EvGitPush;
       EvNotify "success"; EvLogError "Failed to commit/push: 'run-1'"].
Proof.
  eexists. split; vm_compute; reflexivity.
Qed.

(** On the sample healer: after the manual rejection, the timer's call
    finds nothing to do. *)
Lemma settled_ticket_is_not_reopened_witness :
  exists h1,
    approve_and_push Sample.env0 Sample.remote0 Sample.reject_call Sample.healer0
      = (Finished (Ret ActionRejected), h1) /\
    approve_and_push Sample.env0 Sample.remote0 Sample.timer_call h1 =
      (Finished (Ret RunNotFound),
       on_applier (emit (EvLogError ("Run " +:+ "run-1" +:+ " not found"))) h1) /\
    _auto_push_after_timeout Sample.env0 Sample.remote0 "run-1" h1
      = (Finished (Ret ReturnsNone), h1).
Proof.
  eexists. split; [vm_compute; reflexivity|].
  eapply (settled_ticket_is_not_reopened Sample.env0 Sample.remote0
            Sample.reject_call Sample.timer_call Sample.healer0 ActionRejected).
  - vm_compute. reflexivity.
  - by left.
  - reflexivity.
Defined.

End ApprovalFacts.

(** ** More on the diff engine *)

Module DiffMore.
Import PyStr Diff DiffData DiffFacts.

(** ['\n'.join(s.split('\n')) == s]. *)
Lemma join_split s : join_nl (split_nl s) = s.
Proof.
  induction s as [|c s IH]; [done|].
  simpl split_nl. pose proof (split_nl_nonempty s) as Hne.
  destruct (Ascii.eqb_spec c nl) as [->|Hc].
  - destruct (split_nl s) as [|h t]; [done|].
    change (join_nl ("" :: h :: t)) with ("" +:+ String nl (join_nl (h :: t))).
    by rewrite IH.
  - destruct (split_nl s) as [|h t]; [done|].
    destruct t as [|h' t].
    + simpl in *. by rewrite IH.
    + change (join_nl (String c h :: h' :: t))
        with (String c h +:+ String nl (join_nl (h' :: t))).
      change (join_nl (h :: h' :: t)) with (h +:+ String nl (join_nl (h' :: t))) in IH.
      rewrite PathFacts.append_cons. by rewrite IH.
Qed.

Lemma parse_skips_preamble pre : forall rest hunks,
  Forall (fun l => hunk_match l = None) pre ->
  parse_lines (pre ++ rest) hunks None = parse_lines rest hunks None.
Proof.
  induction pre as [|l pre IH]; intros rest hunks H; [done|].
  inversion H as [|? ? Hl Hpre]; subst. simpl. rewrite Hl. by apply IH.
Qed.

Lemma count_type_nonneg t cs : 0 <= count_type t cs.
Proof. unfold count_type. lia. Qed.

Lemma count_in_hunks_nonneg t hs : 0 <= count_in_hunks t hs.
Proof.
  induction hs as [|h hs IH]; simpl; [lia|].
  pose proof (count_type_nonneg t (changes h)). lia.
Qed.



(** Context lines only move the cursor. *)
Lemma apply_contexts ctx : forall cs ls start off,
  apply_changes (map (Change context) ctx ++ cs) ls start off =
  apply_changes cs ls (start + Z.of_nat (length ctx)) off.
Proof.
  induction ctx as [|x ctx IH]; intros cs ls start off; simpl.
  - by rewrite Z.add_0_r.
  - rewrite IH. f_equal. lia.
Qed.

Lemma del_at {A : Type} (l : list A) (n : nat) :
  (n < length l)%nat ->
  PyList.del l (Z.of_nat n) = Ret (take n l ++ drop (S n) l).
Proof.
  intros Hn. unfold PyList.del, PyList.del_index.
  destruct (Z.ltb_spec (Z.of_nat n) 0); [lia|].
  destruct (Z.leb_spec 0 (Z.of_nat n)); [|lia].
  destruct (Z.ltb_spec (Z.of_nat n) (Z.of_nat (length l))); [|lia].
  simpl. rewrite Nat2Z.id. by rewrite delete_take_drop.
Qed.

(** A run of removes at a cursor inside the list deletes as many lines as
    it has entries, whatever text they carry. *)
Lemma apply_removes rem : forall cs ls (n : nat) off,
  (n + length rem <= length ls)%nat ->
  apply_changes (map (Change remove) rem ++ cs) ls (Z.of_nat n) off =
  apply_changes cs (take n ls ++ drop (n + length rem) ls) (Z.of_nat n)
    (off - Z.of_nat (length rem)).
Proof.
  induction rem as [|x rem IH]; intros cs ls n off Hn.
  - simpl. rewrite Nat.add_0_r, take_drop. f_equal. lia.
  - simpl length in *. simpl map. simpl app. cbn [apply_changes type].
    rewrite del_at by lia. simpl.
    rewrite IH.
    2:{ rewrite length_app, length_take, length_drop. lia. }
    f_equal; [|lia].
    rewrite take_app_le by (rewrite length_take; lia).
    rewrite take_take, Nat.min_id.
    rewrite drop_app_ge by (rewrite length_take; lia).
    rewrite length_take, drop_drop. do 2 f_equal. lia.
Qed.

Lemma insert_at {A : Type} (l : list A) (n : nat) x :
  (n <= length l)%nat ->
  PyList.insert l (Z.of_nat n) x = take n l ++ x :: drop n l.
Proof.
  intros Hn. unfold PyList.insert, PyList.insert_index.
  destruct (Z.ltb_spec (Z.of_nat n) 0); [lia|].
  rewrite Z.min_l by lia. by rewrite Nat2Z.id.
Qed.

(** A run of adds at a cursor inside the list inserts its lines there, in
    order. *)
Lemma apply_adds adds : forall ls (n : nat) off,
  (n <= length ls)%nat ->
  apply_changes (map (Change add) adds) ls (Z.of_nat n) off =
  Ret (take n ls ++ adds ++ drop n ls, off + Z.of_nat (length adds)).
Proof.
  induction adds as [|x adds IH]; intros ls n off Hn.
  - simpl. by rewrite take_drop, Z.add_0_r.
  - simpl map. cbn [apply_changes type line].
    rewrite insert_at by done.
    replace (Z.of_nat n + 1) with (Z.of_nat (S n)) by lia.
    rewrite IH.
    2:{ rewrite length_app, length_take. simpl. rewrite length_drop. lia. }
    assert (take (S n) (take n ls ++ x :: drop n ls) = take n ls ++ [x]) as ->.
    { rewrite (cons_middle x (take n ls)), app_assoc.
      apply take_app_length'. rewrite length_app, length_take. simpl. lia. }
    assert (drop (S n) (take n ls ++ x :: drop n ls) = drop n ls) as ->.
    { rewrite (cons_middle x (take n ls)), app_assoc.
      apply drop_app_length'. rewrite length_app, length_take. simpl. lia. }
    rewrite <- app_assoc. simpl length. do 2 f_equal. lia.
Qed.

(** A remove at cursor [-1] deletes the last line. *)
Lemma del_last {A : Type} (l : list A) :
  l <> [] -> PyList.del l (-1) = Ret (take (length l - 1) l).
Proof.
  intros Hne. unfold PyList.del, PyList.del_index.
  assert (0 < length l)%nat by (destruct l; [done|simpl; lia]).
  change (-1 <? 0) with true. cbn iota.
  destruct (Z.leb_spec 0 (-1 + Z.of_nat (length l))); [|lia].
  destruct (Z.ltb_spec (-1 + Z.of_nat (length l)) (Z.of_nat (length l))); [|lia].
  simpl. replace (Z.to_nat (-1 + Z.of_nat (length l))) with (length l - 1)%nat by lia.
  rewrite delete_take_drop.
  replace (S (length l - 1)) with (length l) by lia.
  by rewrite drop_all, app_nil_r.
Qed.

Lemma apply_removes_from_end rem : forall ls off,
  (length rem <= length ls)%nat ->
  apply_changes (map (Change remove) rem) ls (-1) off =
  Ret (take (length ls - length rem) ls, off - Z.of_nat (length rem)).
Proof.
  induction rem as [|x rem IH]; intros ls off Hn.
  - simpl. rewrite Nat.sub_0_r, firstn_all. do 2 f_equal. lia.
  - simpl length in *. simpl map. cbn [apply_changes type].
    rewrite del_last by (intros ->; simpl in Hn; lia).
    unfold mbind, pyresult_bind. cbn beta iota.
    rewrite IH by (rewrite length_take; lia).
    rewrite length_take, take_take. f_equal. f_equal; [f_equal|]; lia.
Qed.

(** X1: a patch text none of whose lines is a hunk header has no hunk: applying
    it succeeds and gives the content back unchanged, whatever lines marked
    [+] or [-] it holds. *)
Theorem patch_without_header_changes_nothing (C P : string) :
  Forall (fun l => hunk_match l = None) (split_nl P) ->
  _apply_patch_to_string C P = Ret C.
Proof.
  intros H. unfold _apply_patch_to_string, _parse_patch_hunks.
  rewrite <- (app_nil_r (split_nl P)).
  rewrite parse_skips_preamble by done.
  simpl. by rewrite join_split.
Qed.

Lemma patch_without_header_changes_nothing_witness :
  _apply_patch_to_string (ln "a" "b")
    (ln "--- a/app.py" (ln "+++ b/app.py" (ln "-a" "+c"))) = Ret (ln "a" "b").
Proof.
  apply patch_without_header_changes_nothing.
  vm_compute. repeat constructor.
Defined.

(** X2: whatever comes before the first hunk header is not part of the patch.
    Lines in front of it, marked or not, do not change the hunks the parser
    returns. *)
Theorem lines_before_first_header_are_dropped (pre : list string) (rest : string) :
  Forall (fun l => has_nl l = false) pre ->
  Forall (fun l => hunk_match l = None) pre ->
  _parse_patch_hunks (unlines pre rest) = _parse_patch_hunks rest.
Proof.
  intros Hnl Hm. unfold _parse_patch_hunks.
  rewrite split_nl_unlines by done.
  by apply parse_skips_preamble.
Qed.

Lemma lines_before_first_header_are_dropped_witness :
  _parse_patch_hunks (unlines ["+import os"; "-import sys"] (ln "@@ -1 +1 @@" "+x")) =
  _parse_patch_hunks (ln "@@ -1 +1 @@" "+x").
Proof.
  apply (lines_before_first_header_are_dropped ["+import os"; "-import sys"]).
  - repeat constructor.
  - repeat constructor.
Defined.



(** One hunk made of context lines, removes and adds, in this order, on a
    list that reaches as far as the removes do. *)
Lemma apply_hunks_block (ls : list string) (s : Z) (ctx rem adds : list string) :
  1 <= s ->
  s - 1 + Z.of_nat (length ctx) + Z.of_nat (length rem) <= Z.of_nat (length ls) ->
  let p := (Z.to_nat (s - 1) + length ctx)%nat in
  apply_hunks
    [Hunk s (map (Change context) ctx ++ map (Change remove) rem ++
             map (Change add) adds)] ls 0 =
  Ret (take p ls ++ adds ++ drop (p + length rem) ls).
Proof.
  intros Hs Hlen p.
  cbn [apply_hunks changes start_line].
  rewrite apply_contexts.
  replace (s - 1 + 0 + Z.of_nat (length ctx)) with (Z.of_nat p) by lia.
  rewrite apply_removes by lia.
  rewrite apply_adds.
  2:{ rewrite length_app, length_take, length_drop. lia. }
  simpl. f_equal.
  rewrite take_app_le by (rewrite length_take; lia).
  rewrite take_take, Nat.min_id.
  rewrite drop_app_ge by (rewrite length_take; lia).
  rewrite length_take.
  replace (p - p `min` length ls)%nat with 0%nat by lia.
  by rewrite drop_0.
Qed.

(** X4: a hunk of context lines, removes and adds, in this order, whose header
    gives the line [s], replaces the lines at position [s - 1 + #context]:
    as many lines as there are removes go, and the added lines take their
    place.  The text of the context lines and of the removes is not
    compared with the content. *)
Theorem hunk_replaces_lines_by_position (C P : string) (s : Z)
    (ctx rem adds : list string) :
  _parse_patch_hunks P =
    [Hunk s (map (Change context) ctx ++ map (Change remove) rem ++
             map (Change add) adds)] ->
  1 <= s ->
  s - 1 + Z.of_nat (length ctx) + Z.of_nat (length rem)
    <= Z.of_nat (length (split_nl C)) ->
  let p := (Z.to_nat (s - 1) + length ctx)%nat in
  _apply_patch_to_string C P =
    Ret (join_nl (take p (split_nl C) ++ adds ++
                  drop (p + length rem) (split_nl C))).
Proof.
  intros HP Hs Hlen p. unfold _apply_patch_to_string. rewrite HP.
  by rewrite apply_hunks_block.
Qed.

Lemma hunk_replaces_lines_by_position_witness :
  _apply_patch_to_string (ln "a" (ln "b" (ln "c" "d")))
    (ln "@@ -2,2 +2,2 @@" (ln " not b" (ln "-not c" "+C"))) =
  Ret (join_nl (take 2 (split_nl (ln "a" (ln "b" (ln "c" "d")))) ++ ["C"] ++
                drop 3 (split_nl (ln "a" (ln "b" (ln "c" "d")))))).
Proof.
  apply (hunk_replaces_lines_by_position (ln "a" (ln "b" (ln "c" "d")))
           (ln "@@ -2,2 +2,2 @@" (ln " not b" (ln "-not c" "+C")))
           2 ["not b"] ["not c"] ["C"]).
  - vm_compute. reflexivity.
  - lia.
  - vm_compute. discriminate.
Defined.

(** X5: a hunk whose header gives the new start 0, as in [@@ -1,2 +0,0 @@],
    puts the cursor at index [-1], which Python counts from the end: its
    removes delete the last lines of the content, not the first. *)
Theorem removes_at_line_zero_delete_from_the_end (C P : string) (rem : list string) :
  _parse_patch_hunks P = [Hunk 0 (map (Change remove) rem)] ->
  (length rem <= length (split_nl C))%nat ->
  _apply_patch_to_string C P =
    Ret (join_nl (take (length (split_nl C) - length rem) (split_nl C))).
Proof.
  intros HP Hlen. unfold _apply_patch_to_string. rewrite HP.
  cbn [apply_hunks changes start_line].
  change (0 - 1 + 0) with (-1).
  by rewrite apply_removes_from_end.
Qed.

Lemma removes_at_line_zero_delete_from_the_end_witness :
  _apply_patch_to_string (ln "a" (ln "b" "c")) (ln "@@ -1,2 +0,0 @@" (ln "-a" "-b")) =
  Ret (join_nl (take (length (split_nl (ln "a" (ln "b" "c"))) - 2)
                  (split_nl (ln "a" (ln "b" "c"))))).
Proof.
  apply (removes_at_line_zero_delete_from_the_end (ln "a" (ln "b" "c"))
           (ln "@@ -1,2 +0,0 @@" (ln "-a" "-b")) ["a"; "b"]).
  - vm_compute. reflexivity.
  - vm_compute. lia.
Defined.

Lemma split_join ls :
  ls <> [] -> Forall (fun l => has_nl l = false) ls -> split_nl (join_nl ls) = ls.
Proof.
  intros Hne H. induction H as [|l ls Hl Hls IH]; [done|].
  destruct ls as [|l' ls].
  - simpl. clear IH Hls Hne. induction l as [|c l IHl]; [done|].
    simpl in *. apply orb_false_elim in Hl as [Hc Hl].
    rewrite Hc. by rewrite (IHl Hl).
  - change (join_nl (l :: l' :: ls)) with (ln l (join_nl (l' :: ls))).
    rewrite split_nl_ln by done. by rewrite IH.
Qed.

End DiffMore.

(** ** Applying a patch to its own result *)

Module ReapplyFacts.
Import PyStr Diff DiffData DiffFacts DiffMore.














End ReapplyFacts.

(** ** More on the patch applier *)

Module ApplierMore.
Import PatchApplier PathFacts ApplierFacts.

Section Facts.
Context (E : env) (C : config).

Lemma live_backup_applied tf f new w :
  live_backup (applied E C tf f new w) = Some (backed_up E C tf f w).1.
Proof.
  destruct (backup_path_fresh C tf (now E (tick w))) as (_ & _ & Hne & _).
  unfold live_backup, applied, backed_up in *. cbn [current_backup fst].
  destruct (String.eqb_spec (backup_path_of C tf (Clock.strftime (now E (tick w)))) "");
    [done|done].
Qed.

(** Rolling back right after [apply]: the disk is the one the backup
    left. *)
Lemma rollback_applied tf f new w :
  disk w !! tf = Some f ->
  rollback E (applied E C tf f new w) =
    (Ret (Outcome true (Some "Rollback successful") None None None),
     World (disk (backed_up E C tf f w).2) None (S (tick w))
       (trace w ++ [EvBackup tf (backed_up E C tf f w).1; EvWrite tf;
                    EvRestore (backed_up E C tf f w).1 tf])).
Proof.
  intros Hf.
  destruct (backup_path_fresh C tf (now E (tick w))) as (Hne & Hme & _ & Hmb).
  erewrite rollback_restores.
  2:{ apply live_backup_applied. }
  2:{ unfold applied, backed_up. cbn [disk fst].
      rewrite lookup_insert_ne by done. apply lookup_insert_eq. }
  2:{ unfold applied, backed_up. cbn [disk fst].
      rewrite lookup_insert_ne by done. rewrite lookup_insert_ne by done.
      apply lookup_insert_eq. }
  2:{ done. }
  cbn [original_file]. unfold applied, backed_up. cbn [disk fst snd tick trace].
  f_equal. f_equal.
  - rewrite insert_insert_eq. apply insert_id.
    rewrite lookup_insert_ne by done. by rewrite lookup_insert_ne.
  - by rewrite <- !app_assoc.
Qed.

Lemma rollback_without_backup w :
  live_backup w = None ->
  rollback E w = (Ret (Outcome false (Some "No backup available") None None None), w).
Proof. intros H. unfold rollback. by rewrite H. Qed.

(** X6: [apply] followed by [rollback].  The patched text is written, the
    rollback puts the file back as it was and forgets the backup; the backup
    and its metadata stay on disk, nothing else has changed, and a second
    rollback reports 'No backup available' and does nothing. *)
Theorem rollback_undoes_apply patch tf f new w :
  disk w !! tf = Some f ->
  Diff._apply_patch_to_string (file_text E f) patch = Ret new ->
  exists bp ts w1 w2,
    apply E C patch tf w =
      (Ret (Outcome true (Some "Patch applied") None None (Some bp)), w1) /\
    disk w1 !! tf = Some (Text new) /\
    rollback E w1 =
      (Ret (Outcome true (Some "Rollback successful") None None None), w2) /\
    disk w2 =
      <[meta_path bp := Meta (BackupMeta tf ts bp)]> (<[bp := f]> (disk w)) /\
    disk w2 !! tf = Some f /\
    current_backup w2 = None /\
    rollback E w2 =
      (Ret (Outcome false (Some "No backup available") None None None), w2).
Proof.
  intros Hf Hp.
  destruct (backup_path_fresh C tf (now E (tick w))) as (Hne & Hme & _).
  eexists _, _, _, _.
  split; [by apply apply_spec|].
  split; [unfold applied, backed_up; cbn [disk]; apply lookup_insert_eq|].
  split; [by apply rollback_applied|].
  unfold backed_up. cbn [disk snd fst current_backup].
  split; [reflexivity|].
  split; [by rewrite !lookup_insert_ne|].
  split; [reflexivity|].
  by apply rollback_without_backup.
Qed.

(** X7: when the patch does not apply to the file, [apply] raises a
    [RuntimeError] that carries the message of the failure.  By then a
    backup was taken and the file was restored from it: the file is as
    before, the backup stays on disk, and the applier's current backup is
    the one it had before. *)
Theorem failed_apply_restores_the_file patch tf f e w :
  disk w !! tf = Some f ->
  Diff._apply_patch_to_string (file_text E f) patch = Raise e ->
  exists bp w',
    apply E C patch tf w =
      (Raise (Exn "RuntimeError" ("Failed to apply patch: " +:+ exn_msg e)), w') /\
    disk w' !! tf = Some f /\
    disk w' !! bp = Some f /\
    current_backup w' = current_backup w /\
    trace w' = trace w ++
      [EvBackup tf bp; EvLogError ("Failed to apply patch: " +:+ exn_msg e);
       EvRestore bp tf].
Proof.
  intros Hf Hp.
  destruct (backup_path_fresh C tf (now E (tick w))) as (Hne & Hme & _ & Hmb).
  unfold apply. unfold mbind at 1. unfold M_bind at 1.
  rewrite (create_backup_spec E C tf f w Hf).
  unfold backed_up in *. cbn [fst snd].
  unfold _restore_backup, copy2.
  unfold try_except, mbind, M_bind, read_text, lift, write_file, log_error,
    modify, raise, mret, M_ret.
  cbn [disk emit].
  rewrite lookup_insert_ne by done. rewrite lookup_insert_ne by done.
  rewrite Hf, Hp. cbn [disk emit].
  rewrite lookup_insert_ne by done. rewrite lookup_insert_eq.
  destruct (decide _) as [|_]; [done|].
  exists (backup_path_of C tf (Clock.strftime (now E (tick w)))).
  eexists. split; [reflexivity|].
  cbn [disk current_backup trace set_disk emit].
  split; [apply lookup_insert_eq|].
  split.
  { rewrite lookup_insert_ne by done. rewrite lookup_insert_ne by done.
    apply lookup_insert_eq. }
  split; [reflexivity|].
  by rewrite <- !app_assoc.
Qed.

(** X8: a target file that does not exist.  [dry_apply] catches the error and
    returns it under ['error'], with one line in the error log; [apply]
    lets the [FileNotFoundError] of the backup copy escape as it is, before
    anything is written. *)
Theorem missing_target_is_reported patch tf w :
  disk w !! tf = None ->
  dry_apply E patch tf w =
    (Ret (Outcome false None (Some (exn_msg (file_not_found tf))) None None),
     emit (EvLogError ("Dry-run failed: " +:+ exn_msg (file_not_found tf))) w) /\
  exists w',
    apply E C patch tf w = (Raise (file_not_found tf), w') /\
    disk w' = disk w /\ current_backup w' = current_backup w /\
    trace w' = trace w.
Proof.
  intros Hf. split.
  - unfold dry_apply, try_except, mbind, M_bind, read_text, log_error, modify,
      mret, M_ret.
    by rewrite Hf.
  - eexists. split.
    + unfold apply. unfold mbind at 1. unfold M_bind at 1.
      by rewrite (create_backup_missing E C tf w Hf).
    + done.
Qed.

(** X10: when [dry_apply] reports success, nothing has changed, and [apply] on
    the same file then succeeds and writes exactly the ['new_content'] the
    dry run returned; the backup it takes holds the file as it was. *)
Theorem apply_writes_what_dry_apply_previewed patch tf o w w0 :
  dry_apply E patch tf w = (Ret o, w0) ->
  success o = true ->
  exists new bp w',
    new_content o = Some new /\ w0 = w /\
    apply E C patch tf w =
      (Ret (Outcome true (Some "Patch applied") None None (Some bp)), w') /\
    disk w' !! tf = Some (Text new) /\
    current_backup w' = Some bp /\
    disk w' !! bp = disk w !! tf.
Proof.
  intros Hd Hs.
  destruct (dry_apply_success E patch tf w o w0 Hd Hs) as (f & new & Hf & Hp & Ha & ->).
  rewrite (dry_apply_ok E patch tf f new w Hf Hp Ha) in Hd.
  injection Hd as <-.
  destruct (backup_path_fresh C tf (now E (tick w))) as (Hne & Hme & _ & Hmb).
  eexists _, _, _. split; [reflexivity|]. split; [reflexivity|].
  split; [by apply apply_spec|].
  unfold applied, backed_up. cbn [disk current_backup].
  split; [apply lookup_insert_eq|]. split; [reflexivity|].
  rewrite Hf. rewrite lookup_insert_ne by done. rewrite lookup_insert_ne by done.
  apply lookup_insert_eq.
Qed.

(** X11: a patch whose first hunk starts with a remove at a line past the end
    of the file fails the dry run with the message of Python's
    [IndexError], logged once; the disk is not touched. *)
Theorem remove_past_the_end_fails_validation patch tf f s x cs hs w :
  disk w !! tf = Some f ->
  Diff._parse_patch_hunks patch =
    Diff.Hunk s (Diff.Change Diff.remove x :: cs) :: hs ->
  Z.of_nat (length (PyStr.split_nl (file_text E f))) < s ->
  dry_apply E patch tf w =
    (Ret (Outcome false None (Some "list assignment index out of range") None None),
     emit (EvLogError "Dry-run failed: list assignment index out of range") w).
Proof.
  intros Hf Hparse Hlen.
  assert (Diff._apply_patch_to_string (file_text E f) patch = Raise PyList.index_error)
    as Hp.
  { unfold Diff._apply_patch_to_string. rewrite Hparse.
    cbn [Diff.apply_hunks Diff.changes Diff.start_line Diff.apply_changes Diff.type].
    unfold PyList.del, PyList.del_index.
    destruct (Z.ltb_spec (s - 1 + 0) 0); [lia|].
    destruct (Z.ltb_spec (s - 1 + 0)
                (Z.of_nat (length (PyStr.split_nl (file_text E f))))); [lia|].
    by rewrite andb_false_r. }
  unfold dry_apply, try_except, mbind, M_bind, read_text, lift, log_error,
    modify, mret, M_ret.
  by rewrite Hf, Hp.
Qed.

(** X12: the applier remembers one backup.  After two patches applied to a file
    one after the other, a rollback gives the file as it was after the
    first patch, and a further rollback finds no backup: the first patch
    can no longer be undone. *)
Theorem rollback_undoes_only_the_last_apply p1 p2 tf f new1 new2 w :
  disk w !! tf = Some f ->
  Diff._apply_patch_to_string (file_text E f) p1 = Ret new1 ->
  Diff._apply_patch_to_string new1 p2 = Ret new2 ->
  exists o1 w1 o2 w2 w3,
    apply E C p1 tf w = (Ret o1, w1) /\
    apply E C p2 tf w1 = (Ret o2, w2) /\
    disk w2 !! tf = Some (Text new2) /\
    rollback E w2 =
      (Ret (Outcome true (Some "Rollback successful") None None None), w3) /\
    disk w3 !! tf = Some (Text new1) /\
    rollback E w3 =
      (Ret (Outcome false (Some "No backup available") None None None), w3).
Proof.
  intros Hf Hp1 Hp2.
  assert (disk (applied E C tf f new1 w) !! tf = Some (Text new1)) as Hf1
    by (unfold applied, backed_up; cbn [disk]; apply lookup_insert_eq).
  destruct (backup_path_fresh C tf (now E (tick (applied E C tf f new1 w))))
    as (Hne & Hme & _).
  eexists _, _, _, _, _.
  split; [by apply apply_spec|].
  split; [by apply apply_spec|].
  split; [unfold applied at 1, backed_up at 1; cbn [disk]; apply lookup_insert_eq|].
  split; [by apply rollback_applied|].
  split.
  - unfold backed_up at 1. cbn [disk snd].
    by rewrite !lookup_insert_ne.
  - by apply rollback_without_backup.
Qed.

End Facts.

(** The scenario patch applied to [app.py] and rolled back. *)
Lemma rollback_undoes_apply_witness :
  exists bp ts w1 w2,
    apply Sample.env0 Sample.config0 DiffData.scenario_patch "app.py" Sample.world0 =
      (Ret (Outcome true (Some "Patch applied") None None (Some bp)), w1) /\
    disk w1 !! "app.py" = Some (Text DiffData.scenario_patched) /\
    rollback Sample.env0 w1 =
      (Ret (Outcome true (Some "Rollback successful") None None None), w2) /\
    disk w2 =
      <[meta_path bp := Meta (BackupMeta "app.py" ts bp)]>
        (<[bp := Text DiffData.scenario_content]> (disk Sample.world0)) /\
    disk w2 !! "app.py" = Some (Text DiffData.scenario_content) /\
    current_backup w2 = None /\
    rollback Sample.env0 w2 =
      (Ret (Outcome false (Some "No backup available") None None None), w2).
Proof.
  apply (rollback_undoes_apply Sample.env0 Sample.config0 DiffData.scenario_patch
           "app.py" (Text DiffData.scenario_content) DiffData.scenario_patched
           Sample.world0).
  - vm_compute. reflexivity.
  - vm_compute. reflexivity.
Defined.

(** A patch that removes a line the file does not have. *)
Lemma failed_apply_restores_the_file_witness :
  exists bp w',
    apply Sample.env0 Sample.config0 MoreSamples.remove_line_9 "app.py" Sample.world0 =
      (Raise (Exn "RuntimeError"
                ("Failed to apply patch: " +:+ exn_msg PyList.index_error)), w') /\
    disk w' !! "app.py" = Some (Text DiffData.scenario_content) /\
    disk w' !! bp = Some (Text DiffData.scenario_content) /\
    current_backup w' = current_backup Sample.world0 /\
    trace w' = trace Sample.world0 ++
      [EvBackup "app.py" bp;
       EvLogError ("Failed to apply patch: " +:+ exn_msg PyList.index_error);
       EvRestore bp "app.py"].
Proof.
  apply (failed_apply_restores_the_file Sample.env0 Sample.config0
           MoreSamples.remove_line_9 "app.py" (Text DiffData.scenario_content)
           PyList.index_error Sample.world0).
  - vm_compute. reflexivity.
  - vm_compute. reflexivity.
Defined.

(** Line 9 of a four-line file. *)
Lemma remove_past_the_end_fails_validation_witness :
  dry_apply Sample.env0 MoreSamples.remove_line_9 "app.py" Sample.world0 =
    (Ret (Outcome false None (Some "list assignment index out of range") None None),
     emit (EvLogError "Dry-run failed: list assignment index out of range")
       Sample.world0).
Proof.
  apply (remove_past_the_end_fails_validation Sample.env0
           MoreSamples.remove_line_9 "app.py" (Text DiffData.scenario_content)
           9 "x" [] [] Sample.world0).
  - vm_compute. reflexivity.
  - vm_compute. reflexivity.
  - vm_compute. reflexivity.
Defined.

(** A file that is not on the disk. *)
Lemma missing_target_is_reported_witness :
  dry_apply Sample.env0 DiffData.scenario_patch "gone.py" Sample.world0 =
    (Ret (Outcome false None (Some (exn_msg (file_not_found "gone.py"))) None None),
     emit (EvLogError ("Dry-run failed: " +:+ exn_msg (file_not_found "gone.py")))
       Sample.world0) /\
  exists w',
    apply Sample.env0 Sample.config0 DiffData.scenario_patch "gone.py" Sample.world0 =
      (Raise (file_not_found "gone.py"), w') /\
    disk w' = disk Sample.world0 /\
    current_backup w' = current_backup Sample.world0 /\
    trace w' = trace Sample.world0.
Proof.
  apply (missing_target_is_reported Sample.env0 Sample.config0
           DiffData.scenario_patch "gone.py" Sample.world0).
  vm_compute. reflexivity.
Defined.

(** The dry run of the scenario patch, then its application. *)
Lemma apply_writes_what_dry_apply_previewed_witness :
  exists new bp w',
    new_content (Outcome true (Some "Patch is valid") None
                   (Some DiffData.scenario_patched) None) = Some new /\
    Sample.world0 = Sample.world0 /\
    apply Sample.env0 Sample.config0 DiffData.scenario_patch "app.py" Sample.world0 =
      (Ret (Outcome true (Some "Patch applied") None None (Some bp)), w') /\
    disk w' !! "app.py" = Some (Text new) /\
    current_backup w' = Some bp /\
    disk w' !! bp = disk Sample.world0 !! "app.py".
Proof.
  apply (apply_writes_what_dry_apply_previewed Sample.env0 Sample.config0
           DiffData.scenario_patch "app.py"
           (Outcome true (Some "Patch is valid") None
              (Some DiffData.scenario_patched) None)
           Sample.world0 Sample.world0).
  - vm_compute. reflexivity.
  - reflexivity.
Defined.

(** The scenario patch applied twice, then two rollbacks. *)
Lemma rollback_undoes_only_the_last_apply_witness :
  exists o1 w1 o2 w2 w3,
    apply Sample.ticking_env Sample.config0 DiffData.scenario_patch "app.py"
      Sample.world0 = (Ret o1, w1) /\
    apply Sample.ticking_env Sample.config0 DiffData.scenario_patch "app.py" w1 =
      (Ret o2, w2) /\
    disk w2 !! "app.py" = Some (Text DiffData.scenario_patched_twice) /\
    rollback Sample.ticking_env w2 =
      (Ret (Outcome true (Some "Rollback successful") None None None), w3) /\
    disk w3 !! "app.py" = Some (Text DiffData.scenario_patched) /\
    rollback Sample.ticking_env w3 =
      (Ret (Outcome false (Some "No backup available") None None None), w3).
Proof.
  apply (rollback_undoes_only_the_last_apply Sample.ticking_env Sample.config0
           DiffData.scenario_patch DiffData.scenario_patch "app.py"
           (Text DiffData.scenario_content) DiffData.scenario_patched
           DiffData.scenario_patched_twice Sample.world0).
  - vm_compute. reflexivity.
  - vm_compute. reflexivity.
  - vm_compute. reflexivity.
Defined.

End ApplierMore.

(** ** More on the critic *)

Module CriticMore.
Import CriticAgent CriticFacts.

Section Facts.
Context (D : deps).

Lemma quick_checks_verdict p tr C ev :
  _quick_checks D p tr C = Ret (Some ev) ->
  verdict ev = JStr "PASS" \/ verdict ev = JStr "RETRY" \/ verdict ev = JStr "ESCALATE".
Proof.
  unfold _quick_checks.
  destruct (0 <? default 0 (failed tr)).
  - intros H.
    apply bind_ret_inv in H as (f & _ & H).
    apply bind_ret_inv in H as (t & _ & H).
    apply bind_ret_inv in H as (cov & _ & H).
    injection H as <-. auto.
  - destruct (_ <? lines_changed_or 0 p).
    + intros H. apply bind_ret_inv in H as (n & _ & H). injection H as <-. auto.
    + destruct (default 0 (total tr) =? 0); [|discriminate].
      intros H. injection H as <-. auto.
Qed.

Lemma fallback_verdict p tr ev :
  _create_fallback_evaluation D p tr = Ret ev ->
  verdict ev = JStr "PASS" \/ verdict ev = JStr "RETRY".
Proof.
  unfold _create_fallback_evaluation. intros H.
  apply bind_ret_inv in H as (cov & _ & H). injection H as <-.
  cbn [verdict]. destruct (default 0 (failed tr) =? 0); auto.
Qed.

Lemma valid_verdict_cases v :
  valid_verdict v = true ->
  v = JStr "PASS" \/ v = JStr "RETRY" \/ v = JStr "ESCALATE".
Proof.
  unfold valid_verdict. intros H.
  apply orb_prop in H as [H|H]; [apply orb_prop in H as [H|H]|];
    apply eq_str_true in H; auto.
Qed.

Lemma validate_verdict ans p tr C ev :
  _validate_evaluation D ans p tr C = Ret ev ->
  verdict ev = JStr "PASS" \/ verdict ev = JStr "RETRY" \/ verdict ev = JStr "ESCALATE".
Proof.
  unfold _validate_evaluation.
  destruct ans as [| | | | |m];
    try (intros H; apply fallback_verdict in H; tauto).
  intros H.
  apply bind_ret_inv in H as (coverage & _ & H).
  apply bind_ret_inv in H as (merge & _ & H).
  injection H as <-. cbn [verdict].
  destruct (valid_verdict _) eqn:Hv; [by apply valid_verdict_cases|auto].
Qed.

(** X13: every evaluation [evaluate_patch] returns, from the quick checks, from
    the model's answer or from the fallback, has the verdict [PASS],
    [RETRY] or [ESCALATE]. *)
Theorem verdict_is_one_of_three p tr bug_report pl C w ev w' :
  evaluate_patch D p tr bug_report pl C w = (Ret ev, w') ->
  verdict ev = JStr "PASS" \/ verdict ev = JStr "RETRY" \/ verdict ev = JStr "ESCALATE".
Proof.
  unfold evaluate_patch, mbind, M_bind, lift, try_except, mret, M_ret, log_error, modify.
  destruct (_quick_checks D p tr C) as [[qev|]|e] eqn:Hq; [| |discriminate].
  - intros [= -> _]. by apply quick_checks_verdict in Hq.
  - destruct (build_evaluation_prompt D p tr bug_report pl) as [prompt|e];
      [|discriminate].
    destruct (generate_json D (tick w) prompt) as [ans|e].
    + destruct (_validate_evaluation D ans p tr C) as [vev|e] eqn:Hv.
      * intros [= -> _]. by apply validate_verdict in Hv.
      * destruct (_create_fallback_evaluation D p tr) as [fev|e'] eqn:Hf;
          [|discriminate].
        intros [= -> _]. apply fallback_verdict in Hf. tauto.
    + destruct (_create_fallback_evaluation D p tr) as [fev|e'] eqn:Hf;
        [|discriminate].
      intros [= -> _]. apply fallback_verdict in Hf. tauto.
Qed.

(** X14: when the test report counts a failed test, the evaluation is a [RETRY]
    with confidence 0.9 and without auto-merge, whatever the size of the
    patch; the model is not asked. *)
Theorem failing_tests_mean_retry p tr bug_report pl C w ev w' :
  0 < default 0 (failed tr) ->
  evaluate_patch D p tr bug_report pl C w = (Ret ev, w') ->
  verdict ev = JStr "RETRY" /\
  confidence ev = JNum (NFloat 0.9) /\
  should_auto_merge ev = false /\
  w' = w.
Proof.
  intros Hf. apply Z.ltb_lt in Hf.
  unfold evaluate_patch, mbind, M_bind, lift, mret, M_ret.
  unfold _quick_checks. rewrite Hf.
  destruct (Py.item "failed" (failed tr)) as [f|e]; simpl; [|discriminate].
  destruct (Py.item "total" (total tr)) as [t|e]; simpl; [|discriminate].
  destruct (pass_ratio D tr) as [cov|e]; simpl; [|discriminate].
  intros [= <- <-]. done.
Qed.

(** X15: when the tests ran and none failed, the patch is within the size
    limit and the model answers with a dictionary whose verdict is none of
    [PASS], [RETRY] and [ESCALATE], the evaluation [evaluate_patch] returns
    is a [PASS], from the answer or, when reading the answer raises, from
    the fallback.  If the answer also meets the four conditions on
    confidence, coverage, security concerns and size, the patch is marked
    for auto-merge. *)
Theorem unknown_verdict_is_read_as_pass p tr bug_report pl C w prompt m t ps c :
  default 0 (failed tr) = 0 ->
  total tr = Some t -> 0 < t ->
  passed tr = Some ps ->
  int_truediv D ps t = Ret c ->
  lines_changed_or 0 p <= default 25 (max_patch_lines C) ->
  build_evaluation_prompt D p tr bug_report pl = Ret prompt ->
  generate_json D (tick w) prompt = Ret (JObj m) ->
  valid_verdict (default (JStr "PASS") (Py.assoc "verdict" m)) = false ->
  exists ev w',
    evaluate_patch D p tr bug_report pl C w = (Ret ev, w') /\
    verdict ev = JStr "PASS" /\
    (Py.ge_num (default (JNum (NFloat 0.5)) (Py.assoc "confidence" m))
               (default (NFloat 0.9) (auto_merge_threshold C)) = Ret true ->
     Py.gt_num (JNum (NFloat c)) (NFloat 0.8) = Ret true ->
     Py.len (default (JArr []) (Py.assoc "security_concerns" m)) = Ret 0 ->
     lines_changed_or 999 p <= 10 ->
     should_auto_merge ev = true /\ w' = next_tick w).
Proof.
  intros Hf Ht Hpos Hps Hc Hsize Hp Hg Hv.
  assert (_quick_checks D p tr C = Ret None) as Hq.
  { unfold _quick_checks. rewrite Hf, Ht. cbn [default from_option id].
    change (0 <? 0) with false. cbv iota.
    destruct (Z.ltb_spec (default 25 (max_patch_lines C)) (lines_changed_or 0 p));
      [lia|].
    destruct (Z.eqb_spec t 0); [lia|reflexivity]. }
  assert (pass_ratio D tr = Ret c) as Hr.
  { unfold pass_ratio. rewrite Ht, Hps. cbn [default from_option id].
    by rewrite Z.max_l by lia. }
  unfold evaluate_patch, mbind, M_bind, lift, try_except, mret, M_ret, log_error, modify.
  rewrite Hq, Hp, Hg.
  destruct (_validate_evaluation D (JObj m) p tr C) as [vev|e] eqn:Hval.
  - exists vev, (next_tick w). split; [reflexivity|].
    unfold _validate_evaluation in Hval. rewrite Hv, Ht, Hps in Hval.
    cbn [default from_option id Py.item] in Hval.
    destruct (Z.ltb_spec 0 t); [|lia].
    cbn [mbind pyresult_bind] in Hval. rewrite Hc in Hval.
    cbn [mbind pyresult_bind Py.eq_str String.eqb Ascii.eqb Bool.eqb and_then] in Hval.
    apply bind_ret_inv in Hval as (merge & Hm & Hval). injection Hval as <-.
    cbn [verdict should_auto_merge]. split; [done|].
    intros Hconf Hcov Hsec Hlines. split; [|done].
    rewrite Hconf in Hm. cbn [mbind pyresult_bind and_then] in Hm.
    rewrite Hcov in Hm. cbn [mbind pyresult_bind and_then] in Hm.
    rewrite Hsec in Hm. cbn [mbind pyresult_bind and_then Z.eqb] in Hm.
    injection Hm as <-. by apply Z.leb_le.
  - unfold _create_fallback_evaluation. rewrite Hr, Hf.
    cbn [mbind pyresult_bind Z.eqb].
    eexists _, _. split; [reflexivity|]. split; [reflexivity|].
    intros Hconf Hcov Hsec Hlines. exfalso.
    unfold _validate_evaluation in Hval. rewrite Hv, Ht, Hps in Hval.
    cbn [default from_option id Py.item] in Hval.
    destruct (Z.ltb_spec 0 t); [|lia].
    cbn [mbind pyresult_bind] in Hval. rewrite Hc in Hval.
    cbn [mbind pyresult_bind Py.eq_str String.eqb Ascii.eqb Bool.eqb and_then] in Hval.
    rewrite Hconf in Hval. cbn [mbind pyresult_bind and_then] in Hval.
    rewrite Hcov in Hval. cbn [mbind pyresult_bind and_then] in Hval.
    rewrite Hsec in Hval. cbn [mbind pyresult_bind and_then Z.eqb] in Hval.
    discriminate.
Qed.

(** X16: when the call to the model raises and no test failed, the error is
    logged and the evaluation is the fallback one: [PASS] with confidence
    0.6, never auto-merged. *)
Theorem model_failure_falls_back p tr bug_report pl C w prompt e :
  _quick_checks D p tr C = Ret None ->
  default 0 (failed tr) = 0 ->
  build_evaluation_prompt D p tr bug_report pl = Ret prompt ->
  generate_json D (tick w) prompt = Raise e ->
  (exists c, pass_ratio D tr = Ret c) ->
  exists ev,
    evaluate_patch D p tr bug_report pl C w =
      (Ret ev, emit (EvLogError ("Evaluation failed: " +:+ exn_msg e)) (next_tick w)) /\
    verdict ev = JStr "PASS" /\
    confidence ev = JNum (NFloat 0.6) /\
    should_auto_merge ev = false.
Proof.
  intros Hq Hf Hp Hg [c Hc].
  unfold evaluate_patch, mbind, M_bind, lift, try_except, mret, M_ret, log_error, modify.
  rewrite Hq, Hp, Hg.
  unfold _create_fallback_evaluation. rewrite Hc, Hf. simpl.
  eexists. split; [reflexivity|]. done.
Qed.

End Facts.

Lemma verdict_is_one_of_three_witness :
  let ev := Evaluation (JStr "PASS") (JNum (NFloat 0.7))
              (JStr "Patch applied successfully (no tests available)")
              (JArr []) (JArr [JStr "Add tests for better validation"])
              (JArr []) (JNum (NFloat 0.0)) false in
  verdict ev = JStr "PASS" \/ verdict ev = JStr "RETRY" \/ verdict ev = JStr "ESCALATE".
Proof.
  intros ev.
  apply (verdict_is_one_of_three Sample.deps0 (Sample.patch_of_size 3)
           Sample.none_run JNull Sample.plan0 Sample.config0 Sample.world0 ev
           Sample.world0).
  vm_compute. reflexivity.
Defined.

(** One test out of five fails. *)
Lemma failing_tests_mean_retry_witness :
  let ev := Evaluation (JStr "RETRY") (JNum (NFloat 0.9))
              (JStr "Tests failed: 1 out of 5")
              (JArr [JStr "Test failures"])
              (JArr [JStr "Review test failures and adjust patch"])
              (JArr []) (JNum (NFloat 0.8)) false in
  verdict ev = JStr "RETRY" /\
  confidence ev = JNum (NFloat 0.9) /\
  should_auto_merge ev = false /\
  Sample.world0 = Sample.world0.
Proof.
  intros ev.
  apply (failing_tests_mean_retry Sample.deps0 (Sample.patch_of_size 3)
           Sample.one_failed JNull Sample.plan0 Sample.config0 Sample.world0 ev
           Sample.world0).
  - vm_compute. reflexivity.
  - vm_compute. reflexivity.
Defined.

(** Five tests out of five pass and the model answers [REJECT] with
    confidence 0.95: the patch of three lines is marked for auto-merge. *)
Lemma unknown_verdict_is_read_as_pass_witness :
  exists ev w',
    evaluate_patch MoreSamples.rejecting_deps (Sample.patch_of_size 3)
      Sample.all_passed JNull Sample.plan0 Sample.config0 Sample.world0 = (Ret ev, w') /\
    verdict ev = JStr "PASS" /\
    should_auto_merge ev = true /\ w' = next_tick Sample.world0.
Proof.
  destruct (unknown_verdict_is_read_as_pass MoreSamples.rejecting_deps
              (Sample.patch_of_size 3) Sample.all_passed JNull Sample.plan0
              Sample.config0 Sample.world0 "prompt"
              [("verdict", JStr "REJECT"); ("confidence", JNum (NFloat 0.95))]
              5 5 1%float)
    as (ev & w' & Hrun & Hv & Hmerge).
  - reflexivity.
  - reflexivity.
  - lia.
  - reflexivity.
  - vm_compute. reflexivity.
  - vm_compute. discriminate.
  - reflexivity.
  - reflexivity.
  - vm_compute. reflexivity.
  - exists ev, w'. split; [exact Hrun|]. split; [exact Hv|].
    apply Hmerge.
    + vm_compute. reflexivity.
    + vm_compute. reflexivity.
    + reflexivity.
    + vm_compute. discriminate.
Defined.

(** Five tests out of five pass and the model cannot be reached. *)
Lemma model_failure_falls_back_witness :
  exists ev,
    evaluate_patch MoreSamples.offline_deps (Sample.patch_of_size 3)
      Sample.all_passed JNull Sample.plan0 Sample.config0 Sample.world0 =
      (Ret ev,
       emit (EvLogError ("Evaluation failed: " +:+
                         exn_msg (Exn "ConnectionError" "model offline")))
         (next_tick Sample.world0)) /\
    verdict ev = JStr "PASS" /\
    confidence ev = JNum (NFloat 0.6) /\
    should_auto_merge ev = false.
Proof.
  apply (model_failure_falls_back MoreSamples.offline_deps (Sample.patch_of_size 3)
           Sample.all_passed JNull Sample.plan0 Sample.config0 Sample.world0
           "prompt" (Exn "ConnectionError" "model offline")).
  - vm_compute. reflexivity.
  - reflexivity.
  - reflexivity.
  - reflexivity.
  - eexists. vm_compute. reflexivity.
Defined.

End CriticMore.

(** ** More on the manager *)

Module ManagerMore.
Import ManagerAgent Trace ManagerFacts RepairFacts.

Section Facts.
Context (E : env) (C : config) (D : CriticAgent.deps) (K : collaborators).





(** X18: called with neither a target file nor a stack trace (missing or
    empty), [heal] asks no agent: the run ends at once as [NO_BUGS_FOUND]
    with the empty report of [_analyze_repo], and only the completion of
    the run is recorded. *)
Theorem nothing_to_analyse_finds_no_bugs target stack_trace repo_path w :
  nonempty target = None ->
  nonempty stack_trace = None ->
  heal E C D K target stack_trace repo_path w =
    (Ret (Some (RunResult (start_run K (tick w)) "NO_BUGS_FOUND"
                  (DetailsNoBugs _analyze_repo))),
     emit (EvCompleteRun "NO_BUGS_FOUND") (next_tick w)).
Proof.
  intros Ht Hs. unfold heal. erewrite bind_ret by reflexivity.
  apply try_ret.
  erewrite bind_ret by (unfold _analyze_phase; rewrite Hs, Ht; reflexivity).
  reflexivity.
Qed.

(** X19: with [max_attempts] at 0 or below, a run that found bugs makes no
    attempt: it ends as [MAX_ATTEMPTS_REACHED] with an empty list of
    attempts, and neither the disk nor the backup has changed. *)
Theorem no_attempt_without_attempts_left target stack_trace repo_path w :
  the_max_attempts C <= 0 ->
  (forall w0, exists m bugs,
      (_analyze_phase K target stack_trace repo_path w0).1 = Ret (JObj m) /\
      Py.assoc "bugs" m = Some bugs /\ Py.truthy bugs = true) ->
  (forall t br, exists rc, build_repo_context K t repo_path br = Ret rc) ->
  (forall t br, exists sf, find_similar_bugs K t br = Ret sf) ->
  exists r w',
    heal E C D K target stack_trace repo_path w = (Ret (Some r), w') /\
    run_status r = "MAX_ATTEMPTS_REACHED" /\
    details r =
      DetailsExhausted ("Failed after " +:+ pretty (the_max_attempts C) +:+ " attempts") [] /\
    disk w' = disk w /\ current_backup w' = current_backup w /\
    exists evs,
      forallb is_log evs = true /\
      trace w' =
        trace w ++ evs ++ [EvCompleteRun "MAX_ATTEMPTS_REACHED"; EvNotify "failure"].
Proof.
  intros Hmax Hanalyze Hctx Hsim.
  set (w0 := next_tick w).
  destruct (Hanalyze w0) as (m & bugs & Han & Hbugs & Htruthy).
  pose proof (HealFacts.log_only_analyze_phase K target stack_trace repo_path w0) as Hq.
  destruct (_analyze_phase K target stack_trace repo_path w0) as [res w1] eqn:Hphase.
  simpl in Han, Hq. subst res.
  destruct (Hctx (tick w1) (JObj m)) as (rc & Hrc).
  destruct (Hsim (S (tick w1)) (JObj m)) as (sf & Hsf).
  eexists _, _. split.
  - unfold heal. erewrite bind_ret by reflexivity. apply try_ret.
    erewrite bind_ret by (fold w0; exact Hphase).
    erewrite bind_ret by (unfold lift; rewrite Hbugs; reflexivity).
    cbn [default from_option id]. rewrite Htruthy. cbn [negb].
    erewrite bind_ret by (unfold ask; rewrite Hrc; reflexivity).
    erewrite bind_ret by (unfold ask; cbn [tick next_tick]; rewrite Hsf; reflexivity).
    replace (Z.to_nat (the_max_attempts C)) with 0%nat by lia.
    cbn [attempts_loop].
    destruct (Z.ltb_spec 0 (the_max_attempts C)); [lia|].
    erewrite bind_ret by reflexivity. cbn beta iota.
    erewrite bind_ret by apply HealFacts.complete_run_exhausted. reflexivity.
  - split; [reflexivity|]. split; [reflexivity|].
    cbn [disk current_backup tick trace emit next_tick].
    destruct Hq as (Hd & Hb & evs & Ht & Hl).
    split; [done|]. split; [done|]. exists evs. split; [done|].
    rewrite Ht. cbn [trace w0 next_tick]. by rewrite <- !app_assoc.
Qed.

(** X20: when the critic passes a patch without auto-merge, the attempt is a
    [SUCCESS] that requires approval and nothing is committed.  The patched
    file stays on disk and the backup stays live, so that a rollback at that
    point restores the file. *)
Theorem passed_patch_waits_on_disk br rp rid n pl tf p f new tr w :
  disk w !! tf = Some f ->
  Diff._apply_patch_to_string (PatchApplier.file_text E f) (patch p) = Ret new ->
  ast_parse E new = AstOk ->
  (forall t d, run_tests K t p rp pl d = (Ret tr, d)) ->
  (forall u, exists ev u',
      CriticAgent.evaluate_patch D p tr br pl C u = (Ret ev, u') /\
      verdict ev = JStr "PASS" /\ should_auto_merge ev = false) ->
  exists r w' bp w'',
    validate_and_apply E C D K br rp rid n pl tf p w = (Ret r, w') /\
    result_status r = SUCCESS /\
    requires_approval r = Some true /\
    auto_merged r = Some false /\
    result_commit r = None /\
    disk w' !! tf = Some (Text new) /\
    PatchApplier.live_backup w' = Some bp /\
    disk w' !! bp = Some f /\
    PatchApplier.rollback E w' =
      (Ret (PatchApplier.Outcome true (Some "Rollback successful") None None None), w'') /\
    disk w'' !! tf = Some f.
Proof.
  intros Hf Hp Ha Hrun Hev.
  set (w2 := applied E C tf f new w).
  set (bp := (backed_up E C tf f w).1).
  set (w3 := emit (EvLogStep "test" n) (emit EvTests (set_disk (disk w2) (next_tick w2)))).
  destruct (Hev w3) as (ev & w4 & Heval & Hv & Hm).
  pose proof (log_only_evaluate_patch C D p tr br pl w3) as Hq.
  rewrite Heval in Hq. simpl in Hq. destruct Hq as (Hd4 & Hb4 & evs & Ht4 & Hl4).
  set (w5 := emit (EvLogStep "evaluation" n) w4).
  destruct (ApplierFacts.backup_path_fresh C tf (now E (tick w)))
    as (Hne & Hme & Hnil & Hmb).
  assert (disk w5 = disk w2) as Hd5
    by (subst w5; cbn [disk emit]; rewrite Hd4; reflexivity).
  assert (current_backup w5 = Some bp) as Hb5
    by (subst w5; cbn [current_backup emit]; rewrite Hb4; reflexivity).
  assert (PatchApplier.live_backup w5 = Some bp) as Hl5.
  { unfold PatchApplier.live_backup. rewrite Hb5. subst bp. unfold backed_up.
    cbn [fst].
    destruct (String.eqb_spec
      (PatchApplier.backup_path_of C tf (Clock.strftime (now E (tick w)))) "");
      [done|done]. }
  assert (disk w5 !! bp = Some f) as Hbp.
  { rewrite Hd5. subst w2 bp. unfold applied, backed_up. cbn [disk fst].
    rewrite lookup_insert_ne by done. rewrite lookup_insert_ne by done.
    apply lookup_insert_eq. }
  assert (disk w5 !! PatchApplier.meta_path bp =
          Some (Meta (BackupMeta tf (Clock.strftime (now E (tick w))) bp))) as Hmeta.
  { rewrite Hd5. subst w2 bp. unfold applied, backed_up. cbn [disk fst].
    rewrite lookup_insert_ne by done. apply lookup_insert_eq. }
  eexists _, w5, bp, _. split.
  - unfold validate_and_apply.
    rewrite (bind_ret _ _ _ _ _ (ApplierFacts.dry_apply_ok E (patch p) tf f new w Hf Hp Ha)).
    cbn [PatchApplier.success negb].
    rewrite (bind_ret _ _ _ _ _ (ApplierFacts.apply_spec E C (patch p) tf f new w Hf Hp)).
    unfold test_phase. apply try_ret. unfold test_and_decide.
    erewrite bind_ret; [|unfold tester_run; by rewrite Hrun].
    unfold evaluate_and_decide.
    erewrite bind_ret by reflexivity.
    erewrite bind_ret by exact Heval.
    erewrite bind_ret by reflexivity.
    rewrite Hv, Hm. cbn [Py.eq_str String.eqb Ascii.eqb Bool.eqb]. reflexivity.
  - split; [done|]. split; [done|]. split; [done|]. split; [done|].
    split.
    { rewrite Hd5. subst w2. unfold applied, backed_up. cbn [disk].
      apply lookup_insert_eq. }
    split; [done|]. split; [done|].
    split.
    { eapply (ApplierFacts.rollback_restores E w5 bp _ f); [done|exact Hmeta|done|done]. }
    cbn [disk original_file]. apply lookup_insert_eq.
Qed.

(** X21: an auto-merge does not look at what [commit] returns.  When the
    critic passes a patch for auto-merge and [git commit] fails, the attempt
    is still a [SUCCESS] flagged [auto_merged], with the failed commit
    inside; the disk and the backup are untouched. *)
Theorem failed_commit_is_reported_as_success br rid n pl p tr ev descr w w1 :
  CriticAgent.evaluate_patch D p tr br pl C (emit (EvLogStep "test" n) w) = (Ret ev, w1) ->
  verdict ev = JStr "PASS" ->
  should_auto_merge ev = true ->
  issue_description pl = Some descr ->
  (forall t msg, commit_success (git_commit E t msg) = false) ->
  exists r w' cr,
    evaluate_and_decide E C D br rid n pl p tr w = (Ret r, w') /\
    result_status r = SUCCESS /\
    auto_merged r = Some true /\
    result_commit r = Some cr /\ commit_success cr = false /\
    disk w' = disk w /\ current_backup w' = current_backup w.
Proof.
  intros Heval Hv Hm Hdescr Hgit.
  pose proof (log_only_evaluate_patch C D p tr br pl (emit (EvLogStep "test" n) w)) as Hq.
  rewrite Heval in Hq. simpl in Hq. destruct Hq as (Hd & Hb & _).
  eexists _, _, _. split.
  - unfold evaluate_and_decide.
    erewrite bind_ret by reflexivity.
    erewrite bind_ret by exact Heval.
    erewrite bind_ret by reflexivity.
    rewrite Hv, Hm. cbn [Py.eq_str String.eqb Ascii.eqb Bool.eqb].
    erewrite bind_ret by (unfold lift; rewrite Hdescr; reflexivity).
    erewrite bind_ret by reflexivity. reflexivity.
  - split; [done|]. split; [done|]. split; [reflexivity|].
    split; [apply Hgit|].
    rewrite Hgit. cbn [disk current_backup emit next_tick]. by rewrite Hd, Hb.
Qed.

End Facts.

(** A run started with neither a file nor a stack trace. *)
Lemma nothing_to_analyse_finds_no_bugs_witness :
  heal Sample.env0 Sample.config0 Sample.deps0
    (Sample.collaborators_with (Sample.patch_of_size 3) Sample.all_passed id)
    (Some "") None "." Sample.world0 =
    (Ret (Some (RunResult "run-1" "NO_BUGS_FOUND" (DetailsNoBugs _analyze_repo))),
     emit (EvCompleteRun "NO_BUGS_FOUND") (next_tick Sample.world0)).
Proof.
  apply (nothing_to_analyse_finds_no_bugs Sample.env0 Sample.config0 Sample.deps0
           (Sample.collaborators_with (Sample.patch_of_size 3) Sample.all_passed id)
           (Some "") None "." Sample.world0).
  - reflexivity.
  - reflexivity.
Defined.

(** The sample installation with [max_attempts] set to 0. *)
Lemma no_attempt_without_attempts_left_witness :
  exists r w',
    heal Sample.env0 MoreSamples.config_no_attempts Sample.deps0
      (Sample.collaborators_with (Sample.patch_of_size 3) Sample.all_passed id)
      (Some "app.py") None "." Sample.world0 = (Ret (Some r), w') /\
    run_status r = "MAX_ATTEMPTS_REACHED" /\
    details r =
      DetailsExhausted
        ("Failed after " +:+ pretty (the_max_attempts MoreSamples.config_no_attempts)
         +:+ " attempts") [] /\
    disk w' = disk Sample.world0 /\
    current_backup w' = current_backup Sample.world0 /\
    exists evs,
      forallb is_log evs = true /\
      trace w' =
        trace Sample.world0 ++ evs ++
        [EvCompleteRun "MAX_ATTEMPTS_REACHED"; EvNotify "failure"].
Proof.
  apply (no_attempt_without_attempts_left Sample.env0 MoreSamples.config_no_attempts
           Sample.deps0
           (Sample.collaborators_with (Sample.patch_of_size 3) Sample.all_passed id)
           (Some "app.py") None "." Sample.world0).
  - vm_compute. discriminate.
  - intros w0. eexists _, _. repeat split; reflexivity.
  - intros t br. eexists. reflexivity.
  - intros t br. eexists. reflexivity.
Defined.

(** The scenario patch on the sample installation, with a tester that
    runs no test. *)
Lemma passed_patch_waits_on_disk_witness :
  exists r w' bp w'',
    validate_and_apply Sample.env0 Sample.config0 Sample.deps0
      (Sample.collaborators_with (Sample.patch_of_size 3) Sample.none_run id)
      JNull "." "run-1" 1 Sample.plan0 "app.py" (Sample.patch_of_size 3)
      Sample.world0 = (Ret r, w') /\
    result_status r = SUCCESS /\
    requires_approval r = Some true /\
    auto_merged r = Some false /\
    result_commit r = None /\
    disk w' !! "app.py" = Some (Text DiffData.scenario_patched) /\
    PatchApplier.live_backup w' = Some bp /\
    disk w' !! bp = Some (Text DiffData.scenario_content) /\
    PatchApplier.rollback Sample.env0 w' =
      (Ret (PatchApplier.Outcome true (Some "Rollback successful") None None None), w'') /\
    disk w'' !! "app.py" = Some (Text DiffData.scenario_content).
Proof.
  apply (passed_patch_waits_on_disk Sample.env0 Sample.config0 Sample.deps0
           (Sample.collaborators_with (Sample.patch_of_size 3) Sample.none_run id)
           JNull "." "run-1" 1 Sample.plan0 "app.py" (Sample.patch_of_size 3)
           (Text DiffData.scenario_content) DiffData.scenario_patched
           Sample.none_run Sample.world0).
  - vm_compute. reflexivity.
  - vm_compute. reflexivity.
  - reflexivity.
  - reflexivity.
  - intros u. eexists _, u. split.
    + apply RepairFacts.evaluate_quick. vm_compute. reflexivity.
    + split; reflexivity.
Defined.

(** A confident PASS on the sample installation, with a [git commit] that
    fails. *)
Lemma failed_commit_is_reported_as_success_witness :
  exists r w' cr,
    evaluate_and_decide MoreSamples.failing_git_env Sample.config0 Sample.deps0
      JNull "run-1" 1 Sample.plan0 (Sample.patch_of_size 3) Sample.all_passed
      Sample.patched_world = (Ret r, w') /\
    result_status r = SUCCESS /\
    auto_merged r = Some true /\
    result_commit r = Some cr /\ commit_success cr = false /\
    disk w' = disk Sample.patched_world /\
    current_backup w' = current_backup Sample.patched_world.
Proof.
  eapply (failed_commit_is_reported_as_success MoreSamples.failing_git_env
            Sample.config0 Sample.deps0 JNull "run-1" 1 Sample.plan0
            (Sample.patch_of_size 3) Sample.all_passed).
  - vm_compute. reflexivity.
  - reflexivity.
  - reflexivity.
  - reflexivity.
  - reflexivity.
Defined.

End ManagerMore.

(** ** The fixer's measure of a patch and the diff engine *)

Module FixerFacts.
Import PyStr Diff DiffData DiffFacts DiffMore FixerAgent.

Lemma count_in_hunks_app t hs1 hs2 :
  count_in_hunks t (hs1 ++ hs2) = count_in_hunks t hs1 + count_in_hunks t hs2.
Proof. induction hs1 as [|h hs1 IH]; simpl; [done|]. rewrite IH. lia. Qed.

Lemma count_type_app t cs1 cs2 :
  count_type t (cs1 ++ cs2) = count_type t cs1 + count_type t cs2.
Proof.
  unfold count_type. rewrite filter_app, length_app. lia.
Qed.

Lemma count_flush t hunks cur :
  count_in_hunks t (flush hunks cur) =
  count_in_hunks t hunks +
  match cur with Some h => count_type t (changes h) | None => 0 end.
Proof.
  destruct cur as [h|]; simpl; [|lia].
  rewrite count_in_hunks_app. simpl. lia.
Qed.

Lemma count_lines_nonneg cond ls : 0 <= count_lines cond ls.
Proof. induction ls as [|l ls IH]; simpl; [lia|]. destruct (cond l); lia. Qed.

Lemma classify_add l c :
  classify l = Some c -> type c = add -> is_addition l = true.
Proof.
  unfold classify, is_addition.
  destruct (startswith "+" l && negb (startswith "+++" l)); [done|].
  destruct (startswith "-" l && negb (startswith "---" l)); [by intros [= <-]|].
  destruct (startswith " " l); [by intros [= <-]|done].
Qed.

Lemma classify_remove l c :
  classify l = Some c -> type c = remove -> is_deletion l = true.
Proof.
  unfold classify, is_deletion.
  destruct (startswith "+" l && negb (startswith "+++" l)); [by intros [= <-]|].
  destruct (startswith "-" l && negb (startswith "---" l)); [done|].
  destruct (startswith " " l); [by intros [= <-]|done].
Qed.

(** The parser finds at most as many changes of a kind as there are lines
    that [cond] counts. *)
Lemma parse_lines_bound t cond :
  (forall l c, classify l = Some c -> type c = t -> cond l = true) ->
  forall ls hunks cur,
    count_in_hunks t (parse_lines ls hunks cur) <=
    count_in_hunks t (flush hunks cur) + count_lines cond ls.
Proof.
  intros Hcond. induction ls as [|l ls IH]; intros hunks cur; simpl; [lia|].
  pose proof (count_lines_nonneg cond ls).
  destruct (hunk_match l) as [n|].
  - specialize (IH (flush hunks cur) (Some (Hunk n []))).
    rewrite count_flush in IH. simpl in IH.
    change (count_type t []) with 0 in IH.
    destruct (cond l); lia.
  - destruct cur as [h|].
    + specialize (IH hunks (Some (append_change h l))).
      rewrite count_flush in IH. rewrite count_flush.
      unfold append_change in IH |- *.
      destruct (classify l) as [c|] eqn:Hc.
      * cbn [changes] in IH. rewrite count_type_app in IH.
        unfold count_type at 2 in IH. rewrite filter_cons, filter_nil in IH.
        destruct (decide (type c = t)) as [Ht|Ht].
        -- rewrite (Hcond l c Hc Ht). simpl length in IH. lia.
        -- simpl length in IH. destruct (cond l); lia.
      * destruct (cond l); lia.
    + specialize (IH hunks None). destruct (cond l); lia.
Qed.

Lemma parsed_changes_bounded (P : string) :
  0 <= count_in_hunks add (_parse_patch_hunks P)
    <= count_lines is_addition (split_nl P) /\
  0 <= count_in_hunks remove (_parse_patch_hunks P)
    <= count_lines is_deletion (split_nl P).
Proof.
  unfold _parse_patch_hunks.
  pose proof (parse_lines_bound add is_addition classify_add (split_nl P) [] None) as Ha.
  pose proof (parse_lines_bound remove is_deletion classify_remove (split_nl P) [] None) as Hd.
  pose proof (count_in_hunks_nonneg add (parse_lines (split_nl P) [] None)).
  pose proof (count_in_hunks_nonneg remove (parse_lines (split_nl P) [] None)).
  simpl in Ha, Hd. lia.
Qed.

(** X22: the lines [_extract_patch_metadata] counts bound what the patch does:
    the parser of the patch applier finds at most [lines_added] adds and at
    most [lines_removed] removes, and [lines_changed] is their sum. *)
Theorem measured_lines_bound_the_changes (P : string) :
  exists a d,
    lines_added (_extract_patch_metadata P) = Some a /\
    lines_removed (_extract_patch_metadata P) = Some d /\
    lines_changed (_extract_patch_metadata P) = Some (a + d) /\
    0 <= count_in_hunks add (_parse_patch_hunks P) <= a /\
    0 <= count_in_hunks remove (_parse_patch_hunks P) <= d.
Proof.
  eexists _, _. split; [reflexivity|]. split; [reflexivity|]. split; [reflexivity|].
  apply parsed_changes_bounded.
Qed.

Lemma apply_changes_context_only cs : forall ls start off,
  count_type add cs = 0 -> count_type remove cs = 0 ->
  exists off', apply_changes cs ls start off = Ret (ls, off').
Proof.
  induction cs as [|c cs IH]; intros ls start off Ha Hr; simpl; [by eauto|].
  rewrite count_type_cons in Ha, Hr.
  pose proof (count_type_nonneg add cs). pose proof (count_type_nonneg remove cs).
  destruct c as [[] l]; simpl in *; try lia.
  apply IH; lia.
Qed.

Lemma apply_hunks_context_only hs : forall ls off,
  count_in_hunks add hs = 0 -> count_in_hunks remove hs = 0 ->
  apply_hunks hs ls off = Ret ls.
Proof.
  induction hs as [|h hs IH]; intros ls off Ha Hr; simpl; [done|].
  simpl in Ha, Hr.
  pose proof (count_type_nonneg add (changes h)).
  pose proof (count_type_nonneg remove (changes h)).
  pose proof (count_in_hunks_nonneg add hs).
  pose proof (count_in_hunks_nonneg remove hs).
  destruct (apply_changes_context_only (changes h) ls (start_line h - 1 + off) off)
    as [off' ->]; [lia|lia|].
  simpl. apply IH; lia.
Qed.

(** X23: a patch measured at 0 changed lines leaves every content unchanged
    when applied. *)
Theorem patch_measured_empty_changes_nothing (C P : string) :
  lines_changed (_extract_patch_metadata P) = Some 0 ->
  _apply_patch_to_string C P = Ret C.
Proof.
  intros H0. injection H0 as H0.
  destruct (parsed_changes_bounded P) as [Hba Hbd].
  unfold _apply_patch_to_string.
  rewrite apply_hunks_context_only by lia.
  simpl. by rewrite join_split.
Qed.

(** A hunk made of context lines only. *)
Lemma patch_measured_empty_changes_nothing_witness :
  _apply_patch_to_string DiffData.scenario_content
    (ln "@@ -1,2 +1,2 @@" (ln " a" " def f():")) = Ret DiffData.scenario_content.
Proof.
  apply patch_measured_empty_changes_nothing. vm_compute. reflexivity.
Defined.

End FixerFacts.
(** ** Trimming the context of a patch *)

Module TrimFacts.
Import PyStr Diff DiffData DiffFacts DiffMore FixerAgent.

Lemma prefix_nil x : String.prefix "" x = true.
Proof. by destruct x. Qed.

Lemma startswith_space x : startswith " " (" " +:+ x) = true.
Proof. apply prefix_nil. Qed.

Lemma startswith_plus a : startswith "+" ("+" +:+ a) = true.
Proof. apply prefix_nil. Qed.

(** Lines of the file header pass through the trimming loop. *)
Lemma minimize_file_header pre : forall rest m in_hunk buf,
  Forall (fun l => startswith "---" l || startswith "+++" l = true) pre ->
  minimize_lines (pre ++ rest) m in_hunk buf =
  minimize_lines rest (m ++ pre) in_hunk buf.
Proof.
  induction pre as [|l pre IH]; intros rest m in_hunk buf H.
  - by rewrite app_nil_r.
  - inversion H as [|? ? Hl Hpre]; subst. simpl. rewrite Hl.
    rewrite IH by done. by rewrite <- app_assoc.
Qed.

Lemma minimize_context ctx : forall rest m buf,
  minimize_lines (map (String.append " ") ctx ++ rest) m true buf =
  minimize_lines rest m true (buf ++ map (String.append " ") ctx).
Proof.
  induction ctx as [|x ctx IH]; intros rest m buf.
  - by rewrite app_nil_r.
  - simpl map. simpl app. cbn [minimize_lines].
    change (startswith "---" (" " +:+ x)) with false.
    change (startswith "+++" (" " +:+ x)) with false.
    change (startswith "@@" (" " +:+ x)) with false.
    change (startswith "-" (" " +:+ x)) with false.
    change (startswith "+" (" " +:+ x)) with false.
    rewrite startswith_space.
    cbn [orb]. rewrite IH. by rewrite <- app_assoc.
Qed.

Lemma startswith_plus3 a : startswith "+++" ("+" +:+ a) = startswith "++" a.
Proof. reflexivity. Qed.

Lemma minimize_additions adds : forall m,
  Forall (fun a => startswith "++" a = false) adds ->
  minimize_lines (map (String.append "+") adds) m true [] =
  m ++ map (String.append "+") adds.
Proof.
  induction adds as [|a adds IH]; intros m H.
  - by rewrite app_nil_r.
  - inversion H as [|? ? Ha Hadds]; subst.
    simpl map. cbn [minimize_lines].
    rewrite startswith_plus3, Ha.
    change (startswith "---" ("+" +:+ a)) with false.
    change (startswith "@@" ("+" +:+ a)) with false.
    change (startswith "-" ("+" +:+ a)) with false.
    rewrite startswith_plus.
    cbn [orb]. change (last_context []) with (@nil string). simpl app.
    rewrite IH by done. by rewrite <- app_assoc.
Qed.

Lemma strip_prefix_Some p : forall s r, strip_prefix p s = Some r -> s = p +:+ r.
Proof.
  induction p as [|a p IH]; intros s r; simpl.
  - by intros [= ->].
  - destruct s as [|b s]; [done|].
    destruct (Ascii.eqb_spec a b) as [->|]; [|done].
    intros H. by rewrite (IH s r H).
Qed.

Lemma hunk_match_header hdr s :
  hunk_match hdr = Some s -> exists r, hdr = "@@ -" +:+ r.
Proof.
  unfold hunk_match.
  destruct (strip_prefix "@@ -" hdr) as [r0|] eqn:H0; [|discriminate].
  intros _. exists r0. by apply strip_prefix_Some.
Qed.

Lemma file_header_no_match l :
  startswith "---" l || startswith "+++" l = true -> hunk_match l = None.
Proof.
  intros H. destruct (hunk_match l) as [s|] eqn:Hm; [|done].
  destruct (hunk_match_header l s Hm) as [r ->]. discriminate.
Qed.

(** The trimmed lines of a patch made of a file header, one hunk header,
    context lines and added lines. *)
Lemma minimize_one_hunk pre hdr s ctx adds :
  Forall (fun l => startswith "---" l || startswith "+++" l = true) pre ->
  hunk_match hdr = Some s ->
  adds <> [] ->
  Forall (fun a => startswith "++" a = false) adds ->
  minimize_lines
    (pre ++ hdr :: map (String.append " ") ctx ++ map (String.append "+") adds)
    [] false [] =
  pre ++ hdr :: map (String.append " ") (drop (length ctx - 3) ctx) ++
    map (String.append "+") adds.
Proof.
  intros Hpre Hm Hne Hadds.
  rewrite minimize_file_header by done. simpl app.
  destruct (hunk_match_header hdr s Hm) as [r ->].
  cbn [minimize_lines].
  change (startswith "---" ("@@ -" +:+ r)) with false.
  change (startswith "+++" ("@@ -" +:+ r)) with false.
  change (startswith "@@" ("@@ -" +:+ r)) with true.
  cbn [orb].
  rewrite minimize_context. simpl app.
  destruct adds as [|a adds]; [done|].
  inversion Hadds as [|? ? Ha Hadds']; subst.
  simpl map. cbn [minimize_lines].
  rewrite startswith_plus3, Ha.
  change (startswith "---" ("+" +:+ a)) with false.
  change (startswith "@@" ("+" +:+ a)) with false.
  change (startswith "-" ("+" +:+ a)) with false.
  rewrite startswith_plus. cbn [orb].
  rewrite minimize_additions by done.
  unfold last_context, max_context. rewrite length_map, skipn_map.
  rewrite <- !app_assoc. reflexivity.
Qed.

Lemma parse_body ls : forall cs hunks h,
  Forall2 (fun l c => hunk_match l = None /\ classify l = Some c) ls cs ->
  parse_lines ls hunks (Some h) = hunks ++ [Hunk (start_line h) (changes h ++ cs)].
Proof.
  induction ls as [|l ls IH]; intros cs hunks h H.
  - inversion H; subst. simpl. rewrite app_nil_r. by destruct h.
  - inversion H as [|? c ? cs' [Hm Hc] Hrest]; subst.
    simpl. rewrite Hm. unfold append_change. rewrite Hc.
    rewrite (IH cs') by done. cbn [start_line changes].
    by rewrite <- app_assoc.
Qed.

Lemma classify_context x : classify (" " +:+ x) = Some (Change context x).
Proof.
  unfold classify.
  change (startswith "+" (" " +:+ x)) with false.
  change (startswith "-" (" " +:+ x)) with false.
  cbn [andb]. by rewrite startswith_space.
Qed.

Lemma classify_addition a :
  startswith "++" a = false -> classify ("+" +:+ a) = Some (Change add a).
Proof.
  intros Ha. unfold classify.
  by rewrite startswith_plus, startswith_plus3, Ha.
Qed.

Lemma parse_one_hunk pre hdr s ctx adds :
  Forall (fun l => startswith "---" l || startswith "+++" l = true) pre ->
  hunk_match hdr = Some s ->
  Forall (fun a => startswith "++" a = false) adds ->
  parse_lines
    (pre ++ hdr :: map (String.append " ") ctx ++ map (String.append "+") adds)
    [] None =
  [Hunk s (map (Change context) ctx ++ map (Change remove) [] ++ map (Change add) adds)].
Proof.
  intros Hpre Hm Hadds.
  rewrite parse_skips_preamble.
  2:{ eapply Forall_impl; [exact Hpre|]. intros l. apply file_header_no_match. }
  simpl. rewrite Hm.
  rewrite (parse_body _ (map (Change context) ctx ++ map (Change add) adds)); [done|].
  apply Forall2_app.
  - clear. induction ctx as [|x ctx IH]; simpl; constructor; [|done].
    split; [done|apply classify_context].
  - induction Hadds as [|a adds Ha Hadds IH]; simpl; constructor; [|done].
    split; [done|by apply classify_addition].
Qed.

Lemma one_hunk_lines_no_nl pre hdr ctx adds :
  Forall (fun l => has_nl l = false) pre ->
  has_nl hdr = false ->
  Forall (fun l => has_nl l = false) ctx ->
  Forall (fun l => has_nl l = false) adds ->
  Forall (fun l => has_nl l = false)
    (pre ++ hdr :: map (String.append " ") ctx ++ map (String.append "+") adds).
Proof.
  intros Hpre Hhdr Hctx Hadds.
  apply Forall_app. split; [done|]. constructor; [done|].
  apply Forall_app. split.
  - induction Hctx; simpl; by constructor.
  - induction Hadds; simpl; by constructor.
Qed.

Lemma apply_one_hunk C pre hdr s ctx adds :
  Forall (fun l => startswith "---" l || startswith "+++" l = true) pre ->
  hunk_match hdr = Some s ->
  Forall (fun a => startswith "++" a = false) adds ->
  Forall (fun l => has_nl l = false) pre ->
  has_nl hdr = false ->
  Forall (fun l => has_nl l = false) ctx ->
  Forall (fun l => has_nl l = false) adds ->
  1 <= s ->
  s - 1 + Z.of_nat (length ctx) <= Z.of_nat (length (split_nl C)) ->
  _apply_patch_to_string C
    (join_nl (pre ++ hdr :: map (String.append " ") ctx ++
              map (String.append "+") adds)) =
  Ret (join_nl (take (Z.to_nat (s - 1) + length ctx) (split_nl C) ++ adds ++
                drop (Z.to_nat (s - 1) + length ctx) (split_nl C))).
Proof.
  intros Hpre Hm Hadds Hn1 Hn2 Hn3 Hn4 Hs Hlen.
  unfold _apply_patch_to_string, _parse_patch_hunks.
  rewrite split_join; [|by destruct pre|by apply one_hunk_lines_no_nl].
  rewrite (parse_one_hunk pre hdr s ctx adds) by done.
  rewrite apply_hunks_block by (simpl length; lia).
  simpl length. by rewrite Nat.add_0_r.
Qed.

(** X24: [_minimize_patch] keeps at most three context lines in front of a
    change and leaves the hunk header as it is, while the patch applier
    finds the place of a change by counting the context lines from the
    header's line.  For a hunk of [k] context lines followed by added lines,
    the patch inserts [k] lines below the header's line, the trimmed patch
    [min k 3] lines below it. *)
Theorem trimmed_context_moves_the_insertion (C : string)
    (pre : list string) (hdr : string) (s : Z) (ctx adds : list string) :
  Forall (fun l => startswith "---" l || startswith "+++" l = true) pre ->
  hunk_match hdr = Some s ->
  adds <> [] ->
  Forall (fun a => startswith "++" a = false) adds ->
  Forall (fun l => has_nl l = false) (pre ++ hdr :: ctx ++ adds) ->
  1 <= s ->
  s - 1 + Z.of_nat (length ctx) <= Z.of_nat (length (split_nl C)) ->
  let P := join_nl (pre ++ hdr :: map (String.append " ") ctx ++
                    map (String.append "+") adds) in
  let inserted_at p :=
    Ret (join_nl (take p (split_nl C) ++ adds ++ drop p (split_nl C))) in
  _apply_patch_to_string C P =
    inserted_at (Z.to_nat (s - 1) + length ctx)%nat /\
  _apply_patch_to_string C (_minimize_patch P) =
    inserted_at (Z.to_nat (s - 1) + length ctx `min` 3)%nat.
Proof.
  intros Hpre Hm Hne Hadds Hnl Hs Hlen P inserted_at.
  apply Forall_app in Hnl as [Hn1 Hnl].
  apply Forall_cons in Hnl as [Hn2 Hnl].
  apply Forall_app in Hnl as [Hn3 Hn4].
  split; [by apply apply_one_hunk|].
  unfold _minimize_patch. subst P.
  rewrite split_join;
    [|by destruct pre|by apply one_hunk_lines_no_nl].
  rewrite (minimize_one_hunk pre hdr s ctx adds) by done.
  rewrite (apply_one_hunk C pre hdr s (drop (length ctx - 3) ctx) adds);
    try done.
  - subst inserted_at. cbv beta. rewrite length_drop.
    replace (length ctx - (length ctx - 3))%nat with (length ctx `min` 3)%nat by lia.
    reflexivity.
  - by apply Forall_drop.
  - rewrite length_drop. lia.
Qed.

Lemma trimmed_context_moves_the_insertion_witness :
  let C := join_nl ["l1"; "l2"; "l3"; "l4"; "l5"; "l6"] in
  let P := join_nl (["--- a/app.py"; "+++ b/app.py"] ++ "@@ -1,5 +1,6 @@" ::
                    map (String.append " ") ["l1"; "l2"; "l3"; "l4"; "l5"] ++
                    map (String.append "+") ["new"]) in
  _apply_patch_to_string C P =
    Ret (join_nl ["l1"; "l2"; "l3"; "l4"; "l5"; "new"; "l6"]) /\
  _apply_patch_to_string C (_minimize_patch P) =
    Ret (join_nl ["l1"; "l2"; "l3"; "new"; "l4"; "l5"; "l6"]).
Proof.
  intros C P.
  apply (trimmed_context_moves_the_insertion C
           ["--- a/app.py"; "+++ b/app.py"] "@@ -1,5 +1,6 @@" 1
           ["l1"; "l2"; "l3"; "l4"; "l5"] ["new"]).
  - repeat constructor.
  - reflexivity.
  - discriminate.
  - repeat constructor.
  - repeat constructor.
  - lia.
  - vm_compute. discriminate.
Defined.

End TrimFacts.

(** ** From a healing result to a pending approval *)

Module IntakeFacts.
Import GitAutoHealer Intake ManagerAgent.

Lemma gt_int (k n : Z) : Py.gt_num (JNum (NInt k)) (NInt n) = Ret (n <? k).
Proof.
  unfold Py.gt_num, Py.as_num, Py.num_lt, Py.num_val, Py.xlt, Py.cmp_fin.
  rewrite Z.min_id, Z.sub_diag. change (2 ^ 0) with 1. rewrite !Z.mul_1_r.
  unfold Z.ltb. by destruct (n ?= k).
Qed.

Lemma assoc_int_item key key' v :
  Py.assoc key (int_item key' v) =
    if String.eqb key' key then (fun z => JNum (NInt z)) <$> v else None.
Proof.
  destruct v as [z|]; simpl; by destruct (String.eqb key' key).
Qed.

Lemma assoc_lines_changed md :
  Py.assoc "lines_changed" (metadata_items md) =
    (fun z => JNum (NInt z)) <$> lines_changed md.
Proof.
  unfold metadata_items.
  destruct (lines_added md), (lines_removed md), (lines_changed md); reflexivity.
Qed.

(** The critic's evaluation has no entry [risk_level]. *)
Lemma assoc_risk_level d : Py.assoc "risk_level" (details_evaluation (details_of d)) = None.
Proof.
  destruct d as [|r| |]; try reflexivity.
  simpl. by destruct (result_evaluation r).
Qed.

(** The number of changed lines [_determine_risk_level] finds in the
    result of a run. *)
Lemma lines_of_run d :
  default (JNum (NInt 0)) (Py.assoc "lines_changed" (details_metadata (details_of d))) =
  JNum (NInt match d with
             | DetailsResult r =>
                 match result_patch r with
                 | Some p => CriticAgent.lines_changed_or 0 p
                 | None => 0
                 end
             | _ => 0
             end).
Proof.
  destruct d as [|r| |]; try reflexivity.
  simpl. unfold CriticAgent.lines_changed_or.
  destruct (result_patch r) as [p|]; [|reflexivity].
  destruct (metadata p) as [md|]; [|reflexivity].
  rewrite assoc_lines_changed. by destruct (lines_changed md).
Qed.

Lemma half_is_low : lt_num (JNum (NFloat 0.5)) (NFloat 0.7) = Ret true.
Proof. vm_compute. reflexivity. Qed.

Lemma or_else_false a b : or_else a b = Ret false -> a = Ret false /\ b = Ret false.
Proof.
  unfold or_else. destruct a as [[]|e]; simpl; [discriminate| |discriminate].
  by intros ->.
Qed.

(** How [_determine_risk_level] comes to its answer. *)
Lemma determine_cases d v :
  _determine_risk_level d = Ret v ->
  Py.assoc "risk_level" (details_evaluation d) = Some v \/
  (Py.assoc "risk_level" (details_evaluation d) = None /\
   (v = JStr "HIGH" \/ v = JStr "MEDIUM" \/
    (v = JStr "LOW" /\
     Py.gt_num (default (JNum (NInt 0))
                  (Py.assoc "lines_changed" (details_metadata d))) (NInt 10) = Ret false /\
     lt_num (default (JNum (NFloat 0.5))
               (Py.assoc "confidence" (details_evaluation d))) (NFloat 0.7) = Ret false /\
     lt_num (default (JNum (NFloat 0.5))
               (Py.assoc "confidence" (details_evaluation d))) (NFloat 0.85) = Ret false))).
Proof.
  unfold _determine_risk_level.
  destruct (Py.assoc "risk_level" (details_evaluation d)) as [r|];
    [intros [= <-]; by left|].
  set (lines := default _ _). set (conf := default _ _).
  intros H. right. split; [done|].
  destruct (or_else (Py.gt_num lines (NInt 20)) (lt_num conf (NFloat 0.7)))
    as [[]|e] eqn:H1; simpl in H; [injection H as <-; auto| |discriminate].
  destruct (or_else (Py.gt_num lines (NInt 10)) (lt_num conf (NFloat 0.85)))
    as [[]|e] eqn:H2; simpl in H; [injection H as <-; auto| |discriminate].
  injection H as <-. right. right.
  apply or_else_false in H1 as [_ H1]. apply or_else_false in H2 as [H2 H3].
  done.
Qed.

(** X25: [handle_healing_result] starts a timer for a run only when the
    status is [SUCCESS] and the risk is [LOW]; the entry is then stored as
    [LOW].  The risk is [LOW] either because the evaluation says so under
    [risk_level], whatever the confidence and the size of the patch, or
    because it has no such entry, the confidence is not below 0.85 and not
    more than 10 lines change.  For the result of a run of the manager it
    is the second. *)
Theorem timer_only_for_low_risk result file_path h u h' :
  handle_healing_result result file_path h = (u, h') ->
  healing_run_id result ∉ approval_timers h ->
  healing_run_id result ∈ approval_timers h' ->
  let d := healing_details result in
  healing_status result = JStr "SUCCESS" /\
  pending_approvals h' !! healing_run_id result = Some (Approval file_path "LOW") /\
  (Py.assoc "risk_level" (details_evaluation d) = Some (JStr "LOW") \/
   (Py.assoc "risk_level" (details_evaluation d) = None /\
    Py.gt_num (default (JNum (NInt 0))
                 (Py.assoc "lines_changed" (details_metadata d))) (NInt 10) = Ret false /\
    lt_num (default (JNum (NFloat 0.5))
              (Py.assoc "confidence" (details_evaluation d))) (NFloat 0.85) = Ret false)) /\
  (forall run, result = of_run_result run ->
     exists r ev,
       details run = DetailsResult r /\ result_evaluation r = Some ev /\
       lt_num (confidence ev) (NFloat 0.85) = Ret false /\
       match result_patch r with
       | Some p => CriticAgent.lines_changed_or 0 p
       | None => 0
       end <= 10).
Proof.
  intros Hrun Hn Hin d.
  assert (healing_status result = JStr "SUCCESS" /\
          h' = _handle_low_risk_push result file_path h /\
          exists v, _determine_risk_level d = Ret v /\ Py.eq_str v "LOW" = true)
    as (Hst & -> & v & Hrisk & Hlow).
  { revert Hrun. unfold handle_healing_result. fold d.
    destruct (healing_status result) as [| | |s| |]; cbn [Py.eq_str negb];
      try (intros [= _ <-]; done).
    destruct (String.eqb_spec s "SUCCESS") as [->|]; cbn [negb];
      [|intros [= _ <-]; done].
    destruct (_determine_risk_level d) as [v|e]; [|intros [= _ <-]; done].
    destruct (Py.eq_str v "LOW") eqn:Hlow.
    - intros [= _ <-]. eauto.
    - destruct v as [| | |s| |]; try (intros [= _ <-]; done).
      destruct (_ || _); intros [= _ <-]; done. }
  destruct v as [| | |s| |]; try discriminate.
  apply String.eqb_eq in Hlow as ->.
  split; [done|]. split; [apply lookup_insert_eq|].
  apply determine_cases in Hrisk as [Hd|[Hnone Hd]].
  - split; [by left|]. intros run ->. subst d. cbn [of_run_result healing_details] in Hd.
    by rewrite assoc_risk_level in Hd.
  - destruct Hd as [|[|(_ & Hl & H7 & H85)]]; try discriminate.
    split; [right; done|].
    intros run ->. subst d. cbn [of_run_result healing_details] in *.
    rewrite lines_of_run, gt_int in Hl. injection Hl as Hl. apply Z.ltb_ge in Hl.
    destruct (details run) as [|r| |];
      try (simpl in H7; rewrite half_is_low in H7; discriminate).
    simpl in H7, H85.
    destruct (result_evaluation r) as [ev|] eqn:Hev;
      [|simpl in H7; rewrite half_is_low in H7; discriminate].
    exists r, ev. done.
Qed.

Lemma at_07 : lt_num (JNum (NFloat 0.7)) (NFloat 0.7) = Ret false.
Proof. vm_compute. reflexivity. Qed.

Lemma at_07_below_085 : lt_num (JNum (NFloat 0.7)) (NFloat 0.85) = Ret true.
Proof. vm_compute. reflexivity. Qed.

(** With no test run, a PASS comes from the quick checks. *)
Lemma untested_pass D p tr br pl C w ev w' :
  default 0 (total tr) = 0 ->
  CriticAgent.evaluate_patch D p tr br pl C w = (Ret ev, w') ->
  verdict ev = JStr "PASS" ->
  confidence ev = JNum (NFloat 0.7).
Proof.
  intros Ht. unfold CriticAgent.evaluate_patch, mbind, M_bind, lift, mret, M_ret.
  destruct (CriticAgent._quick_checks D p tr C) as [[qev|]|e] eqn:Hq; [| |discriminate].
  - intros [= -> _]. revert Hq. unfold CriticAgent._quick_checks.
    destruct (0 <? default 0 (failed tr)).
    + intros H.
      apply CriticFacts.bind_ret_inv in H as (f & _ & H).
      apply CriticFacts.bind_ret_inv in H as (t & _ & H).
      apply CriticFacts.bind_ret_inv in H as (cov & _ & H).
      injection H as <-. discriminate.
    + destruct (_ <? CriticAgent.lines_changed_or 0 p).
      * intros H. apply CriticFacts.bind_ret_inv in H as (n & _ & H).
        injection H as <-. discriminate.
      * destruct (default 0 (total tr) =? 0); [|discriminate].
        intros H. by injection H as <-.
  - by apply CriticFacts.quick_checks_pass_on in Hq.
Qed.

(** X26: a patch the critic passed while no test was run (the test report has
    [total] 0) is never pushed by the timer: its risk is [MEDIUM] or
    [HIGH], the entry is stored and no timer is started. *)
Theorem untested_patch_waits_for_a_person D C p tr br pl w ev w' r rid file_path h :
  default 0 (total tr) = 0 ->
  CriticAgent.evaluate_patch D p tr br pl C w = (Ret ev, w') ->
  verdict ev = JStr "PASS" ->
  result_patch r = Some p ->
  result_evaluation r = Some ev ->
  exists risk h',
    (risk = "MEDIUM" \/ risk = "HIGH") /\
    handle_healing_result (of_run_result (RunResult rid "SUCCESS" (DetailsResult r)))
      file_path h = (Ret tt, h') /\
    pending_approvals h' !! rid = Some (Approval file_path risk) /\
    approval_timers h' = approval_timers h.
Proof.
  intros Ht Hev Hv Hp He.
  pose proof (untested_pass D p tr br pl C w ev w' Ht Hev Hv) as Hc.
  unfold handle_healing_result.
  cbn [of_run_result healing_status healing_details healing_run_id run_status details
       run_id Py.eq_str negb String.eqb Ascii.eqb Bool.eqb].
  unfold _determine_risk_level. rewrite assoc_risk_level, lines_of_run, !gt_int.
  cbn [details_of details_evaluation]. rewrite He, Hp.
  change (Py.assoc "confidence" (evaluation_items ev)) with (Some (confidence ev)).
  cbn [default from_option id]. rewrite Hc. unfold or_else.
  destruct (20 <? CriticAgent.lines_changed_or 0 p); cbn [mbind pyresult_bind].
  - exists "HIGH". eexists. split; [auto|]. split; [reflexivity|].
    split; [apply lookup_insert_eq|reflexivity].
  - rewrite at_07. cbn [mbind pyresult_bind].
    exists "MEDIUM". eexists. split; [auto|].
    destruct (10 <? CriticAgent.lines_changed_or 0 p); cbn [mbind pyresult_bind].
    + split; [reflexivity|]. split; [apply lookup_insert_eq|reflexivity].
    + rewrite at_07_below_085.
      split; [reflexivity|]. split; [apply lookup_insert_eq|reflexivity].
Qed.

Section WithRemote.
Context (E : env) (R : remote).

(** What the timer's callback does to an entry when git accepts the commit
    and the push. *)
Lemma timer_pushes rid a pend timers w :
  (forall t msg, commit_success (git_commit E t msg) = true) ->
  has_repo R = true ->
  (forall t, origin_push R t = None) ->
  exists hash w',
    _auto_push_after_timeout E R rid (Healer (<[rid := a]> pend) timers w) =
      (Finished (Ret (CommittedAndPushed hash true)),
       Healer (delete rid (<[rid := a]> pend)) (timers ∖ {[rid]}) w') /\
    disk w' = disk w /\ current_backup w' = None /\
    exists evs,
      trace w' =
        trace w ++
        EvGitCommit (commit_msg (Call rid true true) a +:+
                     String PyStr.nl (String PyStr.nl ("Self-healing run: " +:+ rid))) :: evs.
Proof.
  intros Hgit Hrepo Hpush.
  unfold _auto_push_after_timeout, run_from.
  cbn [step call_run_id pending_approvals approval_timers applier].
  rewrite lookup_insert_eq.
  cbn [step call_run_id pending_approvals approval_timers applier].
  rewrite lookup_insert_eq.
  cbn [step call_run_id pending_approvals approval_timers applier].
  unfold act, commit_and_push, PatchApplier.commit.
  cbn [approved negb applier call_run_id auto].
  rewrite Hgit, Hrepo. unfold _push_to_remote. rewrite Hrepo, Hpush.
  cbn [on_applier pending_approvals approval_timers applier].
  rewrite lookup_insert_eq.
  eexists _, _. split; [reflexivity|].
  split; [reflexivity|]. split; [reflexivity|].
  eexists. cbn. rewrite <- !app_assoc. reflexivity.
Qed.

(** X27: a successful result of risk [LOW] is stored with a timer; when the
    timer fires and git accepts the commit and the push, the patch is
    committed and pushed with no approval given, the entry and the timer are
    gone and the backup is forgotten. *)
Theorem low_risk_patch_is_pushed_by_the_timer result file_path h :
  healing_status result = JStr "SUCCESS" ->
  _determine_risk_level (healing_details result) = Ret (JStr "LOW") ->
  (forall t msg, commit_success (git_commit E t msg) = true) ->
  has_repo R = true ->
  (forall t, origin_push R t = None) ->
  exists h1 h2 hash,
    handle_healing_result result file_path h = (Ret tt, h1) /\
    pending_approvals h1 !! healing_run_id result = Some (Approval file_path "LOW") /\
    (healing_run_id result ∈ approval_timers h1) /\
    _auto_push_after_timeout E R (healing_run_id result) h1 =
      (Finished (Ret (CommittedAndPushed hash true)), h2) /\
    pending_approvals h2 !! healing_run_id result = None /\
    (healing_run_id result ∉ approval_timers h2) /\
    disk (applier h2) = disk (applier h) /\
    current_backup (applier h2) = None.
Proof.
  intros Hst Hrisk Hgit Hrepo Hpush.
  destruct (timer_pushes (healing_run_id result) (Approval file_path "LOW")
              (pending_approvals h) ({[healing_run_id result]} ∪ approval_timers h)
              (next_tick (emit (EvNotify "approval") (applier h))) Hgit Hrepo Hpush)
    as (hash & w' & Hpushd & Hdisk & Hb & _).
  eexists _, _, hash. split.
  { unfold handle_healing_result. rewrite Hst, Hrisk. reflexivity. }
  unfold _handle_low_risk_push, store_pending. cbn [pending_approvals approval_timers applier].
  split; [apply lookup_insert_eq|].
  split; [apply elem_of_union_l; by apply elem_of_singleton|].
  split; [exact Hpushd|].
  cbn [pending_approvals approval_timers applier].
  split; [apply lookup_delete_eq|].
  split; [intros [_ Hn]%elem_of_difference; apply Hn; by apply elem_of_singleton|].
  split; [exact Hdisk|exact Hb].
Qed.

(** X9: [_handle_high_risk_push] leaves the timers alone.  When a result of
    risk [LOW] is followed by a result of risk [MEDIUM] or [HIGH] under
    the same run id, the entry is replaced by the one that waits for a
    person, but the first timer stays armed; when it fires and git accepts
    the commit and the push, the later patch is committed and pushed with
    no approval given. *)
Theorem armed_timer_pushes_a_later_high_risk_entry first second file1 file2 risk h :
  healing_status first = JStr "SUCCESS" ->
  _determine_risk_level (healing_details first) = Ret (JStr "LOW") ->
  healing_status second = JStr "SUCCESS" ->
  _determine_risk_level (healing_details second) = Ret (JStr risk) ->
  risk = "MEDIUM" \/ risk = "HIGH" ->
  healing_run_id second = healing_run_id first ->
  (forall t msg, commit_success (git_commit E t msg) = true) ->
  has_repo R = true ->
  (forall t, origin_push R t = None) ->
  let rid := healing_run_id first in
  exists h1 h2 h3 hash,
    handle_healing_result first file1 h = (Ret tt, h1) /\
    handle_healing_result second file2 h1 = (Ret tt, h2) /\
    pending_approvals h2 !! rid = Some (Approval file2 risk) /\
    (rid ∈ approval_timers h2) /\
    _auto_push_after_timeout E R rid h2 =
      (Finished (Ret (CommittedAndPushed hash true)), h3) /\
    pending_approvals h3 !! rid = None /\
    (rid ∉ approval_timers h3) /\
    exists evs,
      trace (applier h3) =
        trace (applier h2) ++
        EvGitCommit (commit_msg (Call rid true true) (Approval file2 risk) +:+
                     String PyStr.nl (String PyStr.nl ("Self-healing run: " +:+ rid))) :: evs.
Proof.
  intros Hst1 Hrisk1 Hst2 Hrisk2 Hr Hid Hgit Hrepo Hpush rid.
  set (h1 := _handle_low_risk_push first file1 h).
  destruct (timer_pushes rid (Approval file2 risk)
              (pending_approvals h1) (approval_timers h1)
              (next_tick (emit (EvNotify "approval") (applier h1))) Hgit Hrepo Hpush)
    as (hash & w' & Hpushd & _ & _ & Htrace).
  exists h1, (_handle_high_risk_push second file2 risk h1). eexists _, hash.
  split.
  { unfold handle_healing_result. rewrite Hst1, Hrisk1. reflexivity. }
  split.
  { unfold handle_healing_result. rewrite Hst2, Hrisk2.
    by destruct Hr as [-> | ->]. }
  unfold _handle_high_risk_push, store_pending. rewrite Hid. fold rid.
  cbn [pending_approvals approval_timers applier].
  split; [apply lookup_insert_eq|].
  split; [apply elem_of_union_l; by apply elem_of_singleton|].
  split; [exact Hpushd|].
  cbn [pending_approvals approval_timers applier].
  split; [apply lookup_delete_eq|].
  split; [intros [_ Hn]%elem_of_difference; apply Hn; by apply elem_of_singleton|].
  exact Htrace.
Qed.

End WithRemote.

(** A result that calls itself ['LOW'] with confidence 0.1 arms the timer. *)
Lemma timer_only_for_low_risk_witness :
  let result := MoreSamples.declared_low in
  let d := healing_details result in
  healing_status result = JStr "SUCCESS" /\
  pending_approvals (_handle_low_risk_push result "app.py" MoreSamples.idle_healer)
    !! healing_run_id result = Some (Approval "app.py" "LOW") /\
  (Py.assoc "risk_level" (details_evaluation d) = Some (JStr "LOW") \/
   (Py.assoc "risk_level" (details_evaluation d) = None /\
    Py.gt_num (default (JNum (NInt 0))
                 (Py.assoc "lines_changed" (details_metadata d))) (NInt 10) = Ret false /\
    lt_num (default (JNum (NFloat 0.5))
              (Py.assoc "confidence" (details_evaluation d))) (NFloat 0.85) = Ret false)) /\
  (forall run, result = of_run_result run ->
     exists r ev,
       details run = DetailsResult r /\ result_evaluation r = Some ev /\
       lt_num (confidence ev) (NFloat 0.85) = Ret false /\
       match result_patch r with
       | Some p => CriticAgent.lines_changed_or 0 p
       | None => 0
       end <= 10).
Proof.
  intros result.
  apply (timer_only_for_low_risk result "app.py" MoreSamples.idle_healer (Ret tt)
           (_handle_low_risk_push result "app.py" MoreSamples.idle_healer)).
  - vm_compute. reflexivity.
  - apply not_elem_of_empty.
  - apply elem_of_union_l. by apply elem_of_singleton.
Defined.

(** The run of the sample installation when no test was run. *)
Lemma untested_patch_waits_for_a_person_witness :
  exists risk h',
    (risk = "MEDIUM" \/ risk = "HIGH") /\
    handle_healing_result
      (of_run_result (MoreSamples.success_with MoreSamples.untested_evaluation))
      "app.py" MoreSamples.idle_healer = (Ret tt, h') /\
    pending_approvals h' !! "run-1" = Some (Approval "app.py" risk) /\
    approval_timers h' = approval_timers MoreSamples.idle_healer.
Proof.
  apply (untested_patch_waits_for_a_person Sample.deps0 Sample.config0
           (Sample.patch_of_size 3) Sample.none_run JNull Sample.plan0
           Sample.world0 MoreSamples.untested_evaluation Sample.world0).
  - reflexivity.
  - vm_compute. reflexivity.
  - reflexivity.
  - reflexivity.
  - reflexivity.
Defined.

(** The confident PASS, thirty seconds later. *)
Lemma low_risk_patch_is_pushed_by_the_timer_witness :
  let result := of_run_result (MoreSamples.success_with MoreSamples.confident_evaluation) in
  exists h1 h2 hash,
    handle_healing_result result "app.py" MoreSamples.idle_healer = (Ret tt, h1) /\
    pending_approvals h1 !! healing_run_id result = Some (Approval "app.py" "LOW") /\
    (healing_run_id result ∈ approval_timers h1) /\
    _auto_push_after_timeout Sample.env0 Sample.remote0 (healing_run_id result) h1 =
      (Finished (Ret (CommittedAndPushed hash true)), h2) /\
    pending_approvals h2 !! healing_run_id result = None /\
    (healing_run_id result ∉ approval_timers h2) /\
    disk (applier h2) = disk (applier MoreSamples.idle_healer) /\
    current_backup (applier h2) = None.
Proof.
  intros result.
  apply (low_risk_patch_is_pushed_by_the_timer Sample.env0 Sample.remote0 result
           "app.py" MoreSamples.idle_healer).
  - reflexivity.
  - vm_compute. reflexivity.
  - reflexivity.
  - reflexivity.
  - reflexivity.
Defined.

(** The two calls of [tests/test_auto_healing.py], and the timer of the
    first one thirty seconds later. *)
Lemma armed_timer_pushes_a_later_high_risk_entry_witness :
  let first := MoreSamples.mock_result "LOW" 3 in
  let second := MoreSamples.mock_result "HIGH" 25 in
  let rid := "test-run-123" in
  exists h1 h2 h3 hash,
    handle_healing_result first "test.py" MoreSamples.idle_healer = (Ret tt, h1) /\
    handle_healing_result second "critical.py" h1 = (Ret tt, h2) /\
    pending_approvals h2 !! rid = Some (Approval "critical.py" "HIGH") /\
    (rid ∈ approval_timers h2) /\
    _auto_push_after_timeout Sample.env0 Sample.remote0 rid h2 =
      (Finished (Ret (CommittedAndPushed hash true)), h3) /\
    pending_approvals h3 !! rid = None /\
    (rid ∉ approval_timers h3) /\
    exists evs,
      trace (applier h3) =
        trace (applier h2) ++
        EvGitCommit (commit_msg (Call rid true true) (Approval "critical.py" "HIGH") +:+
                     String PyStr.nl (String PyStr.nl ("Self-healing run: " +:+ rid))) :: evs.
Proof.
  intros first second rid.
  apply (armed_timer_pushes_a_later_high_risk_entry Sample.env0 Sample.remote0
           first second "test.py" "critical.py" "HIGH" MoreSamples.idle_healer).
  - reflexivity.
  - reflexivity.
  - reflexivity.
  - reflexivity.
  - by right.
  - reflexivity.
  - reflexivity.
  - reflexivity.
  - reflexivity.
Defined.

End IntakeFacts.

(** ** Rejections and failed pushes *)

Module ApprovalMore.
Import GitAutoHealer.

Section Facts.
Context (E : env) (C : config) (R : remote).


(** X29: when an approval commits and the push fails, the entry stays pending
    with its timer cancelled, and the backup is forgotten.  A rejection
    that follows is answered as rejected and removes the entry, but
    restores nothing. *)
Theorem failed_push_cannot_be_undone rid a au au' h :
  pending_approvals h !! rid = Some a ->
  (forall t msg, commit_success (git_commit E t msg) = true) ->
  has_repo R = true ->
  (forall t, exists err, origin_push R t = Some err) ->
  exists err h1 h2,
    approve_and_push E R (Call rid true au) h = (Finished (Ret (PushFailed err)), h1) /\
    pending_approvals h1 !! rid = Some a /\
    (rid ∉ approval_timers h1) /\
    current_backup (applier h1) = None /\
    approve_and_push E R (Call rid false au') h1 = (Finished (Ret ActionRejected), h2) /\
    disk (applier h2) = disk (applier h).
Proof.
  intros Hp Hgit Hrepo Hpush.
  destruct (Hpush (S (tick (applier h)))) as [err Herr].
  exists err. eexists _, _.
  unfold approve_and_push, run_from.
  cbn [step call_run_id]. rewrite Hp.
  cbn [step call_run_id approval_timers pending_approvals applier].
  unfold act at 1, commit_and_push, PatchApplier.commit.
  cbn [approved negb applier call_run_id auto].
  rewrite Hgit, Hrepo. unfold _push_to_remote. rewrite Hrepo.
  cbn [tick emit next_tick set_current_backup]. rewrite Herr.
  split; [reflexivity|].
  cbn [on_applier pending_approvals approval_timers applier current_backup emit].
  split; [done|].
  split; [intros [_ Hn]%elem_of_difference; apply Hn; by apply elem_of_singleton|].
  split; [reflexivity|].
  cbn [step call_run_id pending_approvals on_applier]. rewrite Hp.
  cbn [step call_run_id]. unfold act, reject.
  cbn [approved negb applier pending_approvals on_applier].
  rewrite ApplierMore.rollback_without_backup by reflexivity.
  cbn [on_applier pending_approvals call_run_id]. rewrite Hp.
  split; reflexivity.
Qed.

End Facts.


(** The sample healer with a remote that refuses the push. *)
Lemma failed_push_cannot_be_undone_witness :
  exists err h1 h2,
    approve_and_push Sample.env0 MoreSamples.closed_remote (Call "run-1" true false)
      Sample.healer0 = (Finished (Ret (PushFailed err)), h1) /\
    pending_approvals h1 !! "run-1" = Some (Approval "app.py" "LOW") /\
    ("run-1" ∉ approval_timers h1) /\
    current_backup (applier h1) = None /\
    approve_and_push Sample.env0 MoreSamples.closed_remote (Call "run-1" false false)
      h1 = (Finished (Ret ActionRejected), h2) /\
    disk (applier h2) = disk (applier Sample.healer0).
Proof.
  apply (failed_push_cannot_be_undone Sample.env0 MoreSamples.closed_remote
           "run-1" (Approval "app.py" "LOW") false false Sample.healer0).
  - vm_compute. reflexivity.
  - reflexivity.
  - reflexivity.
  - intros t. eexists. reflexivity.
Defined.

End ApprovalMore.

(** ** The list of notifications *)

Module NotificationFacts.
Import NotificationService.

Lemma add_notification_take {A : Type} (n : A) (ns : list A) :
  _add_notification n ns = take max_notifications (n :: ns).
Proof.
  unfold _add_notification.
  destruct (Nat.ltb_spec max_notifications (length (n :: ns))); [done|].
  by rewrite take_ge.
Qed.

Lemma take_app_take {A : Type} (k : nat) (l m : list A) :
  take k (l ++ take k m) = take k (l ++ m).
Proof.
  rewrite !take_app. f_equal. rewrite take_take. f_equal. lia.
Qed.

Lemma sending_from {A : Type} (sent : list A) : forall acc,
  fold_left (fun acc n => _add_notification n acc) sent
    (take max_notifications acc) =
  take max_notifications (rev sent ++ acc).
Proof.
  induction sent as [|n sent IH]; intros acc; simpl; [done|].
  rewrite add_notification_take.
  rewrite (IH (n :: take max_notifications acc)).
  rewrite <- app_assoc. simpl.
  change (rev sent ++ n :: take max_notifications acc)
    with (rev sent ++ [n] ++ take max_notifications acc).
  change (rev sent ++ n :: acc) with (rev sent ++ [n] ++ acc).
  rewrite !app_assoc. apply take_app_take.
Qed.

(** X30: after any series of notifications the list holds the last hundred
    sent, the newest first, and never more. *)
Theorem notifications_keep_the_newest_hundred {A : Type} (sent : list A) :
  after_sending sent = take 100 (rev sent) /\
  (length (after_sending sent) <= 100)%nat.
Proof.
  assert (after_sending sent = take 100 (rev sent)) as ->.
  { unfold after_sending.
    change (@nil A) with (take max_notifications (@nil A)).
    rewrite sending_from. by rewrite app_nil_r. }
  split; [done|]. rewrite length_take. lia.
Qed.

End NotificationFacts.
